(** * mbc20-claw: the binding helper (agent.py) and the mint scheduler
      (safe_mint_scheduler.py), embedded as functions over an explicit world.

    Conventions of the embedding.
    - Python [str] values are [string]s of ASCII text; code points above 127
      are outside the embedding ([upper] and [strip] follow Python on ASCII).
    - Python [int] is [Z].  JSON numbers with a fraction or an exponent
      (Python floats) are outside the embedding.
    - A Python [dict] is an association list in insertion order.
    - Text handed to [json.loads] is kept by what the decoder does with it
      ([raw_text]); the decoder itself is library code and is not embedded.
    - Effects (files, network, keyboard, clock, stdout, sleeping) act on a
      [world]; a raised exception is a [Raise] result.  The keyboard always
      has a next line, a request always ends (with a reply or without), and
      the clock moves only while the program sleeps.
    - A file is named by the argument its [Path] was made from.  It is
      missing, closed to the program (opening it raises [OSError], for
      reading and for writing alike), made of bytes that are not UTF-8, or
      holds a text; a file that can be read, and one that is missing, can be
      written. *)

From Stdlib Require Import ZArith List String Ascii Bool Lia QArith DecimalString.
From Stdlib Require Import DecimalPos.
Import ListNotations.
Open Scope string_scope.
Open Scope Z_scope.

Set Warnings "-register-all".

(** ** Python values and string methods *)

Module Py.

Inductive json : Type :=
| JNull
| JBool (b : bool)
| JInt (n : Z)
| JStr (s : string)
| JArr (items : list json)
| JObj (fields : list (string * json)).

Definition dict : Type := list (string * json).

(** [d.get(k)] without the default: [None] when the key is absent. *)
Fixpoint lookup (k : string) (d : dict) : option json :=
  match d with
  | [] => None
  | (k', v) :: rest => if String.eqb k k' then Some v else lookup k rest
  end.

(** [d[k] = v]: the key keeps its place when present, is appended otherwise. *)
Fixpoint store (k : string) (v : json) (d : dict) : dict :=
  match d with
  | [] => [(k, v)]
  | (k', v') :: rest =>
      if String.eqb k k' then (k', v) :: rest else (k', v') :: store k v rest
  end.

(** Truth value of a Python object, as [if x:] and [x or y] take it. *)
Definition truthy (j : json) : bool :=
  match j with
  | JNull => false
  | JBool b => b
  | JInt n => negb (n =? 0)
  | JStr s => negb (String.eqb s EmptyString)
  | JArr items => match items with [] => false | _ => true end
  | JObj fields => match fields with [] => false | _ => true end
  end.

(** [str(n)] for an int. *)
Definition str_of_int (n : Z) : string := NilZero.string_of_int (Z.to_int n).

(** Whitespace removed by [str.strip()], ASCII part: TAB, LF, VT, FF, CR,
    FS, GS, RS, US and the space. *)
Definition is_space (c : ascii) : bool :=
  let n := nat_of_ascii c in
  ((9 <=? n) && (n <=? 13) || (28 <=? n) && (n <=? 32))%nat.

Fixpoint lstrip_by (drop : ascii -> bool) (s : string) : string :=
  match s with
  | EmptyString => EmptyString
  | String c rest => if drop c then lstrip_by drop rest else s
  end.

Fixpoint rstrip_by (drop : ascii -> bool) (s : string) : string :=
  match s with
  | EmptyString => EmptyString
  | String c rest =>
      match rstrip_by drop rest with
      | EmptyString => if drop c then EmptyString else String c EmptyString
      | kept => String c kept
      end
  end.

Definition strip (s : string) : string := rstrip_by is_space (lstrip_by is_space s).

(** [s.rstrip("/")]. *)
Definition rstrip_slash (s : string) : string :=
  rstrip_by (fun c => Ascii.eqb c "/"%char) s.

Definition startswith (p s : string) : bool := String.prefix p s.

Fixpoint endswith (p s : string) : bool :=
  String.eqb p s ||
  match s with
  | EmptyString => false
  | String _ rest => endswith p rest
  end.

(** [s.replace(old, new)] for a non-empty [old]: leftmost occurrences, not
    overlapping.  [skip] counts the characters of a match still to drop. *)
Fixpoint replace_from (old new : string) (skip : nat) (s : string) : string :=
  match s with
  | EmptyString => EmptyString
  | String c rest =>
      match skip with
      | S k => replace_from old new k rest
      | O =>
          if String.prefix old s
          then new ++ replace_from old new (String.length old - 1) rest
          else String c (replace_from old new 0 rest)
      end
  end.

Definition replace (old new s : string) : string := replace_from old new 0 s.

Definition upper_char (c : ascii) : ascii :=
  let n := nat_of_ascii c in
  if ((97 <=? n) && (n <=? 122))%nat then ascii_of_nat (n - 32) else c.

Fixpoint upper (s : string) : string :=
  match s with
  | EmptyString => EmptyString
  | String c rest => String (upper_char c) (upper rest)
  end.

Definition is_digit (c : ascii) : bool :=
  let n := nat_of_ascii c in ((48 <=? n) && (n <=? 57))%nat.

Fixpoint forall_chars (p : ascii -> bool) (s : string) : bool :=
  match s with
  | EmptyString => true
  | String c rest => p c && forall_chars p rest
  end.

(** [s.isdigit()]: at least one character, all of them digits. *)
Definition isdigit (s : string) : bool :=
  negb (String.eqb s EmptyString) && forall_chars is_digit s.

(** [int(s)] on a string of digits, read left to right. *)
Fixpoint int_of_digits (acc : Z) (s : string) : Z :=
  match s with
  | EmptyString => acc
  | String c rest => int_of_digits (10 * acc + (Z.of_nat (nat_of_ascii c) - 48)) rest
  end.

(** [s[:n]]. *)
Definition take (n : nat) (s : string) : string := String.substring 0 n s.

(** *** json.dumps *)

Definition dq : string := String "034"%char EmptyString.
Definition backslash : string := String "092"%char EmptyString.

Definition hex_digit (n : nat) : ascii :=
  if (n <? 10)%nat then ascii_of_nat (48 + n) else ascii_of_nat (87 + n).

(** One character of a JSON string under [ensure_ascii]: the quote and the
    backslash are escaped, everything outside [' '..'~'] is written with its
    short escape or as [\u00XX]. *)
Definition escape_char (c : ascii) : string :=
  let n := nat_of_ascii c in
  if (n =? 34)%nat then backslash ++ dq
  else if (n =? 92)%nat then backslash ++ backslash
  else if (n =? 10)%nat then backslash ++ "n"
  else if (n =? 13)%nat then backslash ++ "r"
  else if (n =? 9)%nat then backslash ++ "t"
  else if (n =? 12)%nat then backslash ++ "f"
  else if (n =? 8)%nat then backslash ++ "b"
  else if ((32 <=? n) && (n <=? 126))%nat then String c EmptyString
  else backslash ++ "u00"
       ++ String (hex_digit (n / 16)) (String (hex_digit (n mod 16)) EmptyString).

Fixpoint escape (s : string) : string :=
  match s with
  | EmptyString => EmptyString
  | String c rest => escape_char c ++ escape rest
  end.

Definition dumps_str (s : string) : string := dq ++ escape s ++ dq.

(** [json.dumps(j, separators=(item_sep, key_sep))] on one line. *)
Fixpoint dumps (item_sep key_sep : string) (j : json) : string :=
  match j with
  | JNull => "null"
  | JBool true => "true"
  | JBool false => "false"
  | JInt n => str_of_int n
  | JStr s => dumps_str s
  | JArr items =>
      "[" ++ String.concat item_sep (List.map (dumps item_sep key_sep) items) ++ "]"
  | JObj fields =>
      "{" ++ String.concat item_sep
               (List.map (fun kv => dumps_str (fst kv) ++ key_sep
                                     ++ dumps item_sep key_sep (snd kv)) fields)
          ++ "}"
  end.

End Py.

(** ** The world the two tools run in *)

Module Sys.
Import Py.

(** A text as [json.loads] sees it: the empty text, a text that decodes to
    [j], or a non-empty text the decoder rejects. *)
Inductive raw_text : Type :=
| Empty
| Encodes (j : json)
| Garbage (s : string).

(** A file as [Path.read_text(encoding="utf-8")] and [Path.write_text] find
    it: not there; there but closed to the program (no permission, a
    directory: opening it raises [OSError]); holding the text [t]; or
    holding bytes that are not UTF-8, which reading refuses with
    [UnicodeDecodeError]. *)
Inductive file_state : Type :=
| Missing
| Unreadable
| Holds (t : raw_text)
| Undecodable.

(** A Python [str] whose pieces may be left as they are: a literal, [str(j)]
    of a decoded value, a raw text, a message made by library code, or
    [str(Path(arg))], the argument [arg] as pathlib writes it. *)
Inductive frag : Type :=
| Lit (s : string)
| Shown (j : json)
| Body (t : raw_text)
| Detail (what : string)
| PathOf (arg : string).

Definition text : Type := list frag.

Inductive exn : Type :=
| RuntimeError (msg : text)
| ValueError (msg : string)
| JSONDecodeError
| OSError
| URLError (reason : string)
| AttributeError
| TypeError
| KeyError (key : string)
| UnicodeDecodeError.

(** [str(exc)]. *)
Definition str_exn (e : exn) : text :=
  match e with
  | RuntimeError msg => msg
  | ValueError msg => [Lit msg]
  | URLError reason => [Lit ("<urlopen error " ++ reason ++ ">")]
  | KeyError key => [Lit ("'" ++ key ++ "'")]
  | JSONDecodeError => [Detail "JSONDecodeError"]
  | OSError => [Detail "OSError"]
  | AttributeError => [Detail "AttributeError"]
  | TypeError => [Detail "TypeError"]
  | UnicodeDecodeError => [Detail "UnicodeDecodeError"]
  end.

Record request : Type := {
  method : string;
  url : string;
  headers : list (string * text);
  data : option json;
  timeout : Z
}.

(** What [urlopen] does with a request: it returns a response (a 2xx
    status), raises [HTTPError] with the status and body of the reply, or
    raises [URLError] when no reply came. *)
Inductive http_outcome : Type :=
| Responds (status : Z) (body : raw_text)
| FailsHTTP (code : Z) (body : raw_text)
| FailsURL (reason : string).

Record world : Type := {
  files : string -> file_state;
  environ : string -> option string;
  network : nat -> http_outcome;   (* outcome of the n-th urlopen call *)
  requests : list request;         (* urlopen calls made, oldest first *)
  keyboard : nat -> string;        (* line typed at the n-th input() *)
  reads : nat;
  clock : Z;                       (* UTC, microseconds since the epoch *)
  stdout : list text;              (* one entry per print call *)
  sleeps : list Z                  (* seconds of each time.sleep, oldest first *)
}.

Inductive result (A : Type) : Type :=
| Ok (a : A)
| Raise (e : exn).
Arguments Ok {A} a.
Arguments Raise {A} e.

Definition M (A : Type) : Type := world -> result A * world.

Definition ret {A} (a : A) : M A := fun w => (Ok a, w).

Definition raise {A} (e : exn) : M A := fun w => (Raise e, w).

Definition bind {A B} (c : M A) (k : A -> M B) : M B :=
  fun w =>
    match c w with
    | (Ok a, w') => k a w'
    | (Raise e, w') => (Raise e, w')
    end.

(** [try: c  except Exception as exc: handler(exc)]. *)
Definition try_except {A} (c : M A) (handler : exn -> M A) : M A :=
  fun w =>
    match c w with
    | (Ok a, w') => (Ok a, w')
    | (Raise e, w') => handler e w'
    end.

Declare Scope py_scope.
Delimit Scope py_scope with py.
Notation "x <- c ;; k" := (bind c (fun x => k))
  (at level 61, c at next level, right associativity) : py_scope.
Notation "' pat <- c ;; k" := (bind c (fun x => match x with pat => k end))
  (at level 61, pat pattern, c at next level, right associativity) : py_scope.
Notation "c ;; k" := (bind c (fun _ => k))
  (at level 61, right associativity) : py_scope.
Open Scope py_scope.

Definition print (l : text) : M unit :=
  fun w =>
    (Ok tt,
     {| files := files w; environ := environ w; network := network w;
        requests := requests w; keyboard := keyboard w; reads := reads w;
        clock := clock w; stdout := (stdout w ++ [l])%list; sleeps := sleeps w |}).

(** [time.sleep(seconds)]: the clock moves on by that much. *)
Definition sleep (seconds : Z) : M unit :=
  fun w =>
    if seconds <? 0 then (Raise (ValueError "sleep length must be non-negative"), w)
    else
      (Ok tt,
       {| files := files w; environ := environ w; network := network w;
          requests := requests w; keyboard := keyboard w; reads := reads w;
          clock := clock w + seconds * 1000000; stdout := stdout w;
          sleeps := (sleeps w ++ [seconds])%list |}).

(** [input(prompt)]: the prompt is written, the next typed line is returned. *)
Definition input (prompt : string) : M string :=
  fun w =>
    (Ok (keyboard w (reads w)),
     {| files := files w; environ := environ w; network := network w;
        requests := requests w; keyboard := keyboard w; reads := S (reads w);
        clock := clock w; stdout := (stdout w ++ [[Lit prompt]])%list;
        sleeps := sleeps w |}).

(** [datetime.now(timezone.utc)]. *)
Definition utcnow : M Z := fun w => (Ok (clock w), w).

Definition getenv (name : string) : M (option string) :=
  fun w => (Ok (environ w name), w).

Definition path_exists (path : string) : M bool :=
  fun w => (Ok (match files w path with Missing => false | _ => true end), w).

(** [path.read_text(encoding="utf-8")]: a file that is missing or closed
    raises [OSError]; bytes that are not UTF-8 raise [UnicodeDecodeError],
    which is a [ValueError] and no [OSError]. *)
Definition read_text (path : string) : M raw_text :=
  fun w =>
    match files w path with
    | Holds t => (Ok t, w)
    | Undecodable => (Raise UnicodeDecodeError, w)
    | Missing | Unreadable => (Raise OSError, w)
    end.

(** [path.write_text(t, encoding="utf-8")]: a closed file raises [OSError]
    and stays as it is; any other file is created or replaced. *)
Definition write_text (path : string) (t : raw_text) : M unit :=
  fun w =>
    match files w path with
    | Unreadable => (Raise OSError, w)
    | Missing | Holds _ | Undecodable =>
        (Ok tt,
         {| files := fun p => if String.eqb p path then Holds t else files w p;
            environ := environ w; network := network w;
            requests := requests w; keyboard := keyboard w; reads := reads w;
            clock := clock w; stdout := stdout w; sleeps := sleeps w |})
    end.

(** [request.urlopen(req, timeout=...)]: the call is logged and the world
    answers. *)
Definition urlopen (req : request) : M http_outcome :=
  fun w =>
    (Ok (network w (List.length (requests w))),
     {| files := files w; environ := environ w; network := network w;
        requests := (requests w ++ [req])%list; keyboard := keyboard w;
        reads := reads w; clock := clock w; stdout := stdout w;
        sleeps := sleeps w |}).

(** [json.loads(text)]. *)
Definition json_loads (t : raw_text) : M json :=
  match t with
  | Encodes j => ret j
  | Empty | Garbage _ => raise JSONDecodeError
  end.

(** [x.get(key)] and [x.get(key, default)]: [x] must be a dict. *)
Definition get (x : json) (key : string) (default : json) : M json :=
  match x with
  | JObj d => ret (match lookup key d with Some v => v | None => default end)
  | _ => raise AttributeError
  end.

(** [x[key]]: a dict without the key raises [KeyError]; indexing anything
    else with a string raises [TypeError]. *)
Definition getitem (x : json) (key : string) : M json :=
  match x with
  | JObj d => match lookup key d with Some v => ret v | None => raise (KeyError key) end
  | _ => raise TypeError
  end.

(** A method of [str] called on [x]: anything but a string has none. *)
Definition as_str (x : json) : M string :=
  match x with
  | JStr s => ret s
  | _ => raise AttributeError
  end.

End Sys.

(** ** agent.py: the binding helper *)

Module Agent.
Import Py Sys.

Definition CONFIG_PATH : string := ".moltbook-agent.json".
Definition DEFAULT_API_BASE : string := "https://www.moltbook.com".
Definition MBC_LINK : string := "mbc20.xyz".

Definition nl : string := String "010"%char EmptyString.

Definition load_config : M json :=
  present <- path_exists CONFIG_PATH ;;
  if negb present then ret (JObj [])
  else
    try_except
      (t <- read_text CONFIG_PATH ;; json_loads t)
      (fun e =>
         match e with
         | OSError | JSONDecodeError => ret (JObj [])
         | _ => raise e
         end).

(** The text [json.dumps(config, indent=2)] decodes to [config] again, so
    the file is left holding a text that encodes it. *)
Definition save_config (config : json) : M unit :=
  write_text CONFIG_PATH (Encodes config).

Definition normalize_api_base (api_base : string) : M string :=
  let value := rstrip_slash (strip api_base) in
  if negb (startswith "http://" value || startswith "https://" value)
  then raise (ValueError "api-base must start with http:// or https://")
  else ret value.

Definition validate_app_key (app_key : string) : M string :=
  let value := strip app_key in
  if negb (startswith "moltdev_" value)
  then raise (ValueError "app key should start with moltdev_")
  else ret value.

Definition is_upper_or_digit (c : ascii) : bool :=
  let n := nat_of_ascii c in
  ((65 <=? n) && (n <=? 90) || (48 <=? n) && (n <=? 57))%nat.

(** [re.fullmatch(r"[A-Z0-9]{1,10}", s)] as a truth value. *)
Definition tick_fullmatch (s : string) : bool :=
  ((1 <=? String.length s) && (String.length s <=? 10))%nat
  && forall_chars is_upper_or_digit s.

Definition validate_tick (tick : string) : M string :=
  let normalized := upper (strip tick) in
  if negb (tick_fullmatch normalized)
  then raise (ValueError "tick must be 1-10 uppercase letters or digits")
  else ret normalized.

Definition validate_amt (amt : string) : M string :=
  let raw := strip amt in
  if negb (isdigit raw) || (int_of_digits 0 raw <=? 0)
  then raise (ValueError "amt must be a positive integer")
  else ret (str_of_int (int_of_digits 0 raw)).

Definition post_json (url : string) (headers : list (string * text))
    (payload : json) : M (Z * text) :=
  out <- urlopen {| method := "POST"; url := url; headers := headers;
                    data := Some payload; timeout := 20 |} ;;
  match out with
  | Responds status body => ret (status, [Body body])
  | FailsHTTP code body => ret (code, [Body body])
  | FailsURL reason => ret (0, [Lit ("network error: " ++ reason)])
  end.

Definition build_mint_post (tick amt : string) : string :=
  let payload := JObj [("p", JStr "mbc-20"); ("op", JStr "mint");
                       ("tick", JStr tick); ("amt", JStr amt)] in
  dumps "," ":" payload ++ nl ++ nl ++ MBC_LINK.

(** [config[key] = value]: only a dict takes a string key. *)
Definition setitem (config : json) (key : string) (value : json) : M json :=
  match config with
  | JObj d => ret (JObj (store key value d))
  | _ => raise TypeError
  end.

(** [except ValueError as exc: print(str(exc)); return 1]; the two decoding
    errors are [ValueError]s too. *)
Definition on_value_error (e : exn) : M Z :=
  match e with
  | ValueError _ | JSONDecodeError | UnicodeDecodeError => print (str_exn e) ;; ret 1
  | _ => raise e
  end.

Record bind_args : Type := {
  bind_app_key : string;
  bind_api_base : string;
  bind_bot_api_key : option string
}.

(** The [try] block of a command: either the validated values, or the exit
    code its [except] clause returns. *)
Definition checked {A} (c : M A) : M (A + Z) :=
  try_except (a <- c ;; ret (inl a))
             (fun e => code <- on_value_error e ;; ret (inr code)).

Definition cmd_bind (args : bind_args) : M Z :=
  validated <- checked (app_key <- validate_app_key (bind_app_key args) ;;
                        api_base <- normalize_api_base (bind_api_base args) ;;
                        ret (app_key, api_base)) ;;
  match validated with
  | inr code => ret code
  | inl (app_key, api_base) =>
      config <- load_config ;;
      config <- setitem config "app_key" (JStr app_key) ;;
      config <- setitem config "api_base" (JStr api_base) ;;
      config <- match bind_bot_api_key args with
                | Some k =>
                    if negb (String.eqb k EmptyString)
                    then setitem config "bot_api_key" (JStr (strip k))
                    else ret config
                | None => ret config
                end ;;
      save_config config ;;
      print [Lit ("bound Moltbook config in " ++ CONFIG_PATH)] ;;
      print [Lit ("api_base=" ++ api_base)] ;;
      print [Lit ("app_key=" ++ take 12 app_key ++ "...")] ;;
      ret 0
  end.

(** [a or b]: [a] when it is true, [b] otherwise. *)
Definition or_else (a b : json) : json := if truthy a then a else b.

Definition of_option (o : option string) : json :=
  match o with Some s => JStr s | None => JNull end.

Definition cmd_identity_token (arg_bot_api_key : option string) : M Z :=
  config <- load_config ;;
  api_base <- get config "api_base" (JStr DEFAULT_API_BASE) ;;
  validated <- checked (s <- as_str api_base ;; normalize_api_base s) ;;
  match validated with
  | inr code => ret code
  | inl api_base =>
      bound <- get config "bot_api_key" JNull ;;
      env <- getenv "MOLTBOOK_API_KEY" ;;
      let bot_api_key := or_else (or_else (of_option arg_bot_api_key) bound)
                                 (of_option env) in
      if negb (truthy bot_api_key) then
        print [Lit "missing bot api key. set --bot-api-key, bind --bot-api-key, or MOLTBOOK_API_KEY"] ;;
        ret 1
      else
        '(status, body) <- post_json (api_base ++ "/api/v1/agents/me/identity-token")
                             [("Content-Type", [Lit "application/json"]);
                              ("Authorization", [Lit "Bearer "; Shown bot_api_key])]
                             (JObj []) ;;
        print [Lit ("status=" ++ str_of_int status)] ;;
        print body ;;
        ret (if (200 <=? status) && (status <? 300) then 0 else 1)
  end.

Record verify_args : Type := {
  verify_token : string;
  verify_app_key : option string
}.

Definition cmd_verify_identity (args : verify_args) : M Z :=
  config <- load_config ;;
  bound <- (if truthy (of_option (verify_app_key args)) then ret JNull
            else get config "app_key" JNull) ;;
  env <- getenv "MOLTBOOK_APP_KEY" ;;
  let app_key := or_else (or_else (of_option (verify_app_key args)) bound)
                         (of_option env) in
  api_base <- get config "api_base" (JStr DEFAULT_API_BASE) ;;
  if negb (truthy app_key) then
    print [Lit "missing app key. run bind --app-key or pass --app-key"] ;;
    ret 1
  else
    validated <- checked (k <- as_str app_key ;;
                          app_key <- validate_app_key k ;;
                          b <- as_str api_base ;;
                          api_base <- normalize_api_base b ;;
                          ret (app_key, api_base)) ;;
    match validated with
    | inr code => ret code
    | inl (app_key, api_base) =>
        '(status, body) <- post_json (api_base ++ "/api/v1/agents/verify-identity")
                             [("Content-Type", [Lit "application/json"]);
                              ("X-Moltbook-App-Key", [Lit app_key])]
                             (JObj [("token", JStr (strip (verify_token args)))]) ;;
        print [Lit ("status=" ++ str_of_int status)] ;;
        print body ;;
        ret (if (200 <=? status) && (status <? 300) then 0 else 1)
    end.

Record mint_args : Type := {
  mint_tick : string;
  mint_amt : string
}.

Definition cmd_mint (args : mint_args) : M Z :=
  validated <- checked (tick <- validate_tick (mint_tick args) ;;
                        amt <- validate_amt (mint_amt args) ;;
                        ret (tick, amt)) ;;
  match validated with
  | inr code => ret code
  | inl (tick, amt) =>
      print [Lit (build_mint_post tick amt)] ;;
      ret 0
  end.

End Agent.

(** ** safe_mint_scheduler.py: the mint scheduler *)

Module Scheduler.
Import Py Sys.

Definition API_BASE : string := "https://www.moltbook.com/api/v1".
Definition MBC_LINK : string := "mbc20.xyz".

Definition nl : string := String "010"%char EmptyString.

(** [a or b]. *)
Definition or_else (a b : json) : json := if truthy a then a else b.

(** [int(s)] for a string, ASCII part: digits, single underscores between
    digits, an optional sign, blanks around. *)
Fixpoint digits_value (after_digit : bool) (acc : Z) (s : string) : option Z :=
  match s with
  | EmptyString => if after_digit then Some acc else None
  | String c rest =>
      if is_digit c
      then digits_value true (10 * acc + (Z.of_nat (nat_of_ascii c) - 48)) rest
      else if Ascii.eqb c "_"%char && after_digit then digits_value false acc rest
      else None
  end.

Definition int_of_str (s : string) : option Z :=
  match strip s with
  | String "-"%char rest => option_map Z.opp (digits_value false 0 rest)
  | String "+"%char rest => digits_value false 0 rest
  | body => digits_value false 0 body
  end.

(** [int(x)]. *)
Definition py_int (x : json) : M Z :=
  match x with
  | JInt n => ret n
  | JBool b => ret (if b then 1 else 0)
  | JStr s =>
      match int_of_str s with
      | Some n => ret n
      | None => raise (ValueError "invalid literal for int() with base 10")
      end
  | JNull | JArr _ | JObj _ => raise TypeError
  end.

(** A [timedelta] is kept in microseconds; [total_seconds()] is its exact
    value in seconds.  (The float Python returns compares with [24 * 3600]
    the same way: a whole number of microseconds below a day is more than
    half an ulp away from 86400.) *)
Definition total_seconds (delta : Z) : Q := delta # 1000000.

Definition Qltb (x y : Q) : bool := negb (Qle_bool y x).

Record args : Type := {
  tick : string;
  amt : Z;
  submolt : string;
  title : string;
  interval_minutes : Z;
  count : Z;
  credentials : string;
  no_nonce : bool
}.

(** How a run of the scheduler stands when it is looked at: the exit code
    once [run_scheduler] has returned ([None] while the loop is still going),
    the success counter, and the result of every finished [post_once] call,
    oldest first. *)
Record run : Type := {
  exit_code : option Z;
  sent : Z;
  attempts : list bool
}.

Section Library.

(** [datetime.fromisoformat(ts).astimezone(timezone.utc)], in microseconds
    since the epoch; [None] when the library raises [ValueError]. *)
Variable fromisoformat : string -> option Z.

(** [t.strftime("%Y%m%d%H%M%S")] for the UTC instant [t]. *)
Variable strftime : Z -> string.

Definition load_api_key (path : string) : M string :=
  present <- path_exists path ;;
  if negb present
  then raise (RuntimeError [Lit "credentials not found: "; PathOf path])
  else
    t <- read_text path ;;
    data <- json_loads t ;;
    v <- get data "api_key" (JStr EmptyString) ;;
    s <- as_str v ;;
    let api_key := strip s in
    if String.eqb api_key EmptyString
    then raise (RuntimeError [Lit "api_key missing in credentials file"])
    else ret api_key.

Definition parse_iso8601 (ts : json) : M Z :=
  s <- as_str ts ;;
  let s := if endswith "Z" s then replace "Z" "+00:00" s else s in
  match fromisoformat s with
  | Some t => ret t
  | None => raise (ValueError "Invalid isoformat string")
  end.

Definition api_request (method endpoint api_key : string) (payload : option json)
  : M (Z * json) :=
  let url := API_BASE ++ endpoint in
  let headers := [("Authorization", [Lit ("Bearer " ++ api_key)])] in
  let headers :=
    match payload with
    | Some _ => (headers ++ [("Content-Type", [Lit "application/json"])])%list
    | None => headers
    end in
  out <- urlopen {| Sys.method := method; url := url; headers := headers;
                    data := payload; timeout := 30 |} ;;
  match out with
  | Responds status raw =>
      parsed <- match raw with
                | Empty => ret (JObj [])
                | _ => json_loads raw
                end ;;
      ret (status, parsed)
  | FailsHTTP code raw =>
      let parsed :=
        match raw with
        | Empty => JObj []
        | Encodes j => j
        | Garbage s => JObj [("success", JBool false); ("error", JStr s)]
        end in
      ret (code, parsed)
  | FailsURL reason => raise (URLError reason)
  end.

Definition get_me (api_key : string) : M json :=
  '(code, data) <- api_request "GET" "/agents/me" api_key None ;;
  failed <- (if negb (code =? 200) then ret true
             else s <- get data "success" JNull ;; ret (negb (truthy s))) ;;
  if failed
  then raise (RuntimeError [Lit ("/agents/me failed (" ++ str_of_int code ++ "): ");
                            Shown data])
  else getitem data "agent".

Definition platform_min_interval_minutes (created_at : json) : M Z :=
  now <- utcnow ;;
  created <- parse_iso8601 created_at ;;
  let age := now - created in
  ret (if Qltb (total_seconds age) (inject_Z (24 * 3600)) then 120 else 30).

Definition build_nonce : M string :=
  now <- utcnow ;;
  ret (strftime now).

Definition mint_content (tick amt : string) (add_nonce : bool) : M string :=
  let payload := JObj [("p", JStr "mbc-20"); ("op", JStr "mint");
                       ("tick", JStr tick); ("amt", JStr amt)] in
  let base := dumps "," ":" payload ++ " " ++ MBC_LINK in
  if negb add_nonce then ret base
  else
    nonce <- build_nonce ;;
    ret (base ++ nl ++ nl ++ "nonce:" ++ nonce).

Definition submit_verification_if_needed (api_key : string) (post_resp : json)
  : M bool :=
  required <- get post_resp "verification_required" JNull ;;
  if negb (truthy required) then ret true
  else
    verify <- get post_resp "verification" (JObj []) ;;
    code <- get verify "code" JNull ;;
    challenge <- get verify "challenge" JNull ;;
    if negb (truthy code) then
      print [Lit "verification required but code missing; cannot continue"] ;;
      ret false
    else
      print [Lit (nl ++ "Verification required by Moltbook.")] ;;
      (if truthy challenge then print [Lit "Challenge: "; Shown challenge]
       else ret tt) ;;
      typed <- input "Enter verification answer (example 525.00): " ;;
      let answer := strip typed in
      if String.eqb answer EmptyString then
        print [Lit "empty answer, stop"] ;;
        ret false
      else
        '(status, result) <- api_request "POST" "/verify" api_key
                               (Some (JObj [("verification_code", code);
                                            ("answer", JStr answer)])) ;;
        verified <- (if (200 <=? status) && (status <? 300)
                     then s <- get result "success" JNull ;; ret (truthy s)
                     else ret false) ;;
        if verified then
          message <- get result "message" (JStr "ok") ;;
          print [Lit "verified: "; Shown message] ;;
          ret true
        else
          print [Lit ("verify failed (" ++ str_of_int status ++ "): "); Shown result] ;;
          ret false.

(** The wait of the 429 branch of [post_once], from the decoded body. *)
Definition rate_limit_wait (data : json) : M Z :=
  retry_m <- get data "retry_after_minutes" JNull ;;
  retry_s <- get data "retry_after_seconds" JNull ;;
  wait_s <- py_int (or_else retry_s (JInt 0)) ;;
  wait_s <- (if truthy retry_m
             then m <- py_int retry_m ;; ret (Z.max wait_s (m * 60))
             else ret wait_s) ;;
  ret (if wait_s <=? 0 then 1800 else wait_s).

Definition post_once (api_key submolt title tick amt : string) (add_nonce : bool)
  : M bool :=
  content <- mint_content tick amt add_nonce ;;
  '(status, data) <- api_request "POST" "/posts" api_key
                       (Some (JObj [("submolt", JStr submolt);
                                    ("title", JStr title);
                                    ("content", JStr content)])) ;;
  if status =? 429 then
    wait_s <- rate_limit_wait data ;;
    print [Lit ("rate limited; sleeping " ++ str_of_int wait_s ++ " seconds")] ;;
    sleep wait_s ;;
    ret false
  else
    failed <- (if (status <? 200) || (status >=? 300) then ret true
               else s <- get data "success" JNull ;; ret (negb (truthy s))) ;;
    if failed then
      print [Lit ("post failed (" ++ str_of_int status ++ "): "); Shown data] ;;
      ret false
    else
      post <- get data "post" (JObj []) ;;
      id <- get post "id" JNull ;;
      link <- get post "url" (JStr EmptyString) ;;
      print [Lit "created post: "; Shown id; Lit " https://www.moltbook.com"; Shown link] ;;
      verified <- submit_verification_if_needed api_key data ;;
      if negb verified then ret false
      else ret true.

(** The [while True] loop of [run_scheduler]; [fuel] bounds the number of
    iterations looked at. *)
Fixpoint scheduler_loop (fuel : nat) (a : args) (api_key title : string)
    (interval : Z) (sent : Z) (attempts : list bool) : M run :=
  match fuel with
  | O => ret {| exit_code := None; sent := sent; attempts := attempts |}
  | S fuel' =>
      ok <- post_once api_key (submolt a) title (tick a) (str_of_int (amt a))
                      (negb (no_nonce a)) ;;
      sent <- (if ok then
                 print [Lit ("posted count=" ++ str_of_int (sent + 1))] ;;
                 ret (sent + 1)
               else ret sent) ;;
      let attempts := (attempts ++ [ok])%list in
      if (count a >? 0) && (sent >=? count a) then
        print [Lit "done"] ;;
        ret {| exit_code := Some 0; sent := sent; attempts := attempts |}
      else
        let sleep_seconds := interval * 60 in
        print [Lit ("sleeping " ++ str_of_int sleep_seconds ++ " seconds...")] ;;
        sleep sleep_seconds ;;
        scheduler_loop fuel' a api_key title interval sent attempts
  end.

Definition stopped (code : Z) : M run :=
  ret {| exit_code := Some code; sent := 0; attempts := [] |}.

Definition run_scheduler (fuel : nat) (a : args) : M run :=
  started <- try_except
               (api_key <- load_api_key (credentials a) ;;
                me <- get_me api_key ;;
                ret (Some (api_key, me)))
               (fun exc => print (str_exn exc) ;; ret None) ;;
  match started with
  | None => stopped 1
  | Some (api_key, me) =>
      claimed <- get me "is_claimed" JNull ;;
      if negb (truthy claimed) then
        print [Lit "agent is not claimed yet; cannot post"] ;;
        stopped 1
      else
        created_at <- getitem me "created_at" ;;
        min_interval <- platform_min_interval_minutes created_at ;;
        let chosen := interval_minutes a in
        let interval := Z.max chosen min_interval in
        (if chosen <? min_interval then
           print [Lit ("requested " ++ str_of_int chosen ++ "m is too fast; enforced "
                       ++ str_of_int interval ++ "m to match platform rules")]
         else
           print [Lit ("using interval " ++ str_of_int interval ++ "m")]) ;;
        let title := replace "{tick}" (tick a) (title a) in
        scheduler_loop fuel a api_key title interval 0 []
  end.

Definition main (fuel : nat) (a : args) : M run :=
  if amt a <=? 0 then
    print [Lit "amt must be > 0"] ;; stopped 1
  else if interval_minutes a <=? 0 then
    print [Lit "interval-minutes must be > 0"] ;; stopped 1
  else if count a <? 0 then
    print [Lit "count must be >= 0"] ;; stopped 1
  else run_scheduler fuel a.

End Library.

End Scheduler.

(** ** Concrete library instances and worlds for the scenarios *)

Module Scenarios.
Import Py Sys.

(** Days since 1970-01-01 of a civil date, and back (proleptic Gregorian). *)
Definition days_of_civil (y m d : Z) : Z :=
  let y := if m <=? 2 then y - 1 else y in
  let era := y / 400 in
  let yoe := y - era * 400 in
  let doy := (153 * (if m >? 2 then m - 3 else m + 9) + 2) / 5 + d - 1 in
  let doe := yoe * 365 + yoe / 4 - yoe / 100 + doy in
  era * 146097 + doe - 719468.

Definition civil_of_days (z : Z) : Z * Z * Z :=
  let z := z + 719468 in
  let era := z / 146097 in
  let doe := z - era * 146097 in
  let yoe := (doe - doe / 1460 + doe / 36524 - doe / 146096) / 365 in
  let doy := doe - (365 * yoe + yoe / 4 - yoe / 100) in
  let mp := (5 * doy + 2) / 153 in
  let d := doy - (153 * mp + 2) / 5 + 1 in
  let m := if mp <? 10 then mp + 3 else mp - 9 in
  let y := yoe + era * 400 in
  (if m <=? 2 then y + 1 else y, m, d).

Definition pad2 (n : Z) : string :=
  if n <? 10 then "0" ++ str_of_int n else str_of_int n.

(** [strftime("%Y%m%d%H%M%S")] of an instant given in microseconds, for
    years 1000 to 9999. *)
Definition strftime (t : Z) : string :=
  let secs := t / 1000000 in
  let '(y, m, d) := civil_of_days (secs / 86400) in
  let sod := secs mod 86400 in
  str_of_int y ++ pad2 m ++ pad2 d
    ++ pad2 (sod / 3600) ++ pad2 (sod mod 3600 / 60) ++ pad2 (sod mod 60).

Definition number_at (start len : nat) (s : string) : option Z :=
  let piece := String.substring start len s in
  if isdigit piece then Some (int_of_digits 0 piece) else None.

(** [fromisoformat] on the one layout [YYYY-MM-DDTHH:MM:SS+00:00]; every
    other text is refused. *)
Definition fromisoformat (s : string) : option Z :=
  if negb (Nat.eqb (String.length s) 25) then None
  else if negb (String.eqb (String.substring 4 1 s) "-"
                && String.eqb (String.substring 7 1 s) "-"
                && String.eqb (String.substring 10 1 s) "T"
                && String.eqb (String.substring 13 1 s) ":"
                && String.eqb (String.substring 16 1 s) ":"
                && String.eqb (String.substring 19 6 s) "+00:00") then None
  else
    match number_at 0 4 s, number_at 5 2 s, number_at 8 2 s,
          number_at 11 2 s, number_at 14 2 s, number_at 17 2 s with
    | Some y, Some m, Some d, Some hh, Some mm, Some ss =>
        Some ((days_of_civil y m d * 86400 + hh * 3600 + mm * 60 + ss) * 1000000)
    | _, _, _, _, _, _ => None
    end.

(** 2026-01-01T01:00:00Z, in microseconds since the epoch. *)
Definition new_year_1am : Z := 1767229200000000.

Definition no_files : string -> file_state := fun _ => Missing.

Definition with_file (path : string) (content : json)
    (fs : string -> file_state) : string -> file_state :=
  fun p => if String.eqb p path then Holds (Encodes content) else fs p.

Definition replies (script : list http_outcome) : nat -> http_outcome :=
  fun n => nth n script (FailsURL "timed out").

Definition typed (lines : list string) : nat -> string :=
  fun n => nth n lines EmptyString.

Definition initial (fs : string -> file_state) (net : list http_outcome)
    (kb : list string) (now : Z) : world :=
  {| files := fs; environ := fun _ => None; network := replies net;
     requests := []; keyboard := typed kb; reads := 0; clock := now;
     stdout := []; sleeps := [] |}.

Definition creds_path : string := "/home/bot/.config/moltbook/credentials.json".

Definition good_creds : string -> file_state :=
  with_file creds_path (JObj [("api_key", JStr "moltbook_sk_1")]) no_files.

(** [/agents/me] for a claimed agent created at 2026-01-01T00:00:00Z. *)
Definition me_reply : http_outcome :=
  Responds 200 (Encodes (JObj [("success", JBool true);
    ("agent", JObj [("name", JStr "claw"); ("is_claimed", JBool true);
                    ("created_at", JStr "2026-01-01T00:00:00Z")])])).

Definition posted (id : Z) : http_outcome :=
  Responds 201 (Encodes (JObj [("success", JBool true);
    ("post", JObj [("id", JInt id); ("url", JStr "/post/1")])])).

Definition needs_verification : http_outcome :=
  Responds 201 (Encodes (JObj [("success", JBool true);
    ("post", JObj [("id", JInt 7); ("url", JStr "/post/7")]);
    ("verification_required", JBool true);
    ("verification", JObj [("code", JStr "vc_1"); ("challenge", JStr "21 * 25")])])).

Definition rate_limited (fields : dict) : http_outcome :=
  FailsHTTP 429 (Encodes (JObj fields)).

Definition server_error : http_outcome :=
  FailsHTTP 500 (Garbage "Internal Server Error").

Definition verify_ok : http_outcome :=
  Responds 200 (Encodes (JObj [("success", JBool true); ("message", JStr "verified")])).

Definition verify_rejected : http_outcome :=
  FailsHTTP 400 (Encodes (JObj [("success", JBool false); ("error", JStr "wrong answer")])).

Definition claw_args (interval count : Z) : Scheduler.args :=
  {| Scheduler.tick := "CLAW"; Scheduler.amt := 100; Scheduler.submolt := "general";
     Scheduler.title := "mint ${tick}"; Scheduler.interval_minutes := interval;
     Scheduler.count := count; Scheduler.credentials := creds_path;
     Scheduler.no_nonce := false |}.

End Scenarios.

(** ** Vocabulary of the statements *)

Import Py Sys.

(** 24 hours, in microseconds. *)
Definition day_us : Z := 24 * 3600 * 1000000.

(** The field [key] of a response body read as a number of seconds or
    minutes: an integer, or 0 when the field is absent or null. *)
Definition numeric_field (d : dict) (key : string) (n : Z) : Prop :=
  (lookup key d = None /\ n = 0)
  \/ (lookup key d = Some JNull /\ n = 0)
  \/ lookup key d = Some (JInt n).

(** The request [api_request] builds. *)
Definition request_of (method endpoint api_key : string) (payload : option json)
  : request :=
  {| method := method; url := Scheduler.API_BASE ++ endpoint;
     headers := match payload with
                | Some _ => [("Authorization", [Lit ("Bearer " ++ api_key)]);
                             ("Content-Type", [Lit "application/json"])]
                | None => [("Authorization", [Lit ("Bearer " ++ api_key)])]
                end;
     data := payload; timeout := 30 |}.

(** The world once [req] has been sent. *)
Definition after_request (req : request) (w : world) : world := snd (urlopen req w).

(** What [run_scheduler] prints about the interval it settled on. *)
Definition interval_report (chosen min_interval : Z) : text :=
  if chosen <? min_interval
  then [Lit ("requested " ++ str_of_int chosen ++ "m is too fast; enforced "
             ++ str_of_int (Z.max chosen min_interval) ++ "m to match platform rules")]
  else [Lit ("using interval " ++ str_of_int (Z.max chosen min_interval) ++ "m")].

(** The world once [line] has been printed. *)
Definition after_print (line : text) (w : world) : world := snd (print line w).

(** [s] between double quotes. *)
Definition quoted (s : string) : string := dq ++ s ++ dq.

(** The compact JSON object both builders start with, keys in the order
    p, op, tick, amt. *)
Definition mint_json (tick amt : string) : string :=
  "{" ++ quoted "p" ++ ":" ++ quoted "mbc-20" ++ ","
      ++ quoted "op" ++ ":" ++ quoted "mint" ++ ","
      ++ quoted "tick" ++ ":" ++ quoted (escape tick) ++ ","
      ++ quoted "amt" ++ ":" ++ quoted (escape amt) ++ "}".

(** [args.bot_api_key] is given and not empty. *)
Definition bot_key_supplied (args : Agent.bind_args) : bool :=
  match Agent.bind_bot_api_key args with
  | Some k => negb (String.eqb k EmptyString)
  | None => false
  end.

(** Number of successful attempts in a history. *)
Definition successes (history : list bool) : Z :=
  Z.of_nat (count_occ Bool.bool_dec history true).

(** The world once the loop has announced and taken its interval sleep. *)
Definition after_interval_sleep (interval : Z) (w : world) : world :=
  snd (sleep (interval * 60)
         (after_print [Lit ("sleeping " ++ str_of_int (interval * 60) ++ " seconds...")] w)).

(** [d.get(key)]. *)
Definition field (d : dict) (key : string) : json :=
  match lookup key d with Some v => v | None => JNull end.

(** [200 <= status < 300]. *)
Definition in_2xx (status : Z) : bool := (200 <=? status) && (status <? 300).

(** Status and decoded body [api_request] returns for an outcome of
    [urlopen]; [None] when it raises instead. *)
Definition decoded (o : http_outcome) : option (Z * json) :=
  match o with
  | Responds status Empty => Some (status, JObj [])
  | Responds status (Encodes j) => Some (status, j)
  | Responds _ (Garbage _) => None
  | FailsHTTP code Empty => Some (code, JObj [])
  | FailsHTTP code (Encodes j) => Some (code, j)
  | FailsHTTP code (Garbage s) =>
      Some (code, JObj [("success", JBool false); ("error", JStr s)])
  | FailsURL _ => None
  end.

(** The server's answer to [/verify] is a success. *)
Definition verify_accepts (o : http_outcome) : bool :=
  match decoded o with
  | Some (status, JObj r) => in_2xx status && truthy (field r "success")
  | _ => false
  end.

(** The server answered [/verify] and the answer is not a success. *)
Definition verify_rejects (o : http_outcome) : bool :=
  match decoded o with
  | Some (status, JObj r) => negb (in_2xx status && truthy (field r "success"))
  | Some (status, _) => negb (in_2xx status)
  | None => false
  end.

(** The world once [input] has shown its prompt and taken a line. *)
Definition after_input (prompt : string) (w : world) : world := snd (input prompt w).


(** What [load_config] makes of the configuration file: the value its text
    encodes; the empty mapping when the file is missing, cannot be opened or
    holds no JSON; [UnicodeDecodeError] when its bytes are not UTF-8. *)
Definition config_read (f : file_state) : result json :=
  match f with
  | Holds (Encodes j) => Ok j
  | Missing | Unreadable | Holds Empty | Holds (Garbage _) => Ok (JObj [])
  | Undecodable => Raise UnicodeDecodeError
  end.

(** The world once [save_config] has written [config]. *)
Definition after_save (config : json) (w : world) : world :=
  {| files := fun p => if String.eqb p Agent.CONFIG_PATH then Holds (Encodes config)
                       else files w p;
     environ := environ w; network := network w; requests := requests w;
     keyboard := keyboard w; reads := reads w; clock := clock w;
     stdout := stdout w; sleeps := sleeps w |}.

(** A computation only adds to the log of requests. *)
Definition appends_requests {A} (c : M A) : Prop :=
  forall w r w', c w = (r, w') -> exists more, requests w' = (requests w ++ more)%list.

(** Every request is answered by an accepted post that asks for no
    verification. *)
Definition always_accepts (w : world) : Prop :=
  forall n, exists status d,
    network w n = Responds status (Encodes (JObj d))
    /\ in_2xx status = true
    /\ truthy (field d "success") = true
    /\ truthy (field d "verification_required") = false
    /\ (lookup "post" d = None \/ exists p, lookup "post" d = Some (JObj p)).


(** ** Vocabulary of the further properties *)

(** The mapping [cmd_bind] writes when [load_config] gave the mapping [d]. *)
Definition bound_config (args : Agent.bind_args) (d : dict) : dict :=
  let d2 := store "api_base" (JStr (rstrip_slash (strip (Agent.bind_api_base args))))
              (store "app_key" (JStr (strip (Agent.bind_app_key args))) d) in
  match Agent.bind_bot_api_key args with
  | Some k =>
      if negb (String.eqb k EmptyString)
      then store "bot_api_key" (JStr (strip k)) d2
      else d2
  | None => d2
  end.

(** One effect on the world. *)
Inductive event : Type :=
| Printed (line : text)
| Slept (seconds : Z)
| Asked (prompt : string)
| Sent (req : request)
| Wrote (path : string) (content : raw_text).

(** The world once the effect [e] has taken place. *)
Definition happen (e : event) (w : world) : world :=
  match e with
  | Printed line => after_print line w
  | Slept seconds => snd (sleep seconds w)
  | Asked prompt => after_input prompt w
  | Sent req => after_request req w
  | Wrote path content => snd (write_text path content w)
  end.

(** The world after a series of effects, oldest first. *)
Definition after_events (evs : list event) (w : world) : world :=
  fold_left (fun w e => happen e w) evs w.

(** Run from [w], the computation [c] changes the world only by a series of
    events that all satisfy [P]. *)
Definition emits_from {A} (P : event -> Prop) (c : M A) (w : world) : Prop :=
  forall r w', c w = (r, w') ->
  exists evs, w' = after_events evs w /\ Forall P evs.

(** The same, from every world. *)
Definition emits {A} (P : event -> Prop) (c : M A) : Prop :=
  forall w, emits_from P c w.

(** The requests among a series of events, oldest first. *)
Definition sent_in (evs : list event) : list request :=
  flat_map (fun e => match e with Sent req => [req] | _ => [] end) evs.

(** The effect is a write to a file. *)
Definition is_write (e : event) : Prop :=
  match e with Wrote _ _ => True | _ => False end.

(** A request the scheduler makes with the key [api_key]: the account
    query, a post, or a verification answer. *)
Definition scheduler_request (api_key : string) (req : request) : Prop :=
  req = request_of "GET" "/agents/me" api_key None
  \/ (exists payload, req = request_of "POST" "/posts" api_key (Some payload))
  \/ (exists payload, req = request_of "POST" "/verify" api_key (Some payload)).

(** The effects the scheduler may have when [right_key] tells its key: it
    prints, prompts, sleeps for a time that is not negative, and sends
    requests of the three kinds under that key; it writes no file. *)
Definition scheduler_event (right_key : string -> Prop) (e : event) : Prop :=
  match e with
  | Sent req => exists k, right_key k /\ scheduler_request k req
  | Slept seconds => 0 <= seconds
  | Wrote _ _ => False
  | Printed _ | Asked _ => True
  end.

(** The key [run_scheduler] works with, read from the credentials file. *)
Definition loaded_key (a : Scheduler.args) (w : world) (k : string) : Prop :=
  Scheduler.load_api_key (Scheduler.credentials a) w = (Ok k, w).

(** Interval sleeps a run has taken for sure: one after every attempt but
    the one it returned on. *)
Definition full_intervals (r : Scheduler.run) (before : nat) : Z :=
  Z.of_nat (List.length (Scheduler.attempts r)) - Z.of_nat before
  - match Scheduler.exit_code r with Some _ => 1 | None => 0 end.

(** The payload of a post with the content [content]. *)
Definition post_payload (submolt title content : string) : json :=
  JObj [("submolt", JStr submolt); ("title", JStr title); ("content", JStr content)].

(** The line [post_once] prints for a created post. *)
Definition created_line (data : dict) : text :=
  let post := match lookup "post" data with Some (JObj p) => p | _ => [] end in
  [Lit "created post: "; Shown (field post "id"); Lit " https://www.moltbook.com";
   Shown (match lookup "url" post with Some v => v | None => JStr EmptyString end)].

(** An effect other than a request. *)
Definition no_request (e : event) : Prop :=
  match e with Sent _ => False | _ => True end.

(** The [agent] entry of an accepted answer to [/agents/me]: status 200 and
    a mapping whose [success] is true and that has the entry. *)
Definition agent_of (o : http_outcome) : option json :=
  match decoded o with
  | Some (status, JObj d) =>
      if (status =? 200) && truthy (field d "success") then lookup "agent" d else None
  | _ => None
  end.

(** The request [get_me] makes. *)
Definition account_query (api_key : string) : request :=
  request_of "GET" "/agents/me" api_key None.



(** The request [post_json] sends. *)
Definition json_post (url : string) (headers : list (string * text)) (payload : json)
  : request :=
  {| method := "POST"; url := url; headers := headers; data := Some payload;
     timeout := 20 |}.



(** [base] starts with one of the two schemes. *)
Definition has_scheme (base : string) : bool :=
  startswith "http://" base || startswith "https://" base.

(** A request an identity command makes: a POST with a JSON body and a
    timeout of 20 seconds, to one of the two endpoints under a base that
    starts with [http://] or [https://]. *)
Definition agent_request (req : request) : Prop :=
  method req = "POST" /\ timeout req = 20 /\ data req <> None
  /\ exists base, has_scheme base = true
       /\ (url req = base ++ "/api/v1/agents/me/identity-token"
           \/ url req = base ++ "/api/v1/agents/verify-identity").

(** The effects of an identity command: it prints and sends such requests;
    it writes no file, does not sleep and asks nothing. *)
Definition agent_event (e : event) : Prop :=
  match e with
  | Printed _ => True
  | Sent req => agent_request req
  | Slept _ | Asked _ | Wrote _ _ => False
  end.

(** What a run from [w] to [w'] may have done: no file written, no sleep, no
    prompt, the clock untouched, and only requests of an identity command
    sent. *)
Definition identity_footprint (w w' : world) : Prop :=
  files w' = files w /\ sleeps w' = sleeps w /\ reads w' = reads w
  /\ clock w' = clock w
  /\ exists sent, requests w' = (requests w ++ sent)%list /\ Forall agent_request sent.

(** A character other than [Z]. *)
Definition not_z (c : ascii) : bool := negb (Ascii.eqb c "Z"%char).

(** ** urllib.parse and the auth-url command

    [quote_plus] and [urlencode] on ASCII text, with no further safe
    character, as [cmd_auth_url] calls them. *)

Module Parse.
Import Py.

(** The characters [quote] never escapes: letters, digits and [_.-~]. *)
Definition always_safe (c : ascii) : bool :=
  let n := nat_of_ascii c in
  ((65 <=? n) && (n <=? 90) || (97 <=? n) && (n <=? 122) || (48 <=? n) && (n <=? 57)
   || (n =? 95) || (n =? 46) || (n =? 45) || (n =? 126))%nat.

Definition upper_hex_digit (n : nat) : ascii :=
  if (n <? 10)%nat then ascii_of_nat (48 + n) else ascii_of_nat (55 + n).

(** One character under [quote_plus] with no further safe character: a
    space becomes [+], everything else that is not always safe becomes [%XX]
    with upper-case digits. *)
Definition quote_plus_char (c : ascii) : string :=
  let n := nat_of_ascii c in
  if always_safe c then String c EmptyString
  else if (n =? 32)%nat then "+"
  else String "%" (String (upper_hex_digit (n / 16))
                     (String (upper_hex_digit (n mod 16)) EmptyString)).

Fixpoint quote_plus (s : string) : string :=
  match s with
  | EmptyString => EmptyString
  | String c rest => quote_plus_char c ++ quote_plus rest
  end.

(** [urlencode(query)] for a dict of strings, in insertion order. *)
Definition urlencode (query : list (string * string)) : string :=
  String.concat "&"
    (List.map (fun kv => quote_plus (fst kv) ++ "=" ++ quote_plus (snd kv)) query).

End Parse.

Module AuthUrl.
Import Py Sys.

Record auth_url_args : Type := {
  app_name : string;
  endpoint : string;
  header : option string
}.

Definition cmd_auth_url (args : auth_url_args) : M Z :=
  let query := [("app", strip (app_name args)); ("endpoint", strip (endpoint args))] in
  let query :=
    match header args with
    | Some h =>
        if negb (String.eqb h EmptyString)
        then (query ++ [("header", strip h)])%list
        else query
    | None => query
    end in
  let url := "https://moltbook.com/auth.md?" ++ Parse.urlencode query in
  print [Lit url] ;;
  ret 0.

End AuthUrl.

(** A character a quoted value may hold: an always-safe one, [+] or [%]. *)
Definition query_safe (c : ascii) : bool :=
  Parse.always_safe c || Ascii.eqb c "+"%char || Ascii.eqb c "%"%char.

(** * Properties *)

(** ** Stepping through the monad *)

Lemma bind_ok {A B} (c : M A) (k : A -> M B) (w w' : world) (a : A) :
  c w = (Ok a, w') -> bind c k w = k a w'.
Proof. intros H. unfold bind. rewrite H. reflexivity. Qed.

Lemma bind_raise {A B} (c : M A) (k : A -> M B) (w w' : world) (e : exn) :
  c w = (Raise e, w') -> bind c k w = (Raise e, w').
Proof. intros H. unfold bind. rewrite H. reflexivity. Qed.

Lemma bind_ret {A B} (a : A) (k : A -> M B) (w : world) :
  bind (ret a) k w = k a w.
Proof. reflexivity. Qed.

(** ** Dictionaries *)

Lemma lookup_store_same (k : string) (v : json) (d : dict) :
  lookup k (store k v d) = Some v.
Proof.
  induction d as [|[k' v'] rest IH]; simpl.
  - rewrite String.eqb_refl. reflexivity.
  - destruct (String.eqb k k') eqn:E; simpl; rewrite E; [reflexivity | exact IH].
Qed.

Lemma lookup_store_other (k k' : string) (v : json) (d : dict) :
  k <> k' -> lookup k (store k' v d) = lookup k d.
Proof.
  intros Hne. induction d as [|[k0 v0] rest IH]; simpl.
  - apply String.eqb_neq in Hne. rewrite Hne. reflexivity.
  - destruct (String.eqb k' k0) eqn:E; simpl.
    + apply String.eqb_eq in E. subst k0.
      apply String.eqb_neq in Hne. rewrite Hne. reflexivity.
    + destruct (String.eqb k k0); [reflexivity | exact IH].
Qed.

(** ** Interval policy *)

Lemma age_below_a_day (delta : Z) :
  Scheduler.Qltb (Scheduler.total_seconds delta) (inject_Z (24 * 3600))
  = (delta <? day_us).
Proof.
  unfold Scheduler.Qltb, Scheduler.total_seconds, Qle_bool, inject_Z, day_us. simpl.
  rewrite Z.ltb_antisym. f_equal. f_equal. lia.
Qed.

Section IntervalPolicy.

Variable fromisoformat : string -> option Z.

(** C2.  When the creation timestamp parses to the instant [created], the
    platform minimum is 120 minutes if the age [now - created] is strictly
    below 24 hours and 30 minutes otherwise; one second below the day gives
    120 and one second above gives 30. *)
Theorem C2_min_interval_by_age (created_at : json) (created : Z) (w : world) :
  Scheduler.parse_iso8601 fromisoformat created_at w = (Ok created, w) ->
  let age := clock w - created in
  Scheduler.platform_min_interval_minutes fromisoformat created_at w
  = (Ok (if age <? day_us then 120 else 30), w)
  /\ (age = day_us - 1000000 ->
      Scheduler.platform_min_interval_minutes fromisoformat created_at w = (Ok 120, w))
  /\ (age = day_us + 1000000 ->
      Scheduler.platform_min_interval_minutes fromisoformat created_at w = (Ok 30, w)).
Proof.
  intros Hparse age.
  assert (Hrun : Scheduler.platform_min_interval_minutes fromisoformat created_at w
                 = (Ok (if age <? day_us then 120 else 30), w)).
  { unfold Scheduler.platform_min_interval_minutes.
    rewrite (bind_ok _ _ w w (clock w)) by reflexivity.
    rewrite (bind_ok _ _ w w created) by exact Hparse.
    unfold ret. rewrite age_below_a_day. reflexivity. }
  split; [exact Hrun |].
  split; intros Hage; rewrite Hrun, Hage; reflexivity.
Qed.

End IntervalPolicy.

(** C2 on 2026-01-01T00:00:00Z: one hour, a day less a second and a day plus
    a second after the creation. *)
Lemma C2_min_interval_by_age_witness :
  let at_age (age : Z) :=
    Scenarios.initial Scenarios.no_files [] [] (1767225600000000 + age) in
  let stamp := JStr "2026-01-01T00:00:00Z" in
  Scheduler.platform_min_interval_minutes Scenarios.fromisoformat stamp
    (at_age 3600000000) = (Ok 120, at_age 3600000000)
  /\ Scheduler.platform_min_interval_minutes Scenarios.fromisoformat stamp
       (at_age (day_us - 1000000)) = (Ok 120, at_age (day_us - 1000000))
  /\ Scheduler.platform_min_interval_minutes Scenarios.fromisoformat stamp
       (at_age (day_us + 1000000)) = (Ok 30, at_age (day_us + 1000000)).
Proof.
  intros at_age stamp.
  split; [| split].
  - exact (proj1 (C2_min_interval_by_age Scenarios.fromisoformat stamp
                    1767225600000000 (at_age 3600000000) eq_refl)).
  - apply (C2_min_interval_by_age Scenarios.fromisoformat stamp
             1767225600000000 (at_age (day_us - 1000000)) eq_refl).
    vm_compute. reflexivity.
  - apply (C2_min_interval_by_age Scenarios.fromisoformat stamp
             1767225600000000 (at_age (day_us + 1000000)) eq_refl).
    vm_compute. reflexivity.
Defined.

(** ** Rate-limit backoff *)

Lemma rate_limit_wait_value (d : dict) (s m : Z) (w : world) :
  numeric_field d "retry_after_seconds" s ->
  numeric_field d "retry_after_minutes" m ->
  Scheduler.rate_limit_wait (JObj d) w
  = (Ok (if Z.max s (m * 60) <=? 0 then 1800 else Z.max s (m * 60)), w).
Proof.
  intros Hs Hm.
  unfold Scheduler.rate_limit_wait, get, bind, ret.
  destruct Hs as [[Hs ->] | [[Hs ->] | Hs]], Hm as [[Hm ->] | [[Hm ->] | Hm]];
    rewrite Hs, Hm; simpl; try reflexivity.
  all: unfold Scheduler.or_else; simpl.
  all: try (destruct (Z.eqb_spec m 0) as [-> | Hm0]);
    try (destruct (Z.eqb_spec s 0) as [-> | Hs0]); simpl; try reflexivity.
  all: unfold ret; f_equal; f_equal.
  all: repeat match goal with
             | |- context [?a <=? ?b] => destruct (Z.leb_spec a b)
             end; lia.
Qed.

Lemma api_request_answer (method endpoint api_key : string) (payload : option json)
    (w : world) :
  Scheduler.api_request method endpoint api_key payload w
  = let w1 := after_request (request_of method endpoint api_key payload) w in
    match network w (List.length (requests w)) with
    | Responds status Empty => (Ok (status, JObj []), w1)
    | Responds status (Encodes j) => (Ok (status, j), w1)
    | Responds status (Garbage _) => (Raise JSONDecodeError, w1)
    | FailsHTTP code Empty => (Ok (code, JObj []), w1)
    | FailsHTTP code (Encodes j) => (Ok (code, j), w1)
    | FailsHTTP code (Garbage s) =>
        (Ok (code, JObj [("success", JBool false); ("error", JStr s)]), w1)
    | FailsURL reason => (Raise (URLError reason), w1)
    end.
Proof.
  unfold Scheduler.api_request, after_request, request_of, bind, urlopen.
  destruct payload; simpl;
    destruct (network w (List.length (requests w))) as [st [|j1|g1] | c [|j2|g2] | r];
    reflexivity.
Qed.

Lemma api_request_decoded (method endpoint api_key : string)
    (payload : option json) (w : world) (reply : Z * json) :
  decoded (network w (List.length (requests w))) = Some reply ->
  Scheduler.api_request method endpoint api_key payload w
  = (Ok reply, after_request (request_of method endpoint api_key payload) w).
Proof.
  intros H. rewrite api_request_answer. cbv zeta.
  destruct (network w (List.length (requests w))) as [st [| j1 | g1] | c [| j2 | g2] | r];
    cbn in H; try discriminate H; injection H as <-; reflexivity.
Qed.

Lemma mint_content_pure (strftime : Z -> string) (tick amt : string)
    (add_nonce : bool) (w : world) :
  exists content, Scheduler.mint_content strftime tick amt add_nonce w = (Ok content, w).
Proof.
  unfold Scheduler.mint_content, Scheduler.build_nonce, utcnow, bind, ret.
  destruct add_nonce; simpl; eexists; reflexivity.
Qed.

Section Backoff.

Variable strftime : Z -> string.
Variables api_key submolt title tick amt : string.
Variable add_nonce : bool.

(** C1.  When the post is answered with HTTP 429 and the decoded body [d]
    (the empty mapping for an empty body) gives [retry_after_seconds = s] and
    [retry_after_minutes = m] (absent or null fields counting as 0, both
    non-negative), [post_once] fails the attempt after sleeping the larger of
    [s] and [m * 60] seconds, or 1800 seconds when both are zero. *)
Theorem C1_backoff_wait (w : world) (d : dict) (s m : Z) :
  decoded (network w (List.length (requests w))) = Some (429, JObj d) ->
  numeric_field d "retry_after_seconds" s ->
  numeric_field d "retry_after_minutes" m ->
  0 <= s -> 0 <= m ->
  let wait := if (s =? 0) && (m =? 0) then 1800 else Z.max s (m * 60) in
  exists w',
    Scheduler.post_once strftime api_key submolt title tick amt add_nonce w
    = (Ok false, w')
    /\ sleeps w' = (sleeps w ++ [wait])%list
    /\ stdout w' = (stdout w ++ [[Lit ("rate limited; sleeping " ++ str_of_int wait
                                      ++ " seconds")]])%list.
Proof.
  intros Hnet Hs Hm Hs0 Hm0 wait.
  assert (Hwait : (if Z.max s (m * 60) <=? 0 then 1800 else Z.max s (m * 60)) = wait).
  { unfold wait.
    destruct (Z.eqb_spec s 0), (Z.eqb_spec m 0), (Z.leb_spec (Z.max s (m * 60)) 0);
      simpl; lia. }
  assert (Hpos : (wait <? 0) = false).
  { apply Z.ltb_ge. unfold wait.
    destruct ((s =? 0) && (m =? 0)); lia. }
  destruct (mint_content_pure strftime tick amt add_nonce w) as [content Hcontent].
  unfold Scheduler.post_once.
  rewrite (bind_ok _ _ _ _ _ Hcontent).
  unfold bind at 1. rewrite (api_request_decoded _ _ _ _ _ _ Hnet).
  cbv beta iota. rewrite Z.eqb_refl.
  rewrite (bind_ok _ _ _ _ _ (rate_limit_wait_value d s m _ Hs Hm)).
  rewrite Hwait.
  unfold bind, print, sleep, ret. cbn [stdout sleeps clock]. rewrite Hpos.
  eexists. split; [reflexivity |]. split; reflexivity.
Qed.
End Backoff.

(** C1 on the three bodies of the specification: 45 seconds alone, 2 minutes
    alone, and neither field. *)
Lemma C1_backoff_wait_witness :
  let rate_limited_world (fields : dict) :=
    Scenarios.initial Scenarios.no_files [Scenarios.rate_limited fields] []
                      Scenarios.new_year_1am in
  let attempt (fields : dict) :=
    Scheduler.post_once Scenarios.strftime "moltbook_sk_1" "general" "mint $CLAW"
                        "CLAW" "100" true (rate_limited_world fields) in
  (exists w', attempt [("retry_after_seconds", JInt 45)] = (Ok false, w')
              /\ sleeps w' = [45]
              /\ stdout w' = [[Lit "rate limited; sleeping 45 seconds"]])
  /\ (exists w', attempt [("retry_after_minutes", JInt 2)] = (Ok false, w')
                 /\ sleeps w' = [120]
                 /\ stdout w' = [[Lit "rate limited; sleeping 120 seconds"]])
  /\ (exists w', attempt [] = (Ok false, w')
                 /\ sleeps w' = [1800]
                 /\ stdout w' = [[Lit "rate limited; sleeping 1800 seconds"]]).
Proof.
  intros rate_limited_world attempt.
  split; [| split].
  - exact (C1_backoff_wait Scenarios.strftime "moltbook_sk_1" "general" "mint $CLAW"
             "CLAW" "100" true
             (rate_limited_world [("retry_after_seconds", JInt 45)])
             [("retry_after_seconds", JInt 45)] 45 0 eq_refl
             (or_intror (or_intror eq_refl)) (or_introl (conj eq_refl eq_refl))
             ltac:(lia) ltac:(lia)).
  - exact (C1_backoff_wait Scenarios.strftime "moltbook_sk_1" "general" "mint $CLAW"
             "CLAW" "100" true
             (rate_limited_world [("retry_after_minutes", JInt 2)])
             [("retry_after_minutes", JInt 2)] 0 2 eq_refl
             (or_introl (conj eq_refl eq_refl)) (or_intror (or_intror eq_refl))
             ltac:(lia) ltac:(lia)).
  - exact (C1_backoff_wait Scenarios.strftime "moltbook_sk_1" "general" "mint $CLAW"
             "CLAW" "100" true (rate_limited_world []) [] 0 0 eq_refl
             (or_introl (conj eq_refl eq_refl)) (or_introl (conj eq_refl eq_refl))
             ltac:(lia) ltac:(lia)).
Defined.

(** ** Effective interval *)

Lemma platform_min_interval_values (fromisoformat : string -> option Z)
    (created_at : json) (w w' : world) (floor : Z) :
  Scheduler.platform_min_interval_minutes fromisoformat created_at w = (Ok floor, w') ->
  floor = 30 \/ floor = 120.
Proof.
  unfold Scheduler.platform_min_interval_minutes, bind, utcnow.
  destruct (Scheduler.parse_iso8601 fromisoformat created_at w) as [[t | e] w1];
    [| discriminate].
  unfold ret. intros H. injection H as H _.
  destruct (Scheduler.Qltb _ _) in H; subst floor; [right | left]; reflexivity.
Qed.

Section EffectiveInterval.

Variable fromisoformat : string -> option Z.
Variable strftime : Z -> string.

(** C3.  Once the session has started (credentials read, a claimed account
    fetched, its creation time dated), [run_scheduler] runs its loop with the
    interval [max(requested, floor)], where the floor is 30 or 120, and only
    after printing a report; when the requested value is below the floor the
    report is the line saying that the request is too fast and which interval
    is enforced. *)
Theorem C3_effective_interval (fuel : nat) (a : Scheduler.args) (w w1 : world)
    (api_key : string) (me : dict) (created_at : json) (floor : Z) :
  Scheduler.load_api_key (Scheduler.credentials a) w = (Ok api_key, w) ->
  Scheduler.get_me api_key w = (Ok (JObj me), w1) ->
  (exists claimed, lookup "is_claimed" me = Some claimed /\ truthy claimed = true) ->
  lookup "created_at" me = Some created_at ->
  Scheduler.platform_min_interval_minutes fromisoformat created_at w1 = (Ok floor, w1) ->
  let chosen := Scheduler.interval_minutes a in
  (floor = 30 \/ floor = 120)
  /\ Scheduler.run_scheduler fromisoformat strftime fuel a w
     = Scheduler.scheduler_loop strftime fuel a api_key
         (replace "{tick}" (Scheduler.tick a) (Scheduler.title a))
         (Z.max chosen floor) 0 []
         (after_print (interval_report chosen floor) w1)
  /\ (chosen < floor ->
      interval_report chosen floor
      = [Lit ("requested " ++ str_of_int chosen ++ "m is too fast; enforced "
              ++ str_of_int floor ++ "m to match platform rules")]).
Proof.
  intros Hkey Hme [claimed [Hclaimed Htrue]] Hcreated Hfloor chosen.
  split; [exact (platform_min_interval_values _ _ _ _ _ Hfloor) |].
  split.
  - unfold Scheduler.run_scheduler.
    unfold bind at 1. unfold try_except.
    rewrite (bind_ok _ _ _ _ _ Hkey), (bind_ok _ _ _ _ _ Hme).
    unfold ret at 1.
    unfold get. unfold bind at 1. unfold ret at 1. rewrite Hclaimed, Htrue.
    cbv beta iota. unfold negb.
    unfold getitem. rewrite Hcreated.
    rewrite bind_ret. rewrite (bind_ok _ _ _ _ _ Hfloor).
    fold chosen. unfold interval_report, after_print.
    destruct (chosen <? floor); reflexivity.
  - intros Hlt. unfold interval_report.
    apply Z.ltb_lt in Hlt. rewrite Hlt.
    rewrite Z.max_r by (apply Z.ltb_lt in Hlt; lia). reflexivity.
Qed.

End EffectiveInterval.

(** C3 on the scenario of the specification: the account was created one
    hour ago and 10 minutes are requested.  The report names 120 minutes and
    the loop sleeps 7200 seconds after a failed attempt. *)
Lemma C3_effective_interval_witness :
  let w0 := Scenarios.initial Scenarios.good_creds
              [Scenarios.me_reply; Scenarios.server_error; Scenarios.posted 1] []
              Scenarios.new_year_1am in
  let r := Scheduler.run_scheduler Scenarios.fromisoformat Scenarios.strftime 2
             (Scenarios.claw_args 10 1) w0 in
  fst r = Ok {| Scheduler.exit_code := Some 0; Scheduler.sent := 1;
                Scheduler.attempts := [false; true] |}
  /\ nth_error (stdout (snd r)) 0
     = Some [Lit "requested 10m is too fast; enforced 120m to match platform rules"]
  /\ sleeps (snd r) = [7200].
Proof.
  intros w0 r.
  pose proof (C3_effective_interval Scenarios.fromisoformat Scenarios.strftime 2
                (Scenarios.claw_args 10 1) w0
                (after_request (request_of "GET" "/agents/me" "moltbook_sk_1" None) w0)
                "moltbook_sk_1"
                [("name", JStr "claw"); ("is_claimed", JBool true);
                 ("created_at", JStr "2026-01-01T00:00:00Z")]
                (JStr "2026-01-01T00:00:00Z") 120
                eq_refl eq_refl
                (ex_intro _ (JBool true) (conj eq_refl eq_refl))
                eq_refl eq_refl) as [_ [Hrun _]].
  unfold r. rewrite Hrun. vm_compute. repeat split.
Defined.

(** ** Content formatting *)

Lemma append_assoc (a b c : string) : (a ++ b) ++ c = a ++ (b ++ c).
Proof. induction a as [|x a IH]; simpl; [reflexivity | rewrite IH; reflexivity]. Qed.

Lemma append_inv_head (a b c : string) : a ++ b = a ++ c -> b = c.
Proof.
  induction a as [|x a IH]; simpl; intros H; [exact H |].
  injection H as H. exact (IH H).
Qed.

Lemma dumps_mint_payload (tick amt : string) :
  dumps "," ":" (JObj [("p", JStr "mbc-20"); ("op", JStr "mint");
                       ("tick", JStr tick); ("amt", JStr amt)])
  = mint_json tick amt.
Proof.
  unfold mint_json, quoted. cbn [dumps List.map String.concat fst snd].
  unfold dumps_str. cbn [escape escape_char].
  repeat rewrite append_assoc. reflexivity.
Qed.

(** C9 as stated fails: for CLAW and 100 the scheduler's content without a
    nonce is not the agent's post. *)
Lemma C9_builders_differ_counterexample :
  Scheduler.mint_content Scenarios.strftime "CLAW" "100" false
    (Scenarios.initial Scenarios.no_files [] [] Scenarios.new_year_1am)
  <> (Ok (Agent.build_mint_post "CLAW" "100"),
      Scenarios.initial Scenarios.no_files [] [] Scenarios.new_year_1am).
Proof. vm_compute. intros H. discriminate H. Qed.

(** C9, amended.  Both builders write the same compact JSON object (keys p,
    op, tick, amt in this order) followed by a separator and the link
    [mbc20.xyz]; the scheduler's separator is one space and the agent's is two
    line feeds, so the two payloads differ for every ticker and amount. *)
Theorem C9_same_object_different_separator (strftime : Z -> string)
    (tick amt : string) (w : world) :
  Scheduler.mint_content strftime tick amt false w
  = (Ok (mint_json tick amt ++ " " ++ "mbc20.xyz"), w)
  /\ Agent.build_mint_post tick amt
     = mint_json tick amt ++ Agent.nl ++ Agent.nl ++ "mbc20.xyz"
  /\ Scheduler.mint_content strftime tick amt false w
     <> (Ok (Agent.build_mint_post tick amt), w).
Proof.
  assert (Hs : Scheduler.mint_content strftime tick amt false w
               = (Ok (mint_json tick amt ++ " " ++ "mbc20.xyz"), w)).
  { unfold Scheduler.mint_content. cbv beta zeta. rewrite dumps_mint_payload.
    reflexivity. }
  assert (Ha : Agent.build_mint_post tick amt
               = mint_json tick amt ++ Agent.nl ++ Agent.nl ++ "mbc20.xyz").
  { unfold Agent.build_mint_post. cbv beta zeta. rewrite dumps_mint_payload.
    reflexivity. }
  split; [exact Hs |]. split; [exact Ha |].
  rewrite Hs, Ha. intros H. injection H as H.
  apply append_inv_head in H. discriminate H.
Qed.

(** ** The bind command and the configuration file *)

Lemma load_config_mapping (w : world) (d : dict) :
  files w Agent.CONFIG_PATH = Holds (Encodes (JObj d)) ->
  Agent.load_config w = (Ok (JObj d), w).
Proof.
  intros H. unfold Agent.load_config, bind, path_exists, try_except, read_text.
  rewrite H. cbn [negb]. rewrite H. reflexivity.
Qed.

Lemma bind_validation (args : Agent.bind_args) (w : world) :
  let app_key := strip (Agent.bind_app_key args) in
  let api_base := rstrip_slash (strip (Agent.bind_api_base args)) in
  Agent.checked (app_key <- Agent.validate_app_key (Agent.bind_app_key args) ;;
                 api_base <- Agent.normalize_api_base (Agent.bind_api_base args) ;;
                 ret (app_key, api_base)) w
  = if startswith "moltdev_" app_key
    then if startswith "http://" api_base || startswith "https://" api_base
         then (Ok (inl (app_key, api_base)), w)
         else (Ok (inr 1),
               after_print [Lit "api-base must start with http:// or https://"] w)
    else (Ok (inr 1), after_print [Lit "app key should start with moltdev_"] w).
Proof.
  intros app_key api_base.
  unfold Agent.checked, Agent.validate_app_key, Agent.normalize_api_base,
    try_except, bind. fold app_key api_base.
  destruct (startswith "moltdev_" app_key); [| reflexivity].
  destruct (startswith "http://" api_base || startswith "https://" api_base);
    reflexivity.
Qed.

(** [save_config] writes whenever the file is not closed to the program. *)
Lemma save_config_writes (config : json) (w : world) :
  files w Agent.CONFIG_PATH <> Unreadable ->
  Agent.save_config config w = (Ok tt, after_save config w).
Proof.
  intros Hopen. unfold Agent.save_config, write_text, after_save.
  destruct (files w Agent.CONFIG_PATH); [reflexivity | destruct (Hopen eq_refl) | ..];
    reflexivity.
Qed.

(** C10.  When the configuration file holds a JSON mapping, [cmd_bind]
    returns: with code 1 (rejected arguments) nothing is written; with code
    0 the file holds a mapping that agrees with the old one on every key
    other than [app_key], [api_base] and, when a bot key was supplied,
    [bot_api_key].  No other file is touched. *)
Theorem C10_bind_preserves_other_keys (args : Agent.bind_args) (w : world) (d : dict) :
  files w Agent.CONFIG_PATH = Holds (Encodes (JObj d)) ->
  exists code w',
    Agent.cmd_bind args w = (Ok code, w')
    /\ (forall p, p <> Agent.CONFIG_PATH -> files w' p = files w p)
    /\ ((code = 1 /\ files w' Agent.CONFIG_PATH = files w Agent.CONFIG_PATH)
        \/ (code = 0
            /\ exists d',
                 files w' Agent.CONFIG_PATH = Holds (Encodes (JObj d'))
                 /\ forall k,
                      k <> "app_key" -> k <> "api_base" ->
                      (k = "bot_api_key" -> bot_key_supplied args = false) ->
                      lookup k d' = lookup k d)).
Proof.
  intros Hfile.
  set (app_key := strip (Agent.bind_app_key args)).
  set (api_base := rstrip_slash (strip (Agent.bind_api_base args))).
  unfold Agent.cmd_bind. unfold bind at 1. rewrite bind_validation. cbv zeta.
  fold app_key api_base.
  destruct (startswith "moltdev_" app_key).
  2: { exists 1, (after_print [Lit "app key should start with moltdev_"] w).
       split; [reflexivity |]. split; [reflexivity |]. left. split; reflexivity. }
  destruct (startswith "http://" api_base || startswith "https://" api_base).
  2: { exists 1, (after_print [Lit "api-base must start with http:// or https://"] w).
       split; [reflexivity |]. split; [reflexivity |]. left. split; reflexivity. }
  rewrite (bind_ok _ _ _ _ _ (load_config_mapping w d Hfile)).
  unfold Agent.setitem at 1. rewrite bind_ret.
  unfold Agent.setitem at 1. rewrite bind_ret.
  set (d2 := store "api_base" (JStr api_base) (store "app_key" (JStr app_key) d)).
  assert (Hd2 : forall k, k <> "app_key" -> k <> "api_base" -> lookup k d2 = lookup k d).
  { intros k H1 H2. unfold d2. rewrite !lookup_store_other by assumption. reflexivity. }
  unfold bot_key_supplied.
  assert (Hopen : files w Agent.CONFIG_PATH <> Unreadable)
    by (rewrite Hfile; discriminate).
  destruct (Agent.bind_bot_api_key args) as [k0 |].
  - destruct (String.eqb k0 EmptyString); cbn [negb].
    + rewrite bind_ret, (bind_ok _ _ _ _ _ (save_config_writes _ w Hopen)).
      eexists 0, _. split; [reflexivity |]. cbn [files snd fst after_save].
      split.
      * intros p Hp. apply String.eqb_neq in Hp. rewrite Hp. reflexivity.
      * right. split; [reflexivity |]. exists d2. rewrite String.eqb_refl.
        split; [reflexivity |]. intros k H1 H2 _. apply Hd2; assumption.
    + unfold Agent.setitem at 1.
      rewrite bind_ret, (bind_ok _ _ _ _ _ (save_config_writes _ w Hopen)).
      eexists 0, _. split; [reflexivity |]. cbn [files snd fst after_save].
      split.
      * intros p Hp. apply String.eqb_neq in Hp. rewrite Hp. reflexivity.
      * right. split; [reflexivity |].
        exists (store "bot_api_key" (JStr (strip k0)) d2). rewrite String.eqb_refl.
        split; [reflexivity |]. intros k H1 H2 H3.
        rewrite lookup_store_other; [apply Hd2; assumption |].
        intros ->. specialize (H3 eq_refl). discriminate H3.
  - rewrite bind_ret, (bind_ok _ _ _ _ _ (save_config_writes _ w Hopen)).
    eexists 0, _. split; [reflexivity |]. cbn [files snd fst after_save].
    split.
    + intros p Hp. apply String.eqb_neq in Hp. rewrite Hp. reflexivity.
    + right. split; [reflexivity |]. exists d2. rewrite String.eqb_refl.
      split; [reflexivity |]. intros k H1 H2 _. apply Hd2; assumption.
Qed.

(** C10 on a configuration that carries a note and a bot key: binding a new
    app key without a bot key keeps both. *)
Lemma C10_bind_preserves_other_keys_witness :
  let before := [("app_key", JStr "moltdev_old"); ("note", JStr "keep me");
                 ("bot_api_key", JStr "moltbook_sk_1")] in
  let w := Scenarios.initial
             (Scenarios.with_file Agent.CONFIG_PATH (JObj before) Scenarios.no_files)
             [] [] Scenarios.new_year_1am in
  let args := {| Agent.bind_app_key := " moltdev_new ";
                 Agent.bind_api_base := "https://www.moltbook.com/";
                 Agent.bind_bot_api_key := None |} in
  exists after,
    files (snd (Agent.cmd_bind args w)) Agent.CONFIG_PATH = Holds (Encodes (JObj after))
    /\ lookup "note" after = Some (JStr "keep me")
    /\ lookup "bot_api_key" after = Some (JStr "moltbook_sk_1").
Proof.
  intros before w args.
  destruct (C10_bind_preserves_other_keys args w before eq_refl)
    as (code & w' & Hrun & _ & [[Hcode _] | [_ (after & Hfile & Hkeep)]]).
  - exfalso. subst code. vm_compute in Hrun. discriminate Hrun.
  - rewrite Hrun. exists after. split; [exact Hfile |].
    split; rewrite Hkeep; try reflexivity; try discriminate.
Defined.

(** ** The posting loop *)

Lemma successes_app (history : list bool) (ok : bool) :
  successes (history ++ [ok]) = successes history + (if ok then 1 else 0).
Proof.
  unfold successes. rewrite count_occ_app. destruct ok; simpl; lia.
Qed.

Section Loop.

Variable strftime : Z -> string.
Variable a : Scheduler.args.
Variables api_key title : string.
Variable interval : Z.

Let attempt : M bool :=
  Scheduler.post_once strftime api_key (Scheduler.submolt a) title (Scheduler.tick a)
    (str_of_int (Scheduler.amt a)) (negb (Scheduler.no_nonce a)).

Let loop (fuel : nat) (sent : Z) (history : list bool) : M Scheduler.run :=
  Scheduler.scheduler_loop strftime fuel a api_key title interval sent history.

(** One iteration after an attempt that raised: the exception leaves the loop. *)
Lemma loop_step_raised (fuel : nat) (sent : Z) (history : list bool)
    (w w1 : world) (e : exn) :
  attempt w = (Raise e, w1) ->
  loop (S fuel) sent history w = (Raise e, w1).
Proof.
  intros H. unfold loop. cbn [Scheduler.scheduler_loop].
  apply bind_raise. exact H.
Qed.

(** One iteration after a failed attempt, the target not yet reached: the
    counter stays, the loop sleeps its interval and goes round again. *)
Lemma loop_step_failed (fuel : nat) (sent : Z) (history : list bool) (w w1 : world) :
  attempt w = (Ok false, w1) ->
  0 <= interval ->
  Scheduler.count a <= 0 \/ sent < Scheduler.count a ->
  loop (S fuel) sent history w
  = loop fuel sent (history ++ [false])%list (after_interval_sleep interval w1).
Proof.
  intros H Hint Hcount. unfold loop. cbn [Scheduler.scheduler_loop].
  rewrite (bind_ok _ _ _ _ _ H). rewrite bind_ret.
  assert (Htest : (Scheduler.count a >? 0) && (sent >=? Scheduler.count a) = false).
  { destruct (Z.gtb_spec (Scheduler.count a) 0); [| reflexivity].
    destruct (Z.geb_spec sent (Scheduler.count a)); [lia | reflexivity]. }
  rewrite Htest. unfold after_interval_sleep, after_print.
  unfold bind, print, sleep. cbn [snd].
  assert (Hs : (interval * 60 <? 0) = false) by (apply Z.ltb_ge; lia).
  rewrite Hs. reflexivity.
Qed.

(** One iteration after a successful attempt. *)
Lemma loop_step_succeeded (fuel : nat) (sent : Z) (history : list bool) (w w1 : world) :
  attempt w = (Ok true, w1) ->
  0 <= interval ->
  let w2 := after_print [Lit ("posted count=" ++ str_of_int (sent + 1))] w1 in
  loop (S fuel) sent history w
  = if (Scheduler.count a >? 0) && (sent + 1 >=? Scheduler.count a)
    then (Ok {| Scheduler.exit_code := Some 0; Scheduler.sent := sent + 1;
                Scheduler.attempts := (history ++ [true])%list |},
          after_print [Lit "done"] w2)
    else loop fuel (sent + 1) (history ++ [true])%list (after_interval_sleep interval w2).
Proof.
  intros H Hint w2. unfold loop. cbn [Scheduler.scheduler_loop].
  rewrite (bind_ok _ _ _ _ _ H).
  unfold bind at 1. unfold bind at 1. unfold print at 1. unfold ret at 1.
  fold (after_print [Lit ("posted count=" ++ str_of_int (sent + 1))] w1). fold w2.
  destruct ((Scheduler.count a >? 0) && (sent + 1 >=? Scheduler.count a)).
  - reflexivity.
  - unfold after_interval_sleep, after_print.
    unfold bind, print, sleep. cbn [snd].
    assert (Hs : (interval * 60 <? 0) = false) by (apply Z.ltb_ge; lia).
    rewrite Hs. reflexivity.
Qed.

(** After any number of iterations that raised nothing: the counter is the
    number of successful attempts; the loop has returned only if a positive
    count was asked for, the counter has just reached it on a successful
    attempt, and then with code 0; otherwise every iteration was run and the
    counter is still below a positive count. *)
Lemma loop_accounting (fuel : nat) :
  forall (sent : Z) (history : list bool) (w w' : world) (r : Scheduler.run),
    sent = successes history ->
    (0 < Scheduler.count a -> sent < Scheduler.count a) ->
    loop fuel sent history w = (Ok r, w') ->
    Scheduler.sent r = successes (Scheduler.attempts r)
    /\ match Scheduler.exit_code r with
       | Some code =>
           code = 0 /\ 0 < Scheduler.count a /\ Scheduler.sent r = Scheduler.count a
           /\ exists earlier, Scheduler.attempts r = (earlier ++ [true])%list
       | None =>
           List.length (Scheduler.attempts r) = (List.length history + fuel)%nat
           /\ (0 < Scheduler.count a -> Scheduler.sent r < Scheduler.count a)
       end.
Proof.
  induction fuel as [| fuel IH]; intros sent history w w' r Hsent Hbelow Hrun.
  - unfold loop in Hrun. cbn in Hrun. injection Hrun as <- _. cbn.
    split; [exact Hsent |]. split; [lia | exact Hbelow].
  - unfold loop in Hrun. cbn [Scheduler.scheduler_loop] in Hrun.
    unfold bind at 1 in Hrun. fold attempt in Hrun.
    destruct (attempt w) as [[ok | e] w1]; [| discriminate Hrun].
    assert (Hsleep : forall sent' w2,
              sent' = successes (history ++ [ok]) ->
              (0 < Scheduler.count a -> sent' < Scheduler.count a) ->
              (print [Lit ("sleeping " ++ str_of_int (interval * 60) ++ " seconds...")] ;;
               sleep (interval * 60) ;;
               Scheduler.scheduler_loop strftime fuel a api_key title interval sent'
                 (history ++ [ok])%list) w2 = (Ok r, w') ->
              Scheduler.sent r = successes (Scheduler.attempts r)
              /\ match Scheduler.exit_code r with
                 | Some code =>
                     code = 0 /\ 0 < Scheduler.count a
                     /\ Scheduler.sent r = Scheduler.count a
                     /\ exists earlier, Scheduler.attempts r = (earlier ++ [true])%list
                 | None =>
                     List.length (Scheduler.attempts r)
                     = (List.length history + S fuel)%nat
                     /\ (0 < Scheduler.count a -> Scheduler.sent r < Scheduler.count a)
                 end).
    { intros sent' w2 Hs' Hb' Hrest.
      unfold bind at 1 in Hrest. unfold print at 1 in Hrest.
      unfold bind at 1 in Hrest. unfold sleep at 1 in Hrest.
      destruct (interval * 60 <? 0); [discriminate Hrest |].
      destruct (IH _ _ _ _ _ Hs' Hb' Hrest) as [Hcount Hexit].
      split; [exact Hcount |].
      destruct (Scheduler.exit_code r); [exact Hexit |].
      destruct Hexit as [Hlen Hlt]. split; [| exact Hlt].
      rewrite Hlen, length_app. cbn. lia. }
    destruct ok.
    + unfold bind at 1 in Hrun. unfold bind at 1 in Hrun.
      unfold print at 1 in Hrun. unfold ret at 1 in Hrun.
      destruct (Z.gtb_spec (Scheduler.count a) 0) as [Hpos | Hnonpos];
        cbn [andb] in Hrun.
      * destruct (Z.geb_spec (sent + 1) (Scheduler.count a)) as [Hge | Hlt].
        -- unfold bind, print, ret in Hrun. injection Hrun as <- _. cbn.
           split; [rewrite successes_app; lia |].
           split; [reflexivity |]. split; [exact Hpos |].
           split; [specialize (Hbelow Hpos); lia | exists history; reflexivity].
        -- refine (Hsleep (sent + 1) _ _ _ Hrun); [rewrite successes_app; lia | lia].
      * refine (Hsleep (sent + 1) _ _ _ Hrun); [rewrite successes_app; lia | lia].
    + rewrite bind_ret in Hrun.
      destruct (Z.gtb_spec (Scheduler.count a) 0) as [Hpos | Hnonpos];
        cbn [andb] in Hrun.
      * destruct (Z.geb_spec sent (Scheduler.count a)) as [Hge | Hlt].
        -- specialize (Hbelow Hpos). lia.
        -- refine (Hsleep sent _ _ _ Hrun); [rewrite successes_app; lia | lia].
      * refine (Hsleep sent _ _ _ Hrun); [rewrite successes_app; lia | lia].
Qed.


End Loop.


(** ** Verification *)

Lemma print_run (line : text) (w : world) :
  print line w = (Ok tt, after_print line w).
Proof. reflexivity. Qed.

Lemma input_run (prompt : string) (w : world) :
  input prompt w = (Ok (keyboard w (reads w)), after_input prompt w).
Proof. reflexivity. Qed.

Lemma get_field (d : dict) (key : string) (w : world) :
  get (JObj d) key JNull w = (Ok (field d key), w).
Proof. reflexivity. Qed.

Lemma returns_its_flag (c : M bool) (w : world) :
  (verified <- c ;; if negb verified then ret false else ret true) w = c w.
Proof.
  unfold bind. destruct (c w) as [[[|] | e] w1]; reflexivity.
Qed.

Section Verification.

Variable strftime : Z -> string.
Variable api_key : string.

(** What [submit_verification_if_needed] returns when verification is
    required and the [verification] entry is absent or a mapping [verify]. *)
Lemma verification_result (d verify : dict) (w : world) :
  truthy (field d "verification_required") = true ->
  (lookup "verification" d = Some (JObj verify)
   \/ (lookup "verification" d = None /\ verify = [])) ->
  let code := field verify "code" in
  let answer := strip (keyboard w (reads w)) in
  let reply := network w (List.length (requests w)) in
  fst (Scheduler.submit_verification_if_needed api_key (JObj d) w)
  = if negb (truthy code) then Ok false
    else if String.eqb answer EmptyString then Ok false
    else match decoded reply with
         | Some (status, JObj r) => Ok (in_2xx status && truthy (field r "success"))
         | Some (status, _) => if in_2xx status then Raise AttributeError else Ok false
         | None => match reply with
                   | FailsURL reason => Raise (URLError reason)
                   | _ => Raise JSONDecodeError
                   end
         end.
Proof.
  intros Hreq Hverify code answer reply.
  unfold Scheduler.submit_verification_if_needed.
  rewrite (bind_ok _ _ _ _ _ (get_field d "verification_required" w)).
  rewrite Hreq. cbn [negb].
  assert (Hget : get (JObj d) "verification" (JObj []) w = (Ok (JObj verify), w)).
  { unfold get, ret. destruct Hverify as [-> | [-> ->]]; reflexivity. }
  rewrite (bind_ok _ _ _ _ _ Hget).
  rewrite (bind_ok _ _ _ _ _ (get_field verify "code" w)).
  rewrite (bind_ok _ _ _ _ _ (get_field verify "challenge" w)).
  fold code. destruct (truthy code); cbn [negb]; [| reflexivity].
  rewrite (bind_ok _ _ _ _ _ (print_run _ w)).
  set (w1 := after_print _ w).
  assert (Hw2 : exists w2,
             (if truthy (field verify "challenge")
              then print [Lit "Challenge: "; Shown (field verify "challenge")]
              else ret tt) w1 = (Ok tt, w2)
             /\ network w2 = network w /\ requests w2 = requests w
             /\ keyboard w2 = keyboard w /\ reads w2 = reads w).
  { destruct (truthy (field verify "challenge")); eexists; repeat split. }
  destruct Hw2 as (w2 & Hchallenge & Hnet & Hreqs & Hkb & Hreads).
  rewrite (bind_ok _ _ _ _ _ Hchallenge).
  rewrite (bind_ok _ _ _ _ _ (input_run _ w2)).
  rewrite Hkb, Hreads. fold answer.
  destruct (String.eqb answer EmptyString); [reflexivity |].
  unfold bind at 1. rewrite api_request_answer.
  replace (network (after_input _ w2) (List.length (requests (after_input _ w2))))
    with reply by (unfold reply; rewrite <- Hnet, <- Hreqs; reflexivity).
  cbv zeta. unfold in_2xx.
  destruct reply as [st [| j | g] | c [| j | g] | reason]; cbn [decoded].
  all: try reflexivity.
  all: try (destruct ((200 <=? st) && (st <? 300)); reflexivity).
  all: try (destruct ((200 <=? c) && (c <? 300)); reflexivity).
  - destruct ((200 <=? st) && (st <? 300)), j; try reflexivity.
    unfold get, bind, ret. fold (field fields "success").
    destruct (truthy (field fields "success")); reflexivity.
  - destruct ((200 <=? c) && (c <? 300)), j; try reflexivity.
    unfold get, bind, ret. fold (field fields "success").
    destruct (truthy (field fields "success")); reflexivity.
Qed.

End Verification.

Section Attempt.

Variable strftime : Z -> string.
Variable a : Scheduler.args.
Variables api_key title : string.

Let attempt : M bool :=
  Scheduler.post_once strftime api_key (Scheduler.submolt a) title (Scheduler.tick a)
    (str_of_int (Scheduler.amt a)) (negb (Scheduler.no_nonce a)).

(** An accepted post hands the attempt over to the verification step: the
    post request has been sent, nothing has been typed yet. *)
Lemma accepted_post_goes_to_verification (w : world) (status : Z) (d : dict) :
  network w (List.length (requests w)) = Responds status (Encodes (JObj d)) ->
  in_2xx status = true ->
  truthy (field d "success") = true ->
  (lookup "post" d = None \/ exists p, lookup "post" d = Some (JObj p)) ->
  exists w1,
    attempt w = Scheduler.submit_verification_if_needed api_key (JObj d) w1
    /\ network w1 = network w
    /\ List.length (requests w1) = S (List.length (requests w))
    /\ keyboard w1 = keyboard w /\ reads w1 = reads w.
Proof.
  intros Hnet H2xx Hsuccess Hpost.
  destruct (mint_content_pure strftime (Scheduler.tick a) (str_of_int (Scheduler.amt a))
              (negb (Scheduler.no_nonce a)) w) as [content Hcontent].
  unfold attempt, Scheduler.post_once.
  rewrite (bind_ok _ _ _ _ _ Hcontent).
  unfold bind at 1. rewrite api_request_answer, Hnet. cbv beta iota zeta.
  unfold in_2xx in H2xx. apply andb_prop in H2xx. destruct H2xx as [Hlo Hhi].
  apply Z.leb_le in Hlo. apply Z.ltb_lt in Hhi.
  assert (H429 : (status =? 429) = false) by (apply Z.eqb_neq; lia).
  assert (Hout : (status <? 200) || (status >=? 300) = false).
  { apply orb_false_intro; [apply Z.ltb_ge; lia |].
    destruct (Z.geb_spec status 300); [lia | reflexivity]. }
  rewrite H429, Hout.
  set (w0 := after_request _ w).
  cbv iota.
  assert (Hfailed : (s <- get (JObj d) "success" JNull ;; ret (negb (truthy s))) w0
                    = (Ok false, w0)).
  { rewrite (bind_ok _ _ _ _ _ (get_field d "success" w0)), Hsuccess. reflexivity. }
  rewrite (bind_ok _ _ _ _ _ Hfailed).
  assert (Hget : exists p, get (JObj d) "post" (JObj []) w0 = (Ok (JObj p), w0)).
  { unfold get, ret. destruct Hpost as [-> | [p ->]]; eexists; reflexivity. }
  destruct Hget as [p Hget].
  rewrite (bind_ok _ _ _ _ _ Hget).
  rewrite (bind_ok _ _ _ _ _ (get_field p "id" w0)).
  assert (Hurl : exists link, get (JObj p) "url" (JStr EmptyString) w0 = (Ok link, w0)).
  { unfold get, ret. eexists; reflexivity. }
  destruct Hurl as [link Hurl].
  rewrite (bind_ok _ _ _ _ _ Hurl).
  rewrite (bind_ok _ _ _ _ _ (print_run _ w0)).
  rewrite returns_its_flag.
  eexists. split; [reflexivity |].
  unfold w0, after_print, after_request, print, urlopen. cbn [snd network requests keyboard reads].
  rewrite length_app. cbn [List.length]. rewrite Nat.add_1_r.
  repeat split.
Qed.

(** One iteration after a failed attempt whose target is not yet reached
    leaves the loop running. *)
Lemma failed_attempt_keeps_looping (w : world) (fuel : nat) (interval sent : Z)
    (history : list bool) :
  fst (attempt w) = Ok false ->
  0 <= interval ->
  Scheduler.count a <= 0 \/ sent < Scheduler.count a ->
  exists w2,
    Scheduler.scheduler_loop strftime (S fuel) a api_key title interval sent history w
    = Scheduler.scheduler_loop strftime fuel a api_key title interval sent
        (history ++ [false])%list w2.
Proof.
  intros Hfail Hint Hcount.
  destruct (attempt w) as [r w1] eqn:Hrun. cbn in Hfail. subst r.
  exists (after_interval_sleep interval w1).
  apply loop_step_failed; assumption.
Qed.

(** Where the [verification] entry of the reply is absent or a mapping,
    the verification step gates the attempt.  Let the post be answered 2xx
    with [success] true and [verification_required] true.  Then [post_once]
    returns true only if a verification code was given, the operator's
    answer is not empty and the server accepts it; it returns false when the
    code is missing, when the answer is empty, and when the server rejects
    the answer; and after any false return the loop goes on to its next
    iteration with the counter unchanged. *)
Lemma verification_gates_on_mappings (w : world) (status : Z) (d verify : dict) :
  network w (List.length (requests w)) = Responds status (Encodes (JObj d)) ->
  in_2xx status = true ->
  truthy (field d "success") = true ->
  truthy (field d "verification_required") = true ->
  (lookup "post" d = None \/ exists p, lookup "post" d = Some (JObj p)) ->
  (lookup "verification" d = Some (JObj verify)
   \/ (lookup "verification" d = None /\ verify = [])) ->
  let code := field verify "code" in
  let answer := strip (keyboard w (reads w)) in
  let reply := network w (S (List.length (requests w))) in
  (fst (attempt w) = Ok true ->
   truthy code = true /\ answer <> EmptyString /\ verify_accepts reply = true)
  /\ (truthy code = false -> fst (attempt w) = Ok false)
  /\ (answer = EmptyString -> fst (attempt w) = Ok false)
  /\ (truthy code = true -> answer <> EmptyString -> verify_rejects reply = true ->
      fst (attempt w) = Ok false)
  /\ (fst (attempt w) = Ok false ->
      forall (fuel : nat) (interval sent : Z) (history : list bool),
        0 <= interval ->
        Scheduler.count a <= 0 \/ sent < Scheduler.count a ->
        exists w2,
          Scheduler.scheduler_loop strftime (S fuel) a api_key title interval sent
            history w
          = Scheduler.scheduler_loop strftime fuel a api_key title interval sent
              (history ++ [false])%list w2).
Proof.
  intros Hnet H2xx Hsuccess Hrequired Hpost Hverify code answer reply.
  destruct (accepted_post_goes_to_verification w status d Hnet H2xx Hsuccess Hpost)
    as (w1 & Hattempt & Hnet1 & Hlen1 & Hkb1 & Hreads1).
  pose proof (verification_result api_key d verify w1 Hrequired Hverify) as Hresult.
  cbv zeta in Hresult.
  rewrite <- Hattempt, Hkb1, Hreads1, Hnet1, Hlen1 in Hresult.
  fold code answer reply in Hresult.
  unfold verify_accepts, verify_rejects.
  split; [| split; [| split; [| split]]].
  - intros Htrue. rewrite Htrue in Hresult.
    destruct (truthy code); cbn [negb] in Hresult; [| discriminate Hresult].
    destruct (String.eqb_spec answer EmptyString) as [Hempty | Hfull];
      [discriminate Hresult |].
    split; [reflexivity |]. split; [exact Hfull |].
    destruct (decoded reply) as [[st [| | | | |r]] |];
      try (destruct (in_2xx st); discriminate Hresult).
    + injection Hresult as Hresult. symmetry. exact Hresult.
    + destruct reply; discriminate Hresult.
  - intros Hcode. rewrite Hresult, Hcode. reflexivity.
  - intros Hempty. rewrite Hresult, Hempty.
    destruct (truthy code); reflexivity.
  - intros Hcode Hfull Hrejects. rewrite Hresult, Hcode. cbn [negb].
    apply String.eqb_neq in Hfull. rewrite Hfull.
    destruct (decoded reply) as [[st [| | | | |r]] |]; try discriminate Hrejects.
    all: try (apply negb_true_iff in Hrejects; rewrite Hrejects; reflexivity).
  - intros Hfail fuel interval sent history Hint Hcount.
    apply failed_attempt_keeps_looping; assumption.
Qed.

(** C5, where the code fails it.  Let the post be answered 2xx with
    [success] true and [verification_required] true.
    - When the reply has a [verification] entry that is not a mapping (a
      null, as a server writes an entry it has nothing for), the code that
      looks for the verification code raises [AttributeError]: no code
      means no failed attempt here, the exception leaves [post_once] and,
      nothing catching it, the loop, after the one request and with no
      prompt.
    - When a code was given, an answer typed and the server's reply to
      [/verify] is a 2xx whose body is not JSON, [JSONDecodeError] leaves
      [post_once] and the loop in the same way. *)
Theorem C5_verification_failure_ends_the_loop :
  (forall (w : world) (status : Z) (d : dict) (v : json),
      network w (List.length (requests w)) = Responds status (Encodes (JObj d)) ->
      in_2xx status = true ->
      truthy (field d "success") = true ->
      truthy (field d "verification_required") = true ->
      (lookup "post" d = None \/ exists p, lookup "post" d = Some (JObj p)) ->
      lookup "verification" d = Some v ->
      (forall m, v <> JObj m) ->
      exists w1,
        attempt w = (Raise AttributeError, w1)
        /\ List.length (requests w1) = S (List.length (requests w))
        /\ reads w1 = reads w
        /\ forall (fuel : nat) (interval sent : Z) (history : list bool),
             Scheduler.scheduler_loop strftime (S fuel) a api_key title interval sent
               history w
             = (Raise AttributeError, w1))
  /\ (forall (w : world) (status : Z) (d verify : dict) (st : Z) (g : string),
         network w (List.length (requests w)) = Responds status (Encodes (JObj d)) ->
         in_2xx status = true ->
         truthy (field d "success") = true ->
         truthy (field d "verification_required") = true ->
         (lookup "post" d = None \/ exists p, lookup "post" d = Some (JObj p)) ->
         lookup "verification" d = Some (JObj verify) ->
         truthy (field verify "code") = true ->
         strip (keyboard w (reads w)) <> EmptyString ->
         network w (S (List.length (requests w))) = Responds st (Garbage g) ->
         fst (attempt w) = Raise JSONDecodeError
         /\ forall (fuel : nat) (interval sent : Z) (history : list bool),
              fst (Scheduler.scheduler_loop strftime (S fuel) a api_key title interval
                     sent history w)
              = Raise JSONDecodeError).
Proof.
  split.
  - intros w status d v Hnet H2xx Hsuccess Hrequired Hpost Hentry Hshape.
    destruct (accepted_post_goes_to_verification w status d Hnet H2xx Hsuccess Hpost)
      as (w1 & Hattempt & _ & Hlen1 & _ & Hreads1).
    assert (Hraise : attempt w = (Raise AttributeError, w1)).
    { rewrite Hattempt. unfold Scheduler.submit_verification_if_needed.
      rewrite (bind_ok _ _ _ _ _ (get_field d "verification_required" w1)).
      rewrite Hrequired. cbn [negb].
      assert (Hget : get (JObj d) "verification" (JObj []) w1 = (Ok v, w1)).
      { unfold get, ret. rewrite Hentry. reflexivity. }
      rewrite (bind_ok _ _ _ _ _ Hget).
      destruct v as [| b | n | s | l | m]; try reflexivity.
      destruct (Hshape m eq_refl). }
    exists w1. split; [exact Hraise |]. split; [exact Hlen1 |].
    split; [exact Hreads1 |].
    intros fuel interval sent history.
    exact (loop_step_raised strftime a api_key title interval fuel sent history
             w w1 AttributeError Hraise).
  - intros w status d verify st g Hnet H2xx Hsuccess Hrequired Hpost Hentry Hcode
      Hanswer Hreply.
    destruct (accepted_post_goes_to_verification w status d Hnet H2xx Hsuccess Hpost)
      as (w1 & Hattempt & Hnet1 & Hlen1 & Hkb1 & Hreads1).
    pose proof (verification_result api_key d verify w1 Hrequired
                  (or_introl Hentry)) as Hresult.
    cbv zeta in Hresult.
    rewrite <- Hattempt, Hkb1, Hreads1, Hnet1, Hlen1, Hcode, Hreply in Hresult.
    apply String.eqb_neq in Hanswer. rewrite Hanswer in Hresult.
    cbn [negb decoded] in Hresult.
    split; [exact Hresult |].
    intros fuel interval sent history.
    destruct (attempt w) as [r w2] eqn:Hrun. cbn [fst] in Hresult. subst r.
    rewrite (loop_step_raised strftime a api_key title interval fuel sent history
               w w2 JSONDecodeError Hrun).
    reflexivity.
Qed.

End Attempt.

(** Three verification challenges: answered and accepted, answered and
    rejected by the server, and left unanswered. *)
Lemma verification_gates_on_mappings_example :
  let challenge_world (net : list http_outcome) (kb : list string) :=
    Scenarios.initial Scenarios.no_files (Scenarios.needs_verification :: net) kb
                      Scenarios.new_year_1am in
  let attempt :=
    Scheduler.post_once Scenarios.strftime "moltbook_sk_1" "general" "mint $CLAW"
                        "CLAW" "100" true in
  (truthy (JStr "vc_1") = true /\ strip "525.00" <> EmptyString
   /\ verify_accepts Scenarios.verify_ok = true)
  /\ fst (attempt (challenge_world [Scenarios.verify_rejected] ["1.00"])) = Ok false
  /\ fst (attempt (challenge_world [] ["   "])) = Ok false.
Proof.
  intros challenge_world attempt.
  pose (body := [("success", JBool true);
                 ("post", JObj [("id", JInt 7); ("url", JStr "/post/7")]);
                 ("verification_required", JBool true);
                 ("verification", JObj [("code", JStr "vc_1");
                                        ("challenge", JStr "21 * 25")])]).
  pose (verify := [("code", JStr "vc_1"); ("challenge", JStr "21 * 25")]).
  assert (post_is_mapping :
            lookup "post" body = None \/ exists p, lookup "post" body = Some (JObj p)).
  { right. eexists. reflexivity. }
  assert (verification_is_mapping :
            lookup "verification" body = Some (JObj verify)
            \/ (lookup "verification" body = None /\ verify = [])).
  { left. reflexivity. }
  split; [| split].
  - destruct (verification_gates_on_mappings Scenarios.strftime (Scenarios.claw_args 30 3)
                "moltbook_sk_1" "mint $CLAW"
                (challenge_world [Scenarios.verify_ok] ["525.00"]) 201 body verify
                eq_refl eq_refl eq_refl eq_refl post_is_mapping verification_is_mapping)
      as [Honly_if _].
    apply Honly_if. vm_compute. reflexivity.
  - destruct (verification_gates_on_mappings Scenarios.strftime (Scenarios.claw_args 30 3)
                "moltbook_sk_1" "mint $CLAW"
                (challenge_world [Scenarios.verify_rejected] ["1.00"]) 201 body verify
                eq_refl eq_refl eq_refl eq_refl post_is_mapping verification_is_mapping)
      as (_ & _ & _ & Hrejected & _).
    apply Hrejected; [reflexivity | discriminate | reflexivity].
  - destruct (verification_gates_on_mappings Scenarios.strftime (Scenarios.claw_args 30 3)
                "moltbook_sk_1" "mint $CLAW"
                (challenge_world [] ["   "]) 201 body verify
                eq_refl eq_refl eq_refl eq_refl post_is_mapping verification_is_mapping)
      as (_ & _ & Hempty & _).
    apply Hempty. reflexivity.
Defined.

(** C5 at the failing input: the post is accepted, a verification is
    required and the [verification] entry is null.  The attempt raises, and
    so does the loop: the scheduler ends where the claim has a failed
    attempt and a loop that goes on. *)
Lemma C5_verification_failure_ends_the_loop_witness :
  let reply :=
    Responds 201 (Encodes (JObj [("success", JBool true);
                                 ("post", JObj [("id", JInt 7); ("url", JStr "/post/7")]);
                                 ("verification_required", JBool true);
                                 ("verification", JNull)])) in
  let w := Scenarios.initial Scenarios.no_files [reply; Scenarios.posted 2] []
             Scenarios.new_year_1am in
  fst (Scheduler.post_once Scenarios.strftime "moltbook_sk_1" "general" "mint $CLAW"
         "CLAW" "100" true w)
  = Raise AttributeError
  /\ fst (Scheduler.scheduler_loop Scenarios.strftime 5 (Scenarios.claw_args 30 3)
            "moltbook_sk_1" "mint $CLAW" 30 0 [] w)
     = Raise AttributeError.
Proof.
  intros reply w.
  assert (Hshape : forall m : dict, JNull <> JObj m) by (intros m; discriminate).
  assert (Hpost : lookup "post"
                    [("success", JBool true);
                     ("post", JObj [("id", JInt 7); ("url", JStr "/post/7")]);
                     ("verification_required", JBool true);
                     ("verification", JNull)] = None
                  \/ exists p, lookup "post"
                                 [("success", JBool true);
                                  ("post", JObj [("id", JInt 7); ("url", JStr "/post/7")]);
                                  ("verification_required", JBool true);
                                  ("verification", JNull)] = Some (JObj p)).
  { right. eexists. reflexivity. }
  destruct (proj1 (C5_verification_failure_ends_the_loop Scenarios.strftime
                     (Scenarios.claw_args 30 3) "moltbook_sk_1" "mint $CLAW")
              w 201 _ JNull eq_refl eq_refl eq_refl eq_refl Hpost eq_refl Hshape)
    as (w1 & Hattempt & _ & _ & Hloop).
  split.
  - change (fst (Scheduler.post_once Scenarios.strftime "moltbook_sk_1"
                   (Scheduler.submolt (Scenarios.claw_args 30 3)) "mint $CLAW"
                   (Scheduler.tick (Scenarios.claw_args 30 3))
                   (str_of_int (Scheduler.amt (Scenarios.claw_args 30 3)))
                   (negb (Scheduler.no_nonce (Scenarios.claw_args 30 3))) w)
            = Raise AttributeError).
    rewrite Hattempt. reflexivity.
  - rewrite (Hloop 4%nat 30 0 []). reflexivity.
Defined.

(** ** Termination of a bounded run *)

Section Termination.

Variable strftime : Z -> string.
Variable a : Scheduler.args.
Variables api_key title : string.
Variable interval : Z.

Lemma accepted_attempt_succeeds (w : world) :
  always_accepts w ->
  exists w1,
    Scheduler.post_once strftime api_key (Scheduler.submolt a) title (Scheduler.tick a)
      (str_of_int (Scheduler.amt a)) (negb (Scheduler.no_nonce a)) w
    = (Ok true, w1)
    /\ network w1 = network w.
Proof.
  intros Hall.
  destruct (Hall (List.length (requests w)))
    as (status & d & Hnet & H2xx & Hsuccess & Hnot_required & Hpost).
  destruct (accepted_post_goes_to_verification strftime a api_key title w status d
              Hnet H2xx Hsuccess Hpost) as (w1 & Hattempt & Hnet1 & _).
  exists w1. split; [| exact Hnet1].
  rewrite Hattempt. unfold Scheduler.submit_verification_if_needed.
  rewrite (bind_ok _ _ _ _ _ (get_field d "verification_required" w1)).
  rewrite Hnot_required. reflexivity.
Qed.

(** Enough fuel gives the result: while every post is accepted, a loop
    that still needs [n + 1] successes returns 0 after exactly [n + 1] more
    attempts. *)
Lemma loop_returns_after_count_successes (n : nat) :
  forall (sent : Z) (history : list bool) (w : world),
    0 <= interval ->
    always_accepts w ->
    0 < Scheduler.count a ->
    Scheduler.count a = sent + Z.of_nat (S n) ->
    exists w',
      Scheduler.scheduler_loop strftime (S n) a api_key title interval sent history w
      = (Ok {| Scheduler.exit_code := Some 0; Scheduler.sent := Scheduler.count a;
               Scheduler.attempts := (history ++ repeat true (S n))%list |}, w').
Proof.
  induction n as [| n IH]; intros sent history w Hint Hall Hpos Hcount;
    destruct (accepted_attempt_succeeds w Hall) as (w1 & Hattempt & Hnet1);
    rewrite (loop_step_succeeded strftime a api_key title interval _ sent history
               w w1 Hattempt Hint); cbv zeta.
  - assert (Htest : (Scheduler.count a >? 0) && (sent + 1 >=? Scheduler.count a) = true).
    { apply andb_true_intro. split; [apply Z.gtb_lt; lia |].
      destruct (Z.geb_spec (sent + 1) (Scheduler.count a));
        [reflexivity | exfalso; lia]. }
    rewrite Htest. replace (sent + 1) with (Scheduler.count a) by lia.
    eexists. reflexivity.
  - assert (Htest : (Scheduler.count a >? 0) && (sent + 1 >=? Scheduler.count a) = false).
    { apply andb_false_intro2.
      destruct (Z.geb_spec (sent + 1) (Scheduler.count a));
        [exfalso; lia | reflexivity]. }
    rewrite Htest.
    destruct (IH (sent + 1) (history ++ [true])%list
                (after_interval_sleep interval
                   (after_print [Lit ("posted count=" ++ str_of_int (sent + 1))] w1))
                Hint) as [w' Hloop].
    + intros k. unfold after_interval_sleep, after_print, sleep, print.
      destruct (interval * 60 <? 0); cbn [snd network]; rewrite Hnet1; apply Hall.
    + exact Hpos.
    + lia.
    + exists w'. rewrite Hloop. rewrite <- app_assoc. reflexivity.
Qed.

End Termination.

(** ** Network failures *)

Section NetworkFailure.

Variable strftime : Z -> string.
Variable a : Scheduler.args.
Variables api_key title : string.

Let attempt : M bool :=
  Scheduler.post_once strftime api_key (Scheduler.submolt a) title (Scheduler.tick a)
    (str_of_int (Scheduler.amt a)) (negb (Scheduler.no_nonce a)).

(** C6, what the code does.  When no reply comes to a request, the agent's
    [post_json] returns status 0 with the text [network error: reason].
    The scheduler's [api_request] raises [URLError] instead: [post_once]
    raises it, and so does the loop, which is left with nothing printed and
    no sleep taken. *)
Theorem C6_network_failure_leaves_the_loop (w : world) (reason : string)
    (fuel : nat) (interval sent : Z) (history : list bool) :
  network w (List.length (requests w)) = FailsURL reason ->
  (forall url headers payload,
      fst (Agent.post_json url headers payload w)
      = Ok (0, [Lit ("network error: " ++ reason)]))
  /\ exists w1,
       attempt w = (Raise (URLError reason), w1)
       /\ Scheduler.scheduler_loop strftime (S fuel) a api_key title interval sent
            history w
          = (Raise (URLError reason), w1)
       /\ stdout w1 = stdout w /\ sleeps w1 = sleeps w.
Proof.
  intros Hnet. split.
  - intros url headers payload. unfold Agent.post_json, bind, urlopen.
    rewrite Hnet. reflexivity.
  - destruct (mint_content_pure strftime (Scheduler.tick a)
                (str_of_int (Scheduler.amt a)) (negb (Scheduler.no_nonce a)) w)
      as [content Hcontent].
    assert (Hattempt : attempt w
                       = (Raise (URLError reason),
                          after_request
                            (request_of "POST" "/posts" api_key
                               (Some (JObj [("submolt", JStr (Scheduler.submolt a));
                                            ("title", JStr title);
                                            ("content", JStr content)]))) w)).
    { unfold attempt, Scheduler.post_once.
      rewrite (bind_ok _ _ _ _ _ Hcontent).
      unfold bind at 1. rewrite api_request_answer, Hnet. reflexivity. }
    eexists. split; [exact Hattempt |].
    split; [| split; reflexivity].
    cbn [Scheduler.scheduler_loop]. apply bind_raise. exact Hattempt.
Qed.

End NetworkFailure.

(** C6 on a session whose first post gets no reply: the loop that was to
    run for ever ends with the exception. *)
Lemma C6_network_failure_leaves_the_loop_witness :
  let w0 := Scenarios.initial Scenarios.no_files [FailsURL "timed out"] []
              Scenarios.new_year_1am in
  exists w1,
    Scheduler.scheduler_loop Scenarios.strftime 5 (Scenarios.claw_args 30 0)
      "moltbook_sk_1" "mint $CLAW" 30 0 [] w0
    = (Raise (URLError "timed out"), w1).
Proof.
  intros w0.
  destruct (C6_network_failure_leaves_the_loop Scenarios.strftime
              (Scenarios.claw_args 30 0) "moltbook_sk_1" "mint $CLAW" w0 "timed out"
              4 30 0 [] eq_refl) as [_ (w1 & _ & Hloop & _)].
  exists w1. exact Hloop.
Defined.

(** ** Configuration and credential errors *)


Lemma load_config_total (w : world) :
  Agent.load_config w = (config_read (files w Agent.CONFIG_PATH), w).
Proof.
  unfold Agent.load_config, bind, path_exists, try_except, read_text, config_read.
  destruct (files w Agent.CONFIG_PATH) as [| | [| j | s] |] eqn:Hf; cbn;
    rewrite ?Hf; reflexivity.
Qed.

Lemma load_config_reads (w : world) (j : json) :
  config_read (files w Agent.CONFIG_PATH) = Ok j -> Agent.load_config w = (Ok j, w).
Proof. intros H. rewrite load_config_total, H. reflexivity. Qed.




Section CredentialErrors.

Variable fromisoformat : string -> option Z.
Variable strftime : Z -> string.


End CredentialErrors.


(** ** Ticker validation *)

Create HintDb requests_log.

Lemma appends_ret {A} (x : A) : appends_requests (ret x).
Proof. intros w r w' H. injection H as _ <-. exists []. symmetry. apply app_nil_r. Qed.

Lemma appends_raise {A} (e : exn) : appends_requests (@raise A e).
Proof. intros w r w' H. injection H as _ <-. exists []. symmetry. apply app_nil_r. Qed.

Lemma appends_bind {A B} (c : M A) (k : A -> M B) :
  appends_requests c -> (forall x, appends_requests (k x)) ->
  appends_requests (bind c k).
Proof.
  intros Hc Hk w r w' H. unfold bind in H.
  destruct (c w) as [[x | e] w1] eqn:Hcw.
  - destruct (Hc _ _ _ Hcw) as [m1 H1]. destruct (Hk x _ _ _ H) as [m2 H2].
    exists (m1 ++ m2)%list. rewrite H2, H1. symmetry. apply app_assoc.
  - injection H as _ <-. exact (Hc _ _ _ Hcw).
Qed.

Lemma appends_print (line : text) : appends_requests (print line).
Proof. intros w r w' H. injection H as _ <-. exists []. symmetry. apply app_nil_r. Qed.

Lemma appends_input (prompt : string) : appends_requests (input prompt).
Proof. intros w r w' H. injection H as _ <-. exists []. symmetry. apply app_nil_r. Qed.

Lemma appends_sleep (seconds : Z) : appends_requests (sleep seconds).
Proof.
  intros w r w' H. unfold sleep in H.
  destruct (seconds <? 0); injection H as _ <-; exists []; symmetry; apply app_nil_r.
Qed.

Lemma appends_urlopen (req : request) : appends_requests (urlopen req).
Proof. intros w r w' H. injection H as _ <-. exists [req]. reflexivity. Qed.

Lemma appends_get (x : json) (key : string) (default : json) :
  appends_requests (get x key default).
Proof. destruct x; first [apply appends_raise | apply appends_ret]. Qed.

Lemma appends_py_int (x : json) : appends_requests (Scheduler.py_int x).
Proof.
  destruct x; cbn; try first [apply appends_raise | apply appends_ret].
  destruct (Scheduler.int_of_str s); first [apply appends_raise | apply appends_ret].
Qed.

Lemma appends_json_loads (t : raw_text) : appends_requests (json_loads t).
Proof. destruct t; first [apply appends_raise | apply appends_ret]. Qed.

Lemma appends_if {A} (b : bool) (c1 c2 : M A) :
  appends_requests c1 -> appends_requests c2 ->
  appends_requests (if b then c1 else c2).
Proof. destruct b; trivial. Qed.

#[local] Hint Resolve appends_ret appends_raise appends_print appends_input
  appends_sleep appends_urlopen appends_get appends_py_int appends_json_loads
  : requests_log.

Ltac log_grows :=
  repeat first
    [ apply appends_bind; [| intros ?]
    | apply appends_if
    | match goal with
      | |- appends_requests (match ?x with _ => _ end) => destruct x
      end
    | solve [auto with requests_log] ].

Lemma appends_api_request (method endpoint api_key : string) (payload : option json) :
  appends_requests (Scheduler.api_request method endpoint api_key payload).
Proof. unfold Scheduler.api_request. cbv zeta. log_grows. Qed.

#[local] Hint Resolve appends_api_request : requests_log.

Lemma appends_submit_verification (api_key : string) (post_resp : json) :
  appends_requests (Scheduler.submit_verification_if_needed api_key post_resp).
Proof. unfold Scheduler.submit_verification_if_needed. log_grows. Qed.

Lemma appends_rate_limit_wait (data : json) :
  appends_requests (Scheduler.rate_limit_wait data).
Proof. unfold Scheduler.rate_limit_wait. log_grows. Qed.

#[local] Hint Resolve appends_submit_verification appends_rate_limit_wait
  : requests_log.

Lemma api_request_logs (method endpoint api_key : string) (payload : option json)
    (w w0 : world) (r : result (Z * json)) :
  Scheduler.api_request method endpoint api_key payload w = (r, w0) ->
  requests w0 = (requests w ++ [request_of method endpoint api_key payload])%list.
Proof.
  rewrite api_request_answer. cbv zeta.
  destruct (network w (List.length (requests w))) as [st [| j1 | g1] | c [| j2 | g2] | reason];
    intros H; injection H as _ <-; reflexivity.
Qed.

Lemma mint_content_shape (strftime : Z -> string) (tick amt : string)
    (add_nonce : bool) (w : world) :
  exists content suffix,
    Scheduler.mint_content strftime tick amt add_nonce w = (Ok content, w)
    /\ content = mint_json tick amt ++ " " ++ "mbc20.xyz" ++ suffix.
Proof.
  unfold Scheduler.mint_content. cbv zeta. rewrite dumps_mint_payload.
  destruct add_nonce; cbn [negb].
  - unfold Scheduler.build_nonce, utcnow, bind, ret.
    do 2 eexists. split; [reflexivity |].
    unfold Scheduler.MBC_LINK. rewrite !append_assoc. reflexivity.
  - exists (mint_json tick amt ++ " " ++ "mbc20.xyz"), EmptyString.
    split; [reflexivity |]. reflexivity.
Qed.

Section Ticker.

Variable strftime : Z -> string.

(** [post_once] sends its request whatever the ticker is: the content
    starts with the JSON object built from the ticker as given. *)
Lemma post_once_sends_the_ticker_as_given (api_key submolt title tick amt : string)
    (add_nonce : bool) (w : world) :
  exists content suffix more,
    content = mint_json tick amt ++ " " ++ "mbc20.xyz" ++ suffix
    /\ requests (snd (Scheduler.post_once strftime api_key submolt title tick amt
                        add_nonce w))
       = (requests w
          ++ request_of "POST" "/posts" api_key
               (Some (JObj [("submolt", JStr submolt); ("title", JStr title);
                            ("content", JStr content)]))
             :: more)%list.
Proof.
  destruct (mint_content_shape strftime tick amt add_nonce w)
    as (content & suffix & Hcontent & Hshape).
  exists content, suffix.
  unfold Scheduler.post_once. rewrite (bind_ok _ _ _ _ _ Hcontent).
  match goal with
  | |- context [bind _ ?k] => set (K := k)
  end.
  assert (HK : forall x, appends_requests (K x)).
  { intros [status data]. unfold K. log_grows. }
  unfold bind.
  destruct (Scheduler.api_request "POST" "/posts" api_key _ w) as [[x | e] w0] eqn:Hreq;
    apply api_request_logs in Hreq.
  - destruct (K x w0) as [r w'] eqn:HKx.
    destruct (HK x _ _ _ HKx) as [more Hmore].
    exists more. split; [exact Hshape |].
    cbn [snd]. rewrite Hmore, Hreq, <- app_assoc. reflexivity.
  - exists []. split; [exact Hshape |]. cbn [snd]. exact Hreq.
Qed.

(** C8, amended.  The agent validates the ticker: [validate_tick] strips
    surrounding whitespace, uppercases, and accepts exactly the texts that
    then fully match [[A-Z0-9]{1,10}]; on any other ticker [cmd_mint] prints
    the error and returns 1.  The scheduler does not validate the ticker:
    whatever it is, [post_once] sends the request with the content built from
    the ticker as given. *)
Theorem C8_agent_validates_scheduler_forwards :
  (forall tick w,
      Agent.validate_tick tick w
      = (if Agent.tick_fullmatch (upper (strip tick))
         then Ok (upper (strip tick))
         else Raise (ValueError "tick must be 1-10 uppercase letters or digits"),
         w))
  /\ (forall args w,
         Agent.tick_fullmatch (upper (strip (Agent.mint_tick args))) = false ->
         Agent.cmd_mint args w
         = (Ok 1, after_print [Lit "tick must be 1-10 uppercase letters or digits"] w))
  /\ (forall api_key submolt title tick amt add_nonce w,
         exists content suffix more,
           content = mint_json tick amt ++ " " ++ "mbc20.xyz" ++ suffix
           /\ requests (snd (Scheduler.post_once strftime api_key submolt title tick
                               amt add_nonce w))
              = (requests w
                 ++ request_of "POST" "/posts" api_key
                      (Some (JObj [("submolt", JStr submolt); ("title", JStr title);
                                   ("content", JStr content)]))
                    :: more)%list).
Proof.
  split; [| split].
  - intros tick w. unfold Agent.validate_tick. cbv zeta.
    destruct (Agent.tick_fullmatch (upper (strip tick))); reflexivity.
  - intros args w Hbad.
    unfold Agent.cmd_mint, Agent.checked, try_except, bind, Agent.validate_tick.
    cbv zeta. rewrite Hbad. reflexivity.
  - exact post_once_sends_the_ticker_as_given.
Qed.

End Ticker.

(** C8 as stated fails: the scheduler is started with a ticker that does
    not match after uppercasing, and it posts it all the same. *)
Lemma C8_unvalidated_ticker_counterexample :
  let w0 := Scenarios.initial Scenarios.good_creds
              [Scenarios.me_reply; Scenarios.posted 1] [] Scenarios.new_year_1am in
  let a := {| Scheduler.tick := "not a ticker!"; Scheduler.amt := 100;
              Scheduler.submolt := "general"; Scheduler.title := "mint";
              Scheduler.interval_minutes := 120; Scheduler.count := 1;
              Scheduler.credentials := Scenarios.creds_path;
              Scheduler.no_nonce := true |} in
  let r := Scheduler.main Scenarios.fromisoformat Scenarios.strftime 1 a w0 in
  Agent.tick_fullmatch (upper "not a ticker!") = false
  /\ fst r = Ok {| Scheduler.exit_code := Some 0; Scheduler.sent := 1;
                   Scheduler.attempts := [true] |}
  /\ nth_error (requests (snd r)) 1
     = Some (request_of "POST" "/posts" "moltbook_sk_1"
               (Some (JObj [("submolt", JStr "general"); ("title", JStr "mint");
                            ("content",
                             JStr (mint_json "not a ticker!" "100" ++ " mbc20.xyz"))]))).
Proof. vm_compute. repeat split. Qed.

(** * Further properties *)

(** ** Text helpers *)

Lemma rstrip_by_clean (drop : ascii -> bool) (s : string) :
  forall_chars (fun c => negb (drop c)) s = true -> rstrip_by drop s = s.
Proof.
  induction s as [| c rest IH]; cbn; [reflexivity |].
  intros H. apply andb_prop in H. destruct H as [Hc Hrest].
  rewrite (IH Hrest). apply negb_true_iff in Hc. rewrite Hc.
  destruct rest; reflexivity.
Qed.

Lemma lstrip_by_clean (drop : ascii -> bool) (s : string) :
  forall_chars (fun c => negb (drop c)) s = true -> lstrip_by drop s = s.
Proof.
  destruct s as [| c rest]; cbn; [reflexivity |].
  intros H. apply andb_prop in H. destruct H as [Hc _].
  apply negb_true_iff in Hc. rewrite Hc. reflexivity.
Qed.

Lemma strip_clean (s : string) :
  forall_chars (fun c => negb (is_space c)) s = true -> strip s = s.
Proof.
  intros H. unfold strip. rewrite (lstrip_by_clean _ _ H). apply rstrip_by_clean, H.
Qed.

Lemma forall_chars_impl (p q : ascii -> bool) (s : string) :
  (forall c, p c = true -> q c = true) ->
  forall_chars p s = true -> forall_chars q s = true.
Proof.
  intros Hpq. induction s as [| c rest IH]; cbn; [reflexivity |].
  intros H. apply andb_prop in H. destruct H as [Hc Hrest].
  rewrite (Hpq c Hc), (IH Hrest). reflexivity.
Qed.

(** What [rstrip] leaves never ends with a character it drops. *)
Lemma rstrip_by_last (drop : ascii -> bool) (s : string) :
  forall (p : string) (c : ascii),
    rstrip_by drop s = p ++ String c EmptyString -> drop c = false.
Proof.
  induction s as [| a rest IH]; intros p c; cbn.
  - destruct p; discriminate.
  - destruct (rstrip_by drop rest) as [| k kept] eqn:Hrest.
    + destruct (drop a) eqn:Ha.
      * destruct p; discriminate.
      * destruct p as [| b p']; cbn; intros H.
        -- injection H as <-. exact Ha.
        -- injection H as _ H. destruct p'; discriminate.
    + destruct p as [| b p']; cbn; intros H.
      * injection H as _ H. discriminate.
      * injection H as _ H. exact (IH p' c H).
Qed.

(** What [lstrip] leaves never starts with a character it drops. *)
Lemma lstrip_by_first (drop : ascii -> bool) (s : string) (c : ascii) (rest : string) :
  lstrip_by drop s = String c rest -> drop c = false.
Proof.
  induction s as [| a s' IH]; cbn; [discriminate |].
  destruct (drop a) eqn:Ha; [exact IH |].
  intros H. injection H as <- _. exact Ha.
Qed.

Lemma upper_or_digit_not_space (c : ascii) :
  Agent.is_upper_or_digit c = true -> negb (is_space c) = true.
Proof.
  unfold Agent.is_upper_or_digit, is_space. cbv zeta.
  generalize (nat_of_ascii c). intros n H.
  apply negb_true_iff.
  destruct (Nat.leb_spec 9 n), (Nat.leb_spec n 13), (Nat.leb_spec 28 n),
    (Nat.leb_spec n 32); cbn; try reflexivity;
    destruct (Nat.leb_spec 65 n), (Nat.leb_spec n 90), (Nat.leb_spec 48 n),
      (Nat.leb_spec n 57); cbn in H; try discriminate H; lia.
Qed.

Lemma upper_or_digit_fixed (c : ascii) :
  Agent.is_upper_or_digit c = true -> upper_char c = c.
Proof.
  unfold Agent.is_upper_or_digit, upper_char. cbv zeta.
  generalize (nat_of_ascii c) at 1 2 3 4 5 6. intros n H.
  destruct (Nat.leb_spec 97 n), (Nat.leb_spec n 122); cbn; try reflexivity.
  destruct (Nat.leb_spec 65 n), (Nat.leb_spec n 90), (Nat.leb_spec 48 n),
    (Nat.leb_spec n 57); cbn in H; try discriminate H; lia.
Qed.

Lemma upper_fixed (s : string) :
  forall_chars Agent.is_upper_or_digit s = true -> upper s = s.
Proof.
  induction s as [| c rest IH]; cbn; [reflexivity |].
  intros H. apply andb_prop in H. destruct H as [Hc Hrest].
  rewrite (upper_or_digit_fixed c Hc), (IH Hrest). reflexivity.
Qed.

(** X1.  A ticker that [validate_tick] returns is in normal form: it fully
    matches the pattern, and validating it again returns it unchanged. *)
Theorem X1_validate_tick_normal_form (tick normalized : string) (w w' : world) :
  Agent.validate_tick tick w = (Ok normalized, w') ->
  w' = w
  /\ normalized = upper (strip tick)
  /\ Agent.tick_fullmatch normalized = true
  /\ Agent.validate_tick normalized w = (Ok normalized, w).
Proof.
  unfold Agent.validate_tick. cbv zeta.
  destruct (Agent.tick_fullmatch (upper (strip tick))) eqn:Hmatch; cbn [negb];
    [| discriminate].
  unfold ret. intros H. injection H as <- <-.
  split; [reflexivity |]. split; [reflexivity |]. split; [exact Hmatch |].
  assert (Hchars : forall_chars Agent.is_upper_or_digit (upper (strip tick)) = true).
  { unfold Agent.tick_fullmatch in Hmatch. apply andb_prop in Hmatch. apply Hmatch. }
  rewrite (strip_clean _ (forall_chars_impl _ _ _ upper_or_digit_not_space Hchars)).
  rewrite (upper_fixed _ Hchars), Hmatch. reflexivity.
Qed.

(** X1 on a lower-case ticker with blanks around it. *)
Lemma X1_validate_tick_normal_form_witness :
  let w := Scenarios.initial Scenarios.no_files [] [] Scenarios.new_year_1am in
  Agent.validate_tick "CLAW9" w = (Ok "CLAW9", w).
Proof.
  intros w.
  apply (X1_validate_tick_normal_form "  claw9 " "CLAW9" w w eq_refl).
Defined.

(** ** Decimal strings *)

Lemma int_of_digits_acc (d : Decimal.uint) :
  forall acc : positive,
    int_of_digits (Z.pos acc) (NilEmpty.string_of_uint d)
    = Z.pos (Pos.of_uint_acc d acc).
Proof.
  induction d; intros acc; cbn [NilEmpty.string_of_uint int_of_digits Pos.of_uint_acc];
    try reflexivity;
    match goal with
    | |- int_of_digits ?v _ = Z.pos (Pos.of_uint_acc _ ?a) =>
        replace v with (Z.pos a)
          by (rewrite ?Pos2Z.inj_add, ?Pos2Z.inj_mul;
              simpl (Z.of_nat (nat_of_ascii _)); lia)
    end; apply IHd.
Qed.

Lemma int_of_digits_uint (d : Decimal.uint) :
  int_of_digits 0 (NilEmpty.string_of_uint d) = Z.of_N (Pos.of_uint d).
Proof.
  induction d; cbn [NilEmpty.string_of_uint int_of_digits Pos.of_uint];
    try reflexivity; try exact IHd;
    match goal with
    | |- int_of_digits ?v _ = Z.of_N (N.pos (Pos.of_uint_acc _ ?a)) =>
        replace v with (Z.pos a)
          by (rewrite ?Pos2Z.inj_add, ?Pos2Z.inj_mul;
              simpl (Z.of_nat (nat_of_ascii _)); lia)
    end; apply int_of_digits_acc.
Qed.

Lemma digits_of_uint (d : Decimal.uint) :
  forall_chars is_digit (NilEmpty.string_of_uint d) = true.
Proof. induction d; cbn; try reflexivity; exact IHd. Qed.

Lemma str_of_int_pos (p : positive) :
  str_of_int (Z.pos p) = NilEmpty.string_of_uint (Pos.to_uint p).
Proof.
  unfold str_of_int. cbn [Z.to_int NilZero.string_of_int NilZero.string_of_uint].
  pose proof (DecimalPos.Unsigned.to_uint_nonnil p) as Hnil.
  destruct (Pos.to_uint p); [contradiction | reflexivity ..].
Qed.

(** [int(str(n)) = n] for a positive [n]. *)
Lemma int_of_str_of_int (p : positive) :
  int_of_digits 0 (str_of_int (Z.pos p)) = Z.pos p.
Proof.
  rewrite str_of_int_pos, int_of_digits_uint, DecimalPos.Unsigned.of_to. reflexivity.
Qed.

Lemma isdigit_str_of_int (p : positive) : isdigit (str_of_int (Z.pos p)) = true.
Proof.
  rewrite str_of_int_pos. unfold isdigit. rewrite digits_of_uint, andb_true_r.
  pose proof (DecimalPos.Unsigned.to_uint_nonnil p) as Hnil.
  destruct (Pos.to_uint p); [contradiction | reflexivity ..].
Qed.

(** [str(n)] of a positive [n] does not start with the digit 0. *)
Lemma str_of_int_no_leading_zero (p : positive) :
  startswith "0" (str_of_int (Z.pos p)) = false.
Proof.
  rewrite str_of_int_pos.
  assert (Hnorm : Decimal.unorm (Pos.to_uint p) = Pos.to_uint p).
  { rewrite <- (DecimalPos.Unsigned.to_of (Pos.to_uint p)).
    rewrite DecimalPos.Unsigned.of_to. reflexivity. }
  pose proof (DecimalPos.Unsigned.to_uint_nonzero p) as Hnonzero.
  destruct (Pos.to_uint p) as [| d' | d' | d' | d' | d' | d' | d' | d' | d' | d'] eqn:Hd;
    try reflexivity.
  exfalso. unfold Decimal.unorm in Hnorm. rewrite DecimalFacts.nzhead_D0 in Hnorm.
  destruct (Decimal.nzhead d') eqn:Hhead; try discriminate Hnorm.
  - injection Hnorm as <-. apply Hnonzero. reflexivity.
  - apply (DecimalFacts.nzhead_nonzero d' d'). rewrite Hhead. exact Hnorm.
Qed.

Lemma digit_not_space (c : ascii) : is_digit c = true -> negb (is_space c) = true.
Proof.
  unfold is_digit, is_space. cbv zeta.
  generalize (nat_of_ascii c). intros n H.
  apply negb_true_iff.
  destruct (Nat.leb_spec 9 n), (Nat.leb_spec n 13), (Nat.leb_spec 28 n),
    (Nat.leb_spec n 32); cbn; try reflexivity;
    destruct (Nat.leb_spec 48 n), (Nat.leb_spec n 57); cbn in H;
    try discriminate H; lia.
Qed.

(** X2.  An amount that [validate_amt] returns is the canonical decimal
    text of a positive integer: it is [str(n)] for the value [n > 0] of the
    trimmed input, has no leading zero, reads back as [n], and validating it
    again returns it unchanged. *)
Theorem X2_validate_amt_canonical (amt out : string) (w w' : world) :
  Agent.validate_amt amt w = (Ok out, w') ->
  let n := int_of_digits 0 (strip amt) in
  w' = w
  /\ isdigit (strip amt) = true
  /\ 0 < n
  /\ out = str_of_int n
  /\ startswith "0" out = false
  /\ int_of_digits 0 out = n
  /\ Agent.validate_amt out w = (Ok out, w).
Proof.
  unfold Agent.validate_amt. cbv zeta.
  destruct (isdigit (strip amt)) eqn:Hdigits; cbn [negb orb]; [| discriminate].
  destruct (Z.leb_spec (int_of_digits 0 (strip amt)) 0) as [Hle | Hpos];
    [discriminate |].
  unfold ret. intros H. injection H as <- <-.
  destruct (int_of_digits 0 (strip amt)) as [| p | p] eqn:Hn; try lia.
  split; [reflexivity |]. split; [reflexivity |]. split; [lia |].
  split; [reflexivity |]. split; [apply str_of_int_no_leading_zero |].
  split; [apply int_of_str_of_int |].
  assert (Hclean : strip (str_of_int (Z.pos p)) = str_of_int (Z.pos p)).
  { apply strip_clean. apply (forall_chars_impl is_digit); [exact digit_not_space |].
    pose proof (isdigit_str_of_int p) as H. unfold isdigit in H.
    apply andb_prop in H. apply H. }
  rewrite Hclean, isdigit_str_of_int, int_of_str_of_int. reflexivity.
Qed.

(** X2 on an amount written with leading zeros and blanks. *)
Lemma X2_validate_amt_canonical_witness :
  let w := Scenarios.initial Scenarios.no_files [] [] Scenarios.new_year_1am in
  Agent.validate_amt "120" w = (Ok "120", w).
Proof.
  intros w.
  apply (X2_validate_amt_canonical " 00120 " "120" w w eq_refl).
Defined.

(** ** The agent's arguments and configuration *)

(** X3.  A base URL that [normalize_api_base] returns is the trimmed input
    without its trailing slashes; it starts with [http://] or [https://] and
    does not end with a slash, so it is never a bare scheme and a path
    appended with one slash has no double slash at the joint. *)
Theorem X3_normalize_api_base_no_trailing_slash (api_base value : string)
    (w w' : world) :
  Agent.normalize_api_base api_base w = (Ok value, w') ->
  w' = w
  /\ value = rstrip_slash (strip api_base)
  /\ startswith "http://" value || startswith "https://" value = true
  /\ (forall p, value <> p ++ "/")
  /\ value <> "http://" /\ value <> "https://".
Proof.
  unfold Agent.normalize_api_base. cbv zeta.
  destruct (startswith "http://" (rstrip_slash (strip api_base))
            || startswith "https://" (rstrip_slash (strip api_base))) eqn:Hscheme;
    cbn [negb]; [| discriminate].
  unfold ret. intros H. injection H as <- <-.
  assert (Hlast : forall p, rstrip_slash (strip api_base) <> p ++ "/").
  { intros p Heq. apply rstrip_by_last in Heq. discriminate Heq. }
  split; [reflexivity |]. split; [reflexivity |]. split; [exact Hscheme |].
  split; [exact Hlast |].
  split; [exact (Hlast "http:/") | exact (Hlast "https:/")].
Qed.

(** X3 on a base URL given with blanks and several trailing slashes. *)
Lemma X3_normalize_api_base_no_trailing_slash_witness :
  let w := Scenarios.initial Scenarios.no_files [] [] Scenarios.new_year_1am in
  "https://www.moltbook.com" = rstrip_slash (strip "  https://www.moltbook.com/// ")
  /\ "https://www.moltbook.com" <> "https://www.moltbook.com" ++ "/".
Proof.
  intros w.
  destruct (X3_normalize_api_base_no_trailing_slash "  https://www.moltbook.com/// "
              "https://www.moltbook.com" w w eq_refl) as (_ & Hvalue & _ & Hlast & _).
  split; [exact Hvalue | exact (Hlast "https://www.moltbook.com")].
Defined.

Lemma setitem_mapping (d : dict) (key : string) (value : json) (w : world) :
  Agent.setitem (JObj d) key value w = (Ok (JObj (store key value d)), w).
Proof. reflexivity. Qed.

Lemma store_same (k : string) (v : json) (d : dict) :
  lookup k d = Some v -> store k v d = d.
Proof.
  induction d as [| [k' v'] rest IH]; cbn; [discriminate |].
  destruct (String.eqb k k') eqn:Hk.
  - intros H. injection H as ->. reflexivity.
  - intros H. rewrite (IH H). reflexivity.
Qed.

Lemma bound_config_keys (args : Agent.bind_args) (d : dict) :
  let d' := bound_config args d in
  lookup "app_key" d' = Some (JStr (strip (Agent.bind_app_key args)))
  /\ lookup "api_base" d'
     = Some (JStr (rstrip_slash (strip (Agent.bind_api_base args))))
  /\ lookup "bot_api_key" d'
     = if bot_key_supplied args
       then match Agent.bind_bot_api_key args with
            | Some k => Some (JStr (strip k))
            | None => None
            end
       else lookup "bot_api_key" d.
Proof.
  unfold bound_config, bot_key_supplied. cbv zeta.
  set (d2 := store "api_base" _ (store "app_key" _ d)).
  assert (Hkey : lookup "app_key" d2 = Some (JStr (strip (Agent.bind_app_key args)))).
  { unfold d2. rewrite lookup_store_other by discriminate. apply lookup_store_same. }
  assert (Hbase : lookup "api_base" d2
                  = Some (JStr (rstrip_slash (strip (Agent.bind_api_base args)))))
    by apply lookup_store_same.
  assert (Hbot : lookup "bot_api_key" d2 = lookup "bot_api_key" d).
  { unfold d2. rewrite !lookup_store_other by discriminate. reflexivity. }
  destruct (Agent.bind_bot_api_key args) as [k |];
    [destruct (negb (String.eqb k EmptyString)) |].
  - rewrite !lookup_store_other by discriminate.
    split; [exact Hkey |]. split; [exact Hbase | apply lookup_store_same].
  - split; [exact Hkey |]. split; [exact Hbase | exact Hbot].
  - split; [exact Hkey |]. split; [exact Hbase | exact Hbot].
Qed.

(** Binding the same arguments over what a bind wrote changes nothing. *)
Lemma bound_config_idempotent (args : Agent.bind_args) (d : dict) :
  bound_config args (bound_config args d) = bound_config args d.
Proof.
  destruct (bound_config_keys args d) as (Hkey & Hbase & Hbot).
  cbv zeta in Hkey, Hbase, Hbot.
  set (d' := bound_config args d) in *.
  unfold bound_config at 1. cbv zeta.
  rewrite (store_same _ _ _ Hkey), (store_same _ _ _ Hbase).
  unfold bot_key_supplied in Hbot.
  destruct (Agent.bind_bot_api_key args) as [k |]; [| reflexivity].
  destruct (negb (String.eqb k EmptyString)); [| reflexivity].
  apply store_same, Hbot.
Qed.

(** A bind with accepted arguments, where the file can be written and
    [load_config] reads a mapping. *)
Lemma bind_run (args : Agent.bind_args) (w : world) (d : dict) :
  files w Agent.CONFIG_PATH <> Unreadable ->
  config_read (files w Agent.CONFIG_PATH) = Ok (JObj d) ->
  startswith "moltdev_" (strip (Agent.bind_app_key args)) = true ->
  startswith "http://" (rstrip_slash (strip (Agent.bind_api_base args)))
  || startswith "https://" (rstrip_slash (strip (Agent.bind_api_base args))) = true ->
  Agent.cmd_bind args w
  = (Ok 0,
     after_print [Lit ("app_key=" ++ take 12 (strip (Agent.bind_app_key args)) ++ "...")]
       (after_print
          [Lit ("api_base=" ++ rstrip_slash (strip (Agent.bind_api_base args)))]
          (after_print [Lit ("bound Moltbook config in " ++ Agent.CONFIG_PATH)]
             (after_save (JObj (bound_config args d)) w)))).
Proof.
  intros Hopen Hconfig Hkey Hbase.
  unfold Agent.cmd_bind. unfold bind at 1. rewrite bind_validation. cbv zeta.
  rewrite Hkey, Hbase.
  rewrite (bind_ok _ _ _ _ _ (load_config_reads w _ Hconfig)).
  rewrite (bind_ok _ _ _ _ _ (setitem_mapping _ _ _ w)).
  rewrite (bind_ok _ _ _ _ _ (setitem_mapping _ _ _ w)).
  unfold bound_config. cbv zeta.
  destruct (Agent.bind_bot_api_key args) as [k |];
    [destruct (negb (String.eqb k EmptyString)) |].
  - rewrite (bind_ok _ _ _ _ _ (setitem_mapping _ _ _ w)).
    rewrite (bind_ok _ _ _ _ _ (save_config_writes _ w Hopen)). reflexivity.
  - rewrite bind_ret, (bind_ok _ _ _ _ _ (save_config_writes _ w Hopen)). reflexivity.
  - rewrite bind_ret, (bind_ok _ _ _ _ _ (save_config_writes _ w Hopen)). reflexivity.
Qed.

(** X4.  A bind with accepted arguments, on a configuration file that is
    missing or holds a text (no JSON at all, or a JSON mapping), returns 0
    without a network call and leaves in the file a mapping with [app_key]
    set to the trimmed key, [api_base] set to the normalized base and
    [bot_api_key] set to the trimmed bot key when one was given, left as it
    was otherwise.  Binding again with the same arguments returns 0 and
    leaves every file as the first bind left it. *)
Theorem X4_bind_is_idempotent (args : Agent.bind_args) (w : world) (d : dict) :
  files w Agent.CONFIG_PATH <> Unreadable ->
  config_read (files w Agent.CONFIG_PATH) = Ok (JObj d) ->
  startswith "moltdev_" (strip (Agent.bind_app_key args)) = true ->
  startswith "http://" (rstrip_slash (strip (Agent.bind_api_base args)))
  || startswith "https://" (rstrip_slash (strip (Agent.bind_api_base args))) = true ->
  exists w' d',
    Agent.cmd_bind args w = (Ok 0, w')
    /\ files w' Agent.CONFIG_PATH = Holds (Encodes (JObj d'))
    /\ lookup "app_key" d' = Some (JStr (strip (Agent.bind_app_key args)))
    /\ lookup "api_base" d'
       = Some (JStr (rstrip_slash (strip (Agent.bind_api_base args))))
    /\ lookup "bot_api_key" d'
       = (if bot_key_supplied args
          then match Agent.bind_bot_api_key args with
               | Some k => Some (JStr (strip k))
               | None => None
               end
          else lookup "bot_api_key" d)
    /\ requests w' = requests w
    /\ exists w'',
         Agent.cmd_bind args w' = (Ok 0, w'')
         /\ forall p, files w'' p = files w' p.
Proof.
  intros Hopen Hconfig Hkey Hbase.
  destruct (bound_config_keys args d) as (Hd_key & Hd_base & Hd_bot).
  cbv zeta in Hd_key, Hd_base, Hd_bot.
  eexists _, (bound_config args d).
  split; [exact (bind_run args w d Hopen Hconfig Hkey Hbase) |].
  set (w' := after_print _ _).
  assert (Hfile : files w' Agent.CONFIG_PATH
                  = Holds (Encodes (JObj (bound_config args d)))).
  { unfold w'. cbn [files after_print print snd after_save].
    rewrite String.eqb_refl. reflexivity. }
  split; [exact Hfile |]. split; [exact Hd_key |]. split; [exact Hd_base |].
  split; [exact Hd_bot |]. split; [reflexivity |].
  assert (Hopen' : files w' Agent.CONFIG_PATH <> Unreadable)
    by (rewrite Hfile; discriminate).
  assert (Hconfig' : config_read (files w' Agent.CONFIG_PATH)
                     = Ok (JObj (bound_config args d)))
    by (rewrite Hfile; reflexivity).
  eexists. split; [exact (bind_run args w' _ Hopen' Hconfig' Hkey Hbase) |].
  intros p. rewrite bound_config_idempotent.
  cbn [files after_print print snd after_save].
  destruct (String.eqb p Agent.CONFIG_PATH) eqn:Hp; [| reflexivity].
  apply String.eqb_eq in Hp. subst p. symmetry. exact Hfile.
Qed.

(** X4 on a first bind, with no configuration file yet, and on the bind
    that repeats it. *)
Lemma X4_bind_is_idempotent_witness :
  let w := Scenarios.initial Scenarios.no_files [] [] Scenarios.new_year_1am in
  let args := {| Agent.bind_app_key := " moltdev_abc ";
                 Agent.bind_api_base := "https://www.moltbook.com/";
                 Agent.bind_bot_api_key := Some " moltbook_sk_1 " |} in
  exists w' w'',
    Agent.cmd_bind args w = (Ok 0, w')
    /\ files w' Agent.CONFIG_PATH
       = Holds (Encodes (JObj [("app_key", JStr "moltdev_abc");
                               ("api_base", JStr "https://www.moltbook.com");
                               ("bot_api_key", JStr "moltbook_sk_1")]))
    /\ Agent.cmd_bind args w' = (Ok 0, w'')
    /\ files w'' Agent.CONFIG_PATH = files w' Agent.CONFIG_PATH.
Proof.
  intros w args.
  assert (Hopen : files w Agent.CONFIG_PATH <> Unreadable) by discriminate.
  destruct (X4_bind_is_idempotent args w [] Hopen eq_refl eq_refl eq_refl)
    as (w' & d' & Hrun & _ & _ & _ & _ & _ & w'' & Hagain & Hsame).
  exists w', w''. split; [exact Hrun |].
  assert (Hw' : w' = snd (Agent.cmd_bind args w)) by (rewrite Hrun; reflexivity).
  split; [rewrite Hw'; vm_compute; reflexivity |].
  split; [exact Hagain | apply Hsame].
Defined.

(** ** What a run does to the world *)

Section Footprint.

Variable P : event -> Prop.

Lemma emits_nothing {A} (c : M A) (w : world) :
  (forall r w', c w = (r, w') -> w' = w) -> emits_from P c w.
Proof.
  intros H r w' Hrun. exists []. split; [exact (H r w' Hrun) | constructor].
Qed.

Lemma emits_ret {A} (x : A) : emits P (ret x).
Proof. intros w. apply emits_nothing. intros r w' H. injection H as _ <-. reflexivity. Qed.

Lemma emits_raise {A} (e : exn) : emits P (@raise A e).
Proof. intros w. apply emits_nothing. intros r w' H. injection H as _ <-. reflexivity. Qed.

Lemma emits_one {A} (c : M A) (e : event) (w : world) :
  P e -> (forall r w', c w = (r, w') -> w' = happen e w) -> emits_from P c w.
Proof.
  intros HP H r w' Hrun. exists [e]. split; [exact (H r w' Hrun) |].
  constructor; [exact HP | constructor].
Qed.

Lemma emits_bind_from {A B} (c : M A) (k : A -> M B) (w : world) :
  emits_from P c w ->
  (forall x w1, c w = (Ok x, w1) -> emits_from P (k x) w1) ->
  emits_from P (bind c k) w.
Proof.
  intros Hc Hk r w' Hrun. unfold bind in Hrun.
  destruct (c w) as [[x | e] w1] eqn:Hcw.
  - destruct (Hc _ _ Hcw) as (evs1 & -> & H1).
    destruct (Hk x _ eq_refl _ _ Hrun) as (evs2 & -> & H2).
    exists (evs1 ++ evs2)%list. split.
    + unfold after_events. rewrite fold_left_app. reflexivity.
    + apply Forall_app. split; assumption.
  - injection Hrun as <- <-. exact (Hc _ _ Hcw).
Qed.

Lemma emits_bind {A B} (c : M A) (k : A -> M B) :
  emits P c -> (forall x, emits P (k x)) -> emits P (bind c k).
Proof.
  intros Hc Hk w. apply emits_bind_from; [apply Hc |]. intros x w1 _. apply Hk.
Qed.

Lemma emits_try_except {A} (c : M A) (handler : exn -> M A) :
  emits P c -> (forall e, emits P (handler e)) -> emits P (try_except c handler).
Proof.
  intros Hc Hh w r w' Hrun. unfold try_except in Hrun.
  destruct (c w) as [[x | e] w1] eqn:Hcw.
  - injection Hrun as <- <-. exact (Hc _ _ _ Hcw).
  - destruct (Hc _ _ _ Hcw) as (evs1 & -> & H1).
    destruct (Hh e _ _ _ Hrun) as (evs2 & -> & H2).
    exists (evs1 ++ evs2)%list. split.
    + unfold after_events. rewrite fold_left_app. reflexivity.
    + apply Forall_app. split; assumption.
Qed.

Lemma emits_try_except_from {A} (c : M A) (handler : exn -> M A) (w : world) :
  emits_from P c w ->
  (forall e w1, c w = (Raise e, w1) -> emits_from P (handler e) w1) ->
  emits_from P (try_except c handler) w.
Proof.
  intros Hc Hh r w' Hrun. unfold try_except in Hrun.
  destruct (c w) as [[x | e] w1] eqn:Hcw.
  - injection Hrun as <- <-. exact (Hc _ _ Hcw).
  - destruct (Hc _ _ Hcw) as (evs1 & -> & H1).
    destruct (Hh e _ eq_refl _ _ Hrun) as (evs2 & -> & H2).
    exists (evs1 ++ evs2)%list. split.
    + unfold after_events. rewrite fold_left_app. reflexivity.
    + apply Forall_app. split; assumption.
Qed.

Lemma emits_if {A} (b : bool) (c1 c2 : M A) :
  emits P c1 -> emits P c2 -> emits P (if b then c1 else c2).
Proof. destruct b; trivial. Qed.

Lemma emits_print (line : text) : P (Printed line) -> emits P (print line).
Proof.
  intros HP w. apply (emits_one _ (Printed line)); [exact HP |].
  intros r w' H. injection H as _ <-. reflexivity.
Qed.

Lemma emits_input (prompt : string) : P (Asked prompt) -> emits P (input prompt).
Proof.
  intros HP w. apply (emits_one _ (Asked prompt)); [exact HP |].
  intros r w' H. injection H as _ <-. reflexivity.
Qed.

Lemma emits_urlopen (req : request) : P (Sent req) -> emits P (urlopen req).
Proof.
  intros HP w. apply (emits_one _ (Sent req)); [exact HP |].
  intros r w' H. injection H as _ <-. reflexivity.
Qed.

Lemma emits_write_text (path : string) (content : raw_text) :
  P (Wrote path content) -> emits P (write_text path content).
Proof.
  intros HP w. apply (emits_one _ (Wrote path content)); [exact HP |].
  intros r w' H. cbn [happen]. rewrite H. reflexivity.
Qed.

Lemma emits_sleep (seconds : Z) :
  (0 <= seconds -> P (Slept seconds)) -> emits P (sleep seconds).
Proof.
  intros HP w r w' H. unfold sleep in H.
  destruct (Z.ltb_spec seconds 0) as [Hneg | Hok].
  - injection H as _ <-. exists []. split; [reflexivity | constructor].
  - exists [Slept seconds]. split.
    + injection H as _ <-. cbn. unfold sleep.
      destruct (Z.ltb_spec seconds 0); [lia | reflexivity].
    + constructor; [exact (HP Hok) | constructor].
Qed.

Lemma emits_utcnow : emits P utcnow.
Proof. intros w. apply emits_nothing. intros r w' H. injection H as _ <-. reflexivity. Qed.

Lemma emits_getenv (name : string) : emits P (getenv name).
Proof. intros w. apply emits_nothing. intros r w' H. injection H as _ <-. reflexivity. Qed.

Lemma emits_path_exists (path : string) : emits P (path_exists path).
Proof. intros w. apply emits_nothing. intros r w' H. injection H as _ <-. reflexivity. Qed.

Lemma emits_read_text (path : string) : emits P (read_text path).
Proof.
  intros w. apply emits_nothing. intros r w' H. unfold read_text in H.
  destruct (files w path) as [| | t |]; injection H as _ <-; reflexivity.
Qed.

Lemma emits_json_loads (t : raw_text) : emits P (json_loads t).
Proof. destruct t; first [apply emits_raise | apply emits_ret]. Qed.

Lemma emits_get (x : json) (key : string) (default : json) : emits P (get x key default).
Proof. destruct x; first [apply emits_raise | apply emits_ret]. Qed.

Lemma emits_getitem (x : json) (key : string) : emits P (getitem x key).
Proof.
  destruct x; try apply emits_raise. cbn.
  destruct (lookup key fields); first [apply emits_raise | apply emits_ret].
Qed.

Lemma emits_as_str (x : json) : emits P (as_str x).
Proof. destruct x; first [apply emits_raise | apply emits_ret]. Qed.

Lemma emits_py_int (x : json) : emits P (Scheduler.py_int x).
Proof.
  destruct x; cbn; try first [apply emits_raise | apply emits_ret].
  destruct (Scheduler.int_of_str s); first [apply emits_raise | apply emits_ret].
Qed.

End Footprint.

Create HintDb footprint.

#[local] Hint Resolve emits_ret emits_raise emits_utcnow emits_getenv
  emits_path_exists emits_read_text emits_json_loads emits_get emits_getitem
  emits_as_str emits_py_int : footprint.

Ltac footprint_step :=
  first
    [ apply emits_bind; [| intros ?]
    | apply emits_try_except; [| intros ?]
    | apply emits_if
    | apply emits_print
    | apply emits_input
    | apply emits_sleep
    | apply emits_urlopen
    | apply emits_write_text
    | match goal with
      | |- emits _ (match ?x with _ => _ end) => destruct x
      end
    | solve [auto with footprint] ].

Ltac footprint := repeat footprint_step.

(** Turns a goal about one starting world into one about all of them. *)
Ltac from_any_world :=
  match goal with
  | |- emits_from ?P ?c ?w =>
      let H := fresh in enough (H : emits P c) by exact (H w)
  end.

(** *** What a series of events leaves alone *)

Lemma after_events_app (evs1 evs2 : list event) (w : world) :
  after_events (evs1 ++ evs2) w = after_events evs2 (after_events evs1 w).
Proof. unfold after_events. apply fold_left_app. Qed.

Lemma happen_clock (e : event) (w : world) : clock w <= clock (happen e w).
Proof.
  destruct e; cbn; try lia.
  - unfold sleep. destruct (Z.ltb_spec seconds 0); cbn; lia.
  - unfold write_text. destruct (files w path); cbn; lia.
Qed.

Lemma after_events_clock (evs : list event) (w : world) :
  clock w <= clock (after_events evs w).
Proof.
  revert w. induction evs as [| e evs IH]; intros w; cbn; [lia |].
  pose proof (happen_clock e w). specialize (IH (happen e w)).
  unfold after_events in IH. lia.
Qed.

Lemma after_events_requests (evs : list event) (w : world) :
  requests (after_events evs w) = (requests w ++ sent_in evs)%list.
Proof.
  revert w. induction evs as [| e evs IH]; intros w; cbn.
  - symmetry. apply app_nil_r.
  - fold (after_events evs (happen e w)). rewrite IH.
    destruct e; cbn; try reflexivity.
    + unfold sleep. destruct (seconds <? 0); reflexivity.
    + rewrite <- app_assoc. reflexivity.
    + unfold write_text. destruct (files w path); reflexivity.
Qed.

Lemma after_events_files (evs : list event) (w : world) :
  Forall (fun e => ~ is_write e) evs -> files (after_events evs w) = files w.
Proof.
  revert w. induction evs as [| e evs IH]; intros w H; cbn; [reflexivity |].
  inversion H as [| e' evs' He Hevs]; subst.
  fold (after_events evs (happen e w)). rewrite (IH _ Hevs).
  destruct e; cbn; try reflexivity.
  - unfold sleep. destruct (seconds <? 0); reflexivity.
  - exfalso. apply He. exact I.
Qed.

Lemma after_events_network (evs : list event) (w : world) :
  network (after_events evs w) = network w.
Proof.
  revert w. induction evs as [| e evs IH]; intros w; cbn; [reflexivity |].
  fold (after_events evs (happen e w)). rewrite IH.
  destruct e; cbn; try reflexivity.
  - unfold sleep. destruct (seconds <? 0); reflexivity.
  - unfold write_text. destruct (files w path); reflexivity.
Qed.

(** *** The scheduler's footprint *)

Lemma emits_api_request (P : event -> Prop) (method endpoint api_key : string)
    (payload : option json) :
  P (Sent (request_of method endpoint api_key payload)) ->
  emits P (Scheduler.api_request method endpoint api_key payload).
Proof.
  intros HP. unfold Scheduler.api_request. cbv zeta.
  apply emits_bind.
  - apply emits_urlopen. destruct payload; exact HP.
  - intros out. footprint.
Qed.

Lemma emits_weaken {A} (P Q : event -> Prop) (c : M A) (w : world) :
  (forall e, P e -> Q e) -> emits_from P c w -> emits_from Q c w.
Proof.
  intros HPQ Hc r w' Hrun. destruct (Hc r w' Hrun) as (evs & Hw & Hall).
  exists evs. split; [exact Hw |]. eapply Forall_impl; [exact HPQ | exact Hall].
Qed.

(** A computation that can have no effect leaves the world as it is. *)
Lemma emits_none_pure {A} (c : M A) (w w' : world) (r : result A) :
  emits (fun _ => False) c -> c w = (r, w') -> w' = w.
Proof.
  intros Hc Hrun. destruct (Hc w r w' Hrun) as (evs & Hw & Hall).
  destruct evs as [| e evs]; [exact Hw |].
  inversion Hall as [| e' evs' He _]. contradiction.
Qed.

Section SchedulerFootprint.

Variable fromisoformat : string -> option Z.
Variable strftime : Z -> string.

Lemma emits_load_api_key (P : event -> Prop) (path : string) :
  emits P (Scheduler.load_api_key path).
Proof. unfold Scheduler.load_api_key. footprint. Qed.

Lemma emits_mint_content (P : event -> Prop) (tick amt : string) (add_nonce : bool) :
  emits P (Scheduler.mint_content strftime tick amt add_nonce).
Proof. unfold Scheduler.mint_content, Scheduler.build_nonce. cbv zeta. footprint. Qed.

Lemma emits_platform_min_interval (P : event -> Prop) (created_at : json) :
  emits P (Scheduler.platform_min_interval_minutes fromisoformat created_at).
Proof.
  unfold Scheduler.platform_min_interval_minutes, Scheduler.parse_iso8601. footprint.
Qed.

Lemma emits_rate_limit_wait (P : event -> Prop) (data : json) :
  emits P (Scheduler.rate_limit_wait data).
Proof. unfold Scheduler.rate_limit_wait. footprint. Qed.

Section WithKey.

Variable api_key : string.
Variable right_key : string -> Prop.
Hypothesis key_is_right : right_key api_key.

Let P : event -> Prop := scheduler_event right_key.

Lemma emits_get_me : emits P (Scheduler.get_me api_key).
Proof.
  unfold Scheduler.get_me.
  apply emits_bind.
  - apply emits_api_request. exists api_key. split; [exact key_is_right |].
    left. reflexivity.
  - intros [code data]. footprint.
Qed.

Lemma emits_submit_verification (post_resp : json) :
  emits P (Scheduler.submit_verification_if_needed api_key post_resp).
Proof.
  unfold Scheduler.submit_verification_if_needed.
  repeat first
    [ apply emits_api_request;
      exists api_key; split; [exact key_is_right |];
      right; right; eexists; reflexivity
    | match goal with
      | |- emits _ (let '(_, _) := ?x in _) => destruct x
      end
    | exact I
    | footprint_step ].
Qed.

Lemma emits_post_once (submolt title tick amt : string) (add_nonce : bool) :
  emits P (Scheduler.post_once strftime api_key submolt title tick amt add_nonce).
Proof.
  unfold Scheduler.post_once.
  apply emits_bind; [apply emits_mint_content |]. intros content.
  apply emits_bind.
  - apply emits_api_request. exists api_key. split; [exact key_is_right |].
    right; left. eexists. reflexivity.
  - intros [status data].
    repeat first
      [ apply emits_rate_limit_wait
      | apply emits_submit_verification
      | exact I
      | footprint_step
      | intros _; cbn; lia ].
Qed.

Lemma emits_scheduler_loop (a : Scheduler.args) (title : string) (interval : Z)
    (fuel : nat) :
  forall (sent : Z) (history : list bool),
    emits P (Scheduler.scheduler_loop strftime fuel a api_key title interval sent
               history).
Proof.
  induction fuel as [| fuel IH]; intros sent history; cbn [Scheduler.scheduler_loop].
  - apply emits_ret.
  - apply emits_bind; [apply emits_post_once |]. intros ok.
    apply emits_bind.
    + destruct ok; footprint; exact I.
    + intros sent'. cbv zeta.
      repeat first [ apply IH | exact I | footprint_step ].
Qed.

End WithKey.

Lemma load_api_key_pure (path : string) (w w' : world) (r : result string) :
  Scheduler.load_api_key path w = (r, w') -> w' = w.
Proof. apply emits_none_pure, emits_load_api_key. Qed.

Lemma started_with_loaded_key (a : Scheduler.args) (w w1 : world)
    (handler : exn -> M (option (string * json))) (k : string) (me : json) :
  (forall e w0, exists w2, handler e w0 = (Ok None, w2)) ->
  try_except (api_key <- Scheduler.load_api_key (Scheduler.credentials a) ;;
              me <- Scheduler.get_me api_key ;;
              ret (Some (api_key, me))) handler w
  = (Ok (Some (k, me)), w1) ->
  loaded_key a w k.
Proof.
  intros Hhandler H. unfold try_except, bind in H. unfold loaded_key.
  destruct (Scheduler.load_api_key (Scheduler.credentials a) w) as [[k0 | e] w0] eqn:Hload.
  - assert (w0 = w) by (eapply load_api_key_pure; exact Hload). subst w0.
    destruct (Scheduler.get_me k0 w) as [[me0 | e] w2].
    + unfold ret in H. injection H as -> _ _. reflexivity.
    + destruct (Hhandler e w2) as [w3 Hh]. rewrite Hh in H. discriminate H.
  - destruct (Hhandler e w0) as [w3 Hh]. rewrite Hh in H. discriminate H.
Qed.

Lemma emits_run_scheduler (fuel : nat) (a : Scheduler.args) (w : world) :
  emits_from (scheduler_event (loaded_key a w))
    (Scheduler.run_scheduler fromisoformat strftime fuel a) w.
Proof.
  unfold Scheduler.run_scheduler.
  apply emits_bind_from.
  - apply emits_try_except_from.
    + apply emits_bind_from; [apply emits_load_api_key |].
      intros k w1 Hload.
      assert (w1 = w) by (eapply load_api_key_pure; exact Hload). subst w1.
      from_any_world.
      apply emits_bind; [apply emits_get_me; exact Hload | intros me; footprint].
    + intros e w1 _. from_any_world. footprint. exact I.
  - intros [[k me] |] w1 Hstarted.
    + apply started_with_loaded_key in Hstarted;
        [| intros e w0; eexists; reflexivity].
      from_any_world. unfold Scheduler.stopped.
      repeat first
        [ apply emits_scheduler_loop; exact Hstarted
        | apply emits_platform_min_interval
        | exact I
        | footprint_step ].
    + apply emits_ret.
Qed.

Lemma emits_main (fuel : nat) (a : Scheduler.args) (w : world) :
  emits_from (scheduler_event (loaded_key a w))
    (Scheduler.main fromisoformat strftime fuel a) w.
Proof.
  unfold Scheduler.main, Scheduler.stopped.
  destruct (Scheduler.amt a <=? 0);
    [from_any_world; footprint; exact I |].
  destruct (Scheduler.interval_minutes a <=? 0);
    [from_any_world; footprint; exact I |].
  destruct (Scheduler.count a <? 0);
    [from_any_world; footprint; exact I |].
  apply emits_run_scheduler.
Qed.

End SchedulerFootprint.

Lemma sent_in_forall (Q : request -> Prop) (P : event -> Prop) (evs : list event) :
  (forall req, P (Sent req) -> Q req) -> Forall P evs -> Forall Q (sent_in evs).
Proof.
  intros HPQ H. induction H as [| e evs He _ IH]; cbn; [constructor |].
  destruct e; cbn; try exact IH. constructor; [exact (HPQ _ He) | exact IH].
Qed.

(** X5.  Whatever its arguments, the world and the fuel, a run of the
    scheduler's [main] writes no file, never turns the clock back, and sends
    only requests of three kinds (GET /agents/me, POST /posts, POST /verify
    under [API_BASE], timeout 30), each carrying the bearer key read from the
    credentials file. *)
Theorem X5_scheduler_footprint (fromisoformat : string -> option Z)
    (strftime : Z -> string) (fuel : nat) (a : Scheduler.args) (w : world) :
  let w' := snd (Scheduler.main fromisoformat strftime fuel a w) in
  files w' = files w
  /\ clock w <= clock w'
  /\ exists sent,
       requests w' = (requests w ++ sent)%list
       /\ Forall (fun req => exists k, loaded_key a w k /\ scheduler_request k req) sent.
Proof.
  intros w'.
  destruct (emits_main fromisoformat strftime fuel a w
              (fst (Scheduler.main fromisoformat strftime fuel a w)) w')
    as (evs & Hw' & Hall).
  { unfold w'. destruct (Scheduler.main fromisoformat strftime fuel a w); reflexivity. }
  rewrite Hw'. split; [| split].
  - apply after_events_files. eapply Forall_impl; [| exact Hall].
    intros [line | seconds | prompt | req | path content] He Hwrite;
      cbn in He, Hwrite; contradiction.
  - apply after_events_clock.
  - exists (sent_in evs). split; [apply after_events_requests |].
    eapply sent_in_forall; [| exact Hall]. intros req H. exact H.
Qed.

(** ** Pace of the loop *)

Lemma post_once_clock (strftime : Z -> string)
    (api_key submolt title tick amt : string) (add_nonce : bool)
    (w w1 : world) (r : result bool) :
  Scheduler.post_once strftime api_key submolt title tick amt add_nonce w = (r, w1) ->
  clock w <= clock w1.
Proof.
  intros H.
  destruct (emits_post_once strftime api_key (eq api_key) eq_refl submolt title tick amt
              add_nonce w r w1 H) as (evs & -> & _).
  apply after_events_clock.
Qed.

Section Pace.

Variable strftime : Z -> string.
Variable a : Scheduler.args.
Variables api_key title : string.
Variable interval : Z.

Lemma loop_elapsed (fuel : nat) :
  forall (sent : Z) (history : list bool) (w w' : world) (r : Scheduler.run),
    Scheduler.scheduler_loop strftime fuel a api_key title interval sent history w
    = (Ok r, w') ->
    0 <= full_intervals r (List.length history)
    /\ clock w + interval * 60 * 1000000 * full_intervals r (List.length history)
       <= clock w'.
Proof.
  induction fuel as [| fuel IH]; intros sent history w w' r Hrun.
  - cbn in Hrun. injection Hrun as <- <-. unfold full_intervals. cbn. lia.
  - cbn [Scheduler.scheduler_loop] in Hrun. unfold bind at 1 in Hrun.
    destruct (Scheduler.post_once strftime api_key (Scheduler.submolt a) title
                (Scheduler.tick a) (str_of_int (Scheduler.amt a))
                (negb (Scheduler.no_nonce a)) w) as [[ok | e] w1] eqn:Hattempt;
      [| discriminate Hrun].
    apply post_once_clock in Hattempt.
    unfold bind at 1 in Hrun.
    assert (Hcounted : exists sent' w2,
               (if ok
                then print [Lit ("posted count=" ++ str_of_int (sent + 1))] ;;
                     ret (sent + 1)
                else ret sent) w1 = (Ok sent', w2)
               /\ clock w2 = clock w1).
    { destruct ok; do 2 eexists; split; reflexivity. }
    destruct Hcounted as (sent' & w2 & Hcounted & Hclock2).
    rewrite Hcounted in Hrun. cbv zeta in Hrun.
    destruct ((Scheduler.count a >? 0) && (sent' >=? Scheduler.count a)).
    + unfold bind, print, ret in Hrun. injection Hrun as <- <-.
      unfold full_intervals. cbn [Scheduler.attempts Scheduler.exit_code clock].
      rewrite length_app. cbn [List.length]. lia.
    + unfold bind at 1 in Hrun. unfold print at 1 in Hrun.
      unfold bind at 1 in Hrun. unfold sleep at 1 in Hrun.
      destruct (Z.ltb_spec (interval * 60) 0) as [Hneg | Hok];
        [discriminate Hrun |].
      apply IH in Hrun. cbn [clock] in Hrun.
      destruct Hrun as [Hnonneg Hrun].
      unfold full_intervals in *. rewrite length_app in Hnonneg, Hrun.
      cbn [List.length] in Hnonneg, Hrun.
      set (n := Z.of_nat (List.length (Scheduler.attempts r))
                - Z.of_nat (List.length history)
                - match Scheduler.exit_code r with Some _ => 1 | None => 0 end) in *.
      replace (Z.of_nat (List.length (Scheduler.attempts r))
               - Z.of_nat (List.length history + 1)
               - match Scheduler.exit_code r with Some _ => 1 | None => 0 end)
        with (n - 1) in Hnonneg, Hrun by (unfold n; lia).
      split; [lia |].
      replace (interval * 60 * 1000000 * n)
        with (interval * 60 * 1000000 + interval * 60 * 1000000 * (n - 1)) by ring.
      lia.
Qed.

(** X6.  A loop that has run without an exception has slept its interval
    after every attempt except the one it returned on: between the start and
    the end of a run with [n] attempts at least [n - 1] intervals ([n] while
    the loop is still going) have passed on the clock. *)
Theorem X6_loop_keeps_its_interval (fuel : nat) (w w' : world) (r : Scheduler.run) :
  Scheduler.scheduler_loop strftime fuel a api_key title interval 0 [] w = (Ok r, w') ->
  let n := Z.of_nat (List.length (Scheduler.attempts r)) in
  let slept := match Scheduler.exit_code r with Some _ => n - 1 | None => n end in
  0 <= slept /\ clock w + interval * 60 * 1000000 * slept <= clock w'.
Proof.
  intros Hrun n slept.
  destruct (loop_elapsed fuel 0 [] w w' r Hrun) as [Hnonneg Helapsed].
  unfold full_intervals in *. cbn [List.length] in *.
  assert (Hslept : slept = n - 0
                           - match Scheduler.exit_code r with Some _ => 1 | None => 0 end).
  { unfold slept. destruct (Scheduler.exit_code r); lia. }
  rewrite Hslept. fold n in Hnonneg, Helapsed. split; assumption.
Qed.

End Pace.

(** X6 on a run of three posts at 30 minutes: two intervals, 3600 seconds,
    have passed at the least. *)
Lemma X6_loop_keeps_its_interval_witness :
  let w0 := Scenarios.initial Scenarios.no_files
              [Scenarios.posted 1; Scenarios.server_error; Scenarios.posted 2]
              [] Scenarios.new_year_1am in
  let run := Scheduler.scheduler_loop Scenarios.strftime 5 (Scenarios.claw_args 30 2)
               "moltbook_sk_1" "mint $CLAW" 30 0 [] w0 in
  clock w0 + 3600 * 1000000 <= clock (snd run).
Proof.
  intros w0 run.
  assert (Hrun : run = (Ok {| Scheduler.exit_code := Some 0; Scheduler.sent := 2;
                              Scheduler.attempts := [true; false; true] |}, snd run))
    by (vm_compute; reflexivity).
  destruct (X6_loop_keeps_its_interval Scenarios.strftime (Scenarios.claw_args 30 2)
              "moltbook_sk_1" "mint $CLAW" 30 5 w0 (snd run) _ Hrun) as [_ H].
  exact H.
Defined.

Section Session.

Variable fromisoformat : string -> option Z.
Variable strftime : Z -> string.

(** A run of [run_scheduler] that raised nothing either stopped before its
    loop, with code 1 and no attempt, or is a run of the loop at an interval
    that is the larger of the requested one and a floor of 30 or 120. *)
Lemma run_scheduler_session (fuel : nat) (a : Scheduler.args) (w w' : world)
    (r : Scheduler.run) :
  Scheduler.run_scheduler fromisoformat strftime fuel a w = (Ok r, w') ->
  (Scheduler.exit_code r = Some 1 /\ Scheduler.attempts r = []
   /\ Scheduler.sent r = 0)
  \/ exists k title floor w1,
       (floor = 30 \/ floor = 120)
       /\ clock w <= clock w1
       /\ Scheduler.scheduler_loop strftime fuel a k title
            (Z.max (Scheduler.interval_minutes a) floor) 0 [] w1
          = (Ok r, w').
Proof.
  intros Hrun. unfold Scheduler.run_scheduler in Hrun.
  unfold bind at 1 in Hrun.
  match type of Hrun with
  | context [try_except ?c ?h w] =>
      assert (Hstart : emits (scheduler_event (fun _ => True)) (try_except c h));
      [| destruct (try_except c h w) as [[started | e] w0] eqn:Htry;
         [| discriminate Hrun] ]
  end.
  { apply emits_try_except; [| intros e; footprint; exact I].
    apply emits_bind; [apply emits_load_api_key |]. intros k.
    apply emits_bind; [apply emits_get_me; exact I | intros me; footprint]. }
  destruct (Hstart _ _ _ Htry) as (evs & -> & _).
  pose proof (after_events_clock evs w) as Hclock.
  set (w0 := after_events evs w) in *.
  destruct started as [[k me] |]; [| left; injection Hrun as <- _; repeat split].
  unfold bind at 1 in Hrun.
  destruct me as [| | | | | fields]; try discriminate Hrun.
  cbn [get] in Hrun. unfold ret at 1 in Hrun.
  destruct (truthy _); cbn [negb] in Hrun;
    [| left; unfold bind, print, Scheduler.stopped, ret in Hrun;
       injection Hrun as <- _; repeat split].
  unfold bind at 1 in Hrun. cbn [getitem] in Hrun.
  destruct (lookup "created_at" fields) as [created_at |]; [| discriminate Hrun].
  unfold ret at 1 in Hrun. unfold bind at 1 in Hrun.
  destruct (Scheduler.platform_min_interval_minutes fromisoformat created_at w0)
    as [[floor | e] w2] eqn:Hfloor; [| discriminate Hrun].
  assert (w2 = w0)
    by (eapply emits_none_pure; [apply emits_platform_min_interval | exact Hfloor]).
  subst w2.
  right. exists k, (replace "{tick}" (Scheduler.tick a) (Scheduler.title a)), floor.
  cbv zeta in Hrun.
  destruct (Scheduler.interval_minutes a <? floor);
    unfold bind at 1 in Hrun; unfold print at 1 in Hrun;
    (eexists; split; [exact (platform_min_interval_values _ _ _ _ _ Hfloor) |];
     split; [| exact Hrun]; exact Hclock).
Qed.

(** X7.  A run of [run_scheduler] with [n >= 1] attempts has taken at
    least [n - 1] times the larger of 30 minutes and the requested interval:
    the scheduler never posts faster than the platform's lowest floor, nor
    faster than asked. *)
Theorem X7_session_pace (fuel : nat) (a : Scheduler.args) (w w' : world)
    (r : Scheduler.run) :
  Scheduler.run_scheduler fromisoformat strftime fuel a w = (Ok r, w') ->
  let n := Z.of_nat (List.length (Scheduler.attempts r)) in
  1 <= n ->
  clock w + Z.max 30 (Scheduler.interval_minutes a) * 60 * 1000000 * (n - 1)
  <= clock w'.
Proof.
  intros Hrun n Hn.
  destruct (run_scheduler_session fuel a w w' r Hrun)
    as [(_ & Hnone & _) | (k & title & floor & w1 & Hfloor & Hclock & Hloop)].
  - unfold n in Hn. rewrite Hnone in Hn. cbn in Hn. lia.
  - destruct (loop_elapsed strftime a k title _ fuel 0 [] w1 w' r Hloop)
      as [Hnonneg Helapsed].
    unfold full_intervals in *. cbn [List.length] in *. fold n in Hnonneg, Helapsed.
    set (slept := n - Z.of_nat 0
                  - match Scheduler.exit_code r with Some _ => 1 | None => 0 end) in *.
    set (interval := Z.max (Scheduler.interval_minutes a) floor) in *.
    set (pace := Z.max 30 (Scheduler.interval_minutes a)).
    assert (Hpace : 0 <= pace <= interval) by (unfold pace, interval; lia).
    assert (Hslept : 0 <= n - 1 <= slept)
      by (unfold slept; destruct (Scheduler.exit_code r); lia).
    assert (Hmono : pace * 60 * 1000000 * (n - 1) <= interval * 60 * 1000000 * slept).
    { apply Z.mul_le_mono_nonneg; lia. }
    lia.
Qed.

End Session.

(** X7 on a session of a day-old account asked for 45 minutes: two posts
    are at least 2700 seconds apart. *)
Lemma X7_session_pace_witness :
  let w0 := Scenarios.initial Scenarios.good_creds
              [Scenarios.me_reply; Scenarios.posted 1; Scenarios.posted 2] []
              (Scenarios.new_year_1am + 2 * day_us) in
  let run := Scheduler.run_scheduler Scenarios.fromisoformat Scenarios.strftime 4
               (Scenarios.claw_args 45 2) w0 in
  clock w0 + 2700 * 1000000 <= clock (snd run).
Proof.
  intros w0 run.
  assert (Hrun : run = (Ok {| Scheduler.exit_code := Some 0; Scheduler.sent := 2;
                              Scheduler.attempts := [true; true] |}, snd run))
    by (vm_compute; reflexivity).
  apply (X7_session_pace Scenarios.fromisoformat Scenarios.strftime 4
           (Scenarios.claw_args 45 2) w0 (snd run) _ Hrun).
  vm_compute. discriminate.
Defined.

(** ** Outcomes of one attempt *)

Lemma sent_in_no_request (evs : list event) :
  Forall no_request evs -> sent_in evs = [].
Proof.
  intros Hall. induction Hall as [| e evs He _ IH]; [reflexivity |].
  destruct e; cbn; try exact IH. destruct He.
Qed.

Lemma emits_no_request_log {A} (c : M A) (w w' : world) (r : result A) :
  emits_from no_request c w -> c w = (r, w') -> requests w' = requests w.
Proof.
  intros Hc Hrun. destruct (Hc r w' Hrun) as (evs & -> & Hall).
  rewrite after_events_requests, (sent_in_no_request evs Hall). apply app_nil_r.
Qed.

Section Attempts.

Variable strftime : Z -> string.
Variables api_key submolt title tick amt : string.
Variable add_nonce : bool.

Let attempt : M bool :=
  Scheduler.post_once strftime api_key submolt title tick amt add_nonce.

Ltac enter_post_once Hcontent Hreply :=
  unfold attempt, Scheduler.post_once;
  rewrite (bind_ok _ _ _ _ _ Hcontent);
  unfold bind at 1;
  rewrite (api_request_decoded _ _ _ _ _ _ Hreply);
  cbv beta iota.

(** X8.  An HTTP error reply other than 429 never stops the scheduler and
    costs no extra wait: whatever the body (JSON or not, a mapping or not),
    [post_once] prints one [post failed] line and returns false, without
    sleeping, prompting or sending anything else. *)
Theorem X8_http_error_is_a_failed_attempt (w : world) (code : Z) (body : raw_text) :
  network w (List.length (requests w)) = FailsHTTP code body ->
  code <> 429 ->
  in_2xx code = false ->
  exists content data,
    decoded (FailsHTTP code body) = Some (code, data)
    /\ attempt w
       = (Ok false,
          after_print [Lit ("post failed (" ++ str_of_int code ++ "): "); Shown data]
            (after_request
               (request_of "POST" "/posts" api_key
                  (Some (post_payload submolt title content))) w)).
Proof.
  intros Hnet H429 H2xx.
  destruct (mint_content_pure strftime tick amt add_nonce w) as [content Hcontent].
  assert (Hdecoded : exists data, decoded (FailsHTTP code body) = Some (code, data)).
  { destruct body; eexists; reflexivity. }
  destruct Hdecoded as [data Hdecoded].
  exists content, data. split; [exact Hdecoded |].
  rewrite <- Hnet in Hdecoded.
  enter_post_once Hcontent Hdecoded.
  apply Z.eqb_neq in H429. rewrite H429.
  assert (Hout : (code <? 200) || (code >=? 300) = true).
  { unfold in_2xx in H2xx. apply andb_false_iff in H2xx.
    destruct H2xx as [H | H].
    - apply Z.leb_gt in H. apply orb_true_iff. left. apply Z.ltb_lt. lia.
    - apply Z.ltb_ge in H. apply orb_true_iff. right.
      destruct (Z.geb_spec code 300); [reflexivity | lia]. }
  rewrite Hout. reflexivity.
Qed.

(** The wait [post_once] takes on a 429 whose body gives the two fields. *)
Lemma post_once_rate_limited (w : world) (d : dict) (s m : Z) :
  decoded (network w (List.length (requests w))) = Some (429, JObj d) ->
  numeric_field d "retry_after_seconds" s ->
  numeric_field d "retry_after_minutes" m ->
  let wait := if Z.max s (m * 60) <=? 0 then 1800 else Z.max s (m * 60) in
  0 < wait
  /\ exists w1,
       attempt w = (Ok false, w1)
       /\ sleeps w1 = (sleeps w ++ [wait])%list
       /\ clock w1 = clock w + wait * 1000000.
Proof.
  intros Hreply Hs Hm wait.
  assert (Hpos : 0 < wait).
  { unfold wait. destruct (Z.leb_spec (Z.max s (m * 60)) 0); lia. }
  split; [exact Hpos |].
  destruct (mint_content_pure strftime tick amt add_nonce w) as [content Hcontent].
  enter_post_once Hcontent Hreply.
  rewrite Z.eqb_refl.
  rewrite (bind_ok _ _ _ _ _ (rate_limit_wait_value d s m _ Hs Hm)).
  fold wait. unfold bind, print, sleep, ret. cbn [stdout sleeps clock].
  assert (Hnonneg : (wait <? 0) = false) by (apply Z.ltb_ge; lia).
  rewrite Hnonneg. eexists. split; [reflexivity |]. split; reflexivity.
Qed.

End Attempts.

Lemma X8_http_error_is_a_failed_attempt_witness :
  let w := Scenarios.initial Scenarios.no_files [Scenarios.server_error] []
             Scenarios.new_year_1am in
  exists content data,
    decoded Scenarios.server_error = Some (500, data)
    /\ Scheduler.post_once Scenarios.strftime "moltbook_sk_1" "general" "mint $CLAW"
         "CLAW" "100" true w
       = (Ok false,
          after_print [Lit ("post failed (" ++ str_of_int 500 ++ "): "); Shown data]
            (after_request
               (request_of "POST" "/posts" "moltbook_sk_1"
                  (Some (post_payload "general" "mint $CLAW" content))) w)).
Proof.
  intros w.
  apply (X8_http_error_is_a_failed_attempt Scenarios.strftime "moltbook_sk_1"
           "general" "mint $CLAW" "CLAW" "100" true w 500
           (Garbage "Internal Server Error")); [reflexivity | lia | reflexivity].
Defined.

Lemma after_interval_sleep_log (interval : Z) (w : world) :
  0 <= interval ->
  sleeps (after_interval_sleep interval w) = (sleeps w ++ [interval * 60])%list
  /\ clock (after_interval_sleep interval w) = clock w + interval * 60 * 1000000
  /\ requests (after_interval_sleep interval w) = requests w.
Proof.
  intros H. unfold after_interval_sleep, after_print, print, sleep. cbn [snd].
  assert (Hs : (interval * 60 <? 0) = false) by (apply Z.ltb_ge; lia).
  rewrite Hs. cbn. repeat split.
Qed.

Lemma bind_requests {A B} (c : M A) (k : A -> M B) (w w1 : world) (r : result A) :
  (forall x, emits no_request (k x)) ->
  c w = (r, w1) ->
  requests (snd (bind c k w)) = requests w1.
Proof.
  intros Hk Hc. unfold bind. rewrite Hc. destruct r as [x | e]; [| reflexivity].
  destruct (k x w1) as [r2 w2] eqn:Hkx. cbn [snd].
  exact (emits_no_request_log _ _ _ _ (Hk x w1) Hkx).
Qed.

Section AcceptedPosts.

Variable strftime : Z -> string.
Variable a : Scheduler.args.
Variables api_key title : string.

Let attempt : M bool :=
  Scheduler.post_once strftime api_key (Scheduler.submolt a) title (Scheduler.tick a)
    (str_of_int (Scheduler.amt a)) (negb (Scheduler.no_nonce a)).

(** An accepted post: the request is logged, the line for the created post
    is printed, and the verification step decides. *)
Lemma accepted_post_world (w : world) (status : Z) (d : dict) :
  decoded (network w (List.length (requests w))) = Some (status, JObj d) ->
  in_2xx status = true ->
  truthy (field d "success") = true ->
  (lookup "post" d = None \/ exists p, lookup "post" d = Some (JObj p)) ->
  exists content,
    attempt w
    = Scheduler.submit_verification_if_needed api_key (JObj d)
        (after_print (created_line d)
           (after_request
              (request_of "POST" "/posts" api_key
                 (Some (post_payload (Scheduler.submolt a) title content))) w)).
Proof.
  intros Hreply H2xx Hsuccess Hpost.
  destruct (mint_content_pure strftime (Scheduler.tick a) (str_of_int (Scheduler.amt a))
              (negb (Scheduler.no_nonce a)) w) as [content Hcontent].
  exists content.
  unfold attempt, Scheduler.post_once.
  rewrite (bind_ok _ _ _ _ _ Hcontent).
  unfold bind at 1. rewrite (api_request_decoded _ _ _ _ _ _ Hreply).
  cbv beta iota.
  unfold in_2xx in H2xx. apply andb_prop in H2xx. destruct H2xx as [Hlo Hhi].
  apply Z.leb_le in Hlo. apply Z.ltb_lt in Hhi.
  assert (H429 : (status =? 429) = false) by (apply Z.eqb_neq; lia).
  assert (Hout : (status <? 200) || (status >=? 300) = false).
  { apply orb_false_intro; [apply Z.ltb_ge; lia |].
    destruct (Z.geb_spec status 300); [lia | reflexivity]. }
  rewrite H429, Hout. cbv iota.
  set (w0 := after_request _ w).
  assert (Hfailed : (s <- get (JObj d) "success" JNull ;; ret (negb (truthy s))) w0
                    = (Ok false, w0)).
  { rewrite (bind_ok _ _ _ _ _ (get_field d "success" w0)), Hsuccess. reflexivity. }
  rewrite (bind_ok _ _ _ _ _ Hfailed).
  unfold created_line. cbv zeta. cbn [get].
  destruct Hpost as [Hnone | [p Hsome]]; [rewrite Hnone | rewrite Hsome];
    rewrite bind_ret; cbn [get]; rewrite !bind_ret;
    rewrite (bind_ok _ _ _ _ _ (print_run _ w0));
    rewrite returns_its_flag; reflexivity.
Qed.


(** X9.  A 429 costs both waits: the attempt sleeps the backoff the reply
    asks for (1800 seconds when it asks for none; never zero or less), fails,
    and the loop then still sleeps its whole interval before the next
    attempt, with the counter unchanged. *)
Theorem X9_rate_limit_then_interval (w : world) (d : dict) (s m : Z)
    (fuel : nat) (interval sent : Z) (history : list bool) :
  decoded (network w (List.length (requests w))) = Some (429, JObj d) ->
  numeric_field d "retry_after_seconds" s ->
  numeric_field d "retry_after_minutes" m ->
  0 <= interval ->
  Scheduler.count a <= 0 \/ sent < Scheduler.count a ->
  let wait := if Z.max s (m * 60) <=? 0 then 1800 else Z.max s (m * 60) in
  0 < wait
  /\ exists w2,
       Scheduler.scheduler_loop strftime (S fuel) a api_key title interval sent history w
       = Scheduler.scheduler_loop strftime fuel a api_key title interval sent
           (history ++ [false])%list w2
       /\ sleeps w2 = (sleeps w ++ [wait; interval * 60])%list
       /\ clock w2 = clock w + (wait + interval * 60) * 1000000.
Proof.
  intros Hreply Hs Hm Hint Hcount wait.
  destruct (post_once_rate_limited strftime api_key (Scheduler.submolt a) title
              (Scheduler.tick a) (str_of_int (Scheduler.amt a))
              (negb (Scheduler.no_nonce a)) w d s m Hreply Hs Hm)
    as [Hpos (w1 & Hattempt & Hsleeps & Hclock)].
  split; [exact Hpos |].
  exists (after_interval_sleep interval w1).
  split; [apply loop_step_failed; assumption |].
  destruct (after_interval_sleep_log interval w1 Hint) as (Hs2 & Hc2 & _).
  rewrite Hs2, Hc2, Hsleeps, Hclock. fold wait.
  split; [rewrite <- app_assoc; reflexivity | lia].
Qed.

(** X10.  A post accepted with no verification asked for is a success at
    once: one request, one line for the created post, no prompt and no sleep
    inside the attempt; the loop then counts it, and either returns 0 (when
    that reaches a requested count) or sleeps its interval and goes on. *)
Theorem X10_accepted_post_counts (w : world) (status : Z) (d : dict) :
  decoded (network w (List.length (requests w))) = Some (status, JObj d) ->
  in_2xx status = true ->
  truthy (field d "success") = true ->
  truthy (field d "verification_required") = false ->
  (lookup "post" d = None \/ exists p, lookup "post" d = Some (JObj p)) ->
  exists content,
    let w1 := after_print (created_line d)
                (after_request
                   (request_of "POST" "/posts" api_key
                      (Some (post_payload (Scheduler.submolt a) title content))) w) in
    attempt w = (Ok true, w1)
    /\ forall (fuel : nat) (interval sent : Z) (history : list bool),
         0 <= interval ->
         let w2 := after_print [Lit ("posted count=" ++ str_of_int (sent + 1))] w1 in
         Scheduler.scheduler_loop strftime (S fuel) a api_key title interval sent
           history w
         = if (Scheduler.count a >? 0) && (sent + 1 >=? Scheduler.count a)
           then (Ok {| Scheduler.exit_code := Some 0; Scheduler.sent := sent + 1;
                       Scheduler.attempts := (history ++ [true])%list |},
                 after_print [Lit "done"] w2)
           else Scheduler.scheduler_loop strftime fuel a api_key title interval
                  (sent + 1) (history ++ [true])%list
                  (after_interval_sleep interval w2).
Proof.
  intros Hreply H2xx Hsuccess Hnot_required Hpost.
  destruct (accepted_post_world w status d Hreply H2xx Hsuccess Hpost)
    as [content Hattempt].
  exists content. cbv zeta.
  assert (Hrun : attempt w
                 = (Ok true,
                    after_print (created_line d)
                      (after_request
                         (request_of "POST" "/posts" api_key
                            (Some (post_payload (Scheduler.submolt a) title content)))
                         w))).
  { rewrite Hattempt. unfold Scheduler.submit_verification_if_needed.
    rewrite (bind_ok _ _ _ _ _ (get_field d "verification_required" _)).
    rewrite Hnot_required. reflexivity. }
  split; [exact Hrun |].
  intros fuel interval sent history Hint.
  exact (loop_step_succeeded strftime a api_key title interval fuel sent history
           w _ Hrun Hint).
Qed.

(** X11.  When an accepted post asks for a verification, the attempt sends
    exactly one further request, to [/verify], if and only if the reply
    carries a code and the operator's answer is non-empty once trimmed; its
    payload is that code with the trimmed answer.  Otherwise the post is the
    only request of the attempt. *)
Theorem X11_verification_request (w : world) (status : Z) (d verify : dict) :
  decoded (network w (List.length (requests w))) = Some (status, JObj d) ->
  in_2xx status = true ->
  truthy (field d "success") = true ->
  truthy (field d "verification_required") = true ->
  (lookup "post" d = None \/ exists p, lookup "post" d = Some (JObj p)) ->
  (lookup "verification" d = Some (JObj verify)
   \/ (lookup "verification" d = None /\ verify = [])) ->
  let code := field verify "code" in
  let answer := strip (keyboard w (reads w)) in
  exists content,
    requests (snd (attempt w))
    = (requests w
       ++ request_of "POST" "/posts" api_key
            (Some (post_payload (Scheduler.submolt a) title content))
          :: (if truthy code && negb (String.eqb answer EmptyString)
              then [request_of "POST" "/verify" api_key
                      (Some (JObj [("verification_code", code);
                                   ("answer", JStr answer)]))]
              else []))%list.
Proof.
  intros Hreply H2xx Hsuccess Hrequired Hpost Hverify code answer.
  destruct (accepted_post_world w status d Hreply H2xx Hsuccess Hpost)
    as [content Hattempt].
  exists content. rewrite Hattempt.
  set (w1 := after_print _ _).
  assert (Hlog1 : requests w1
                  = (requests w
                     ++ [request_of "POST" "/posts" api_key
                           (Some (post_payload (Scheduler.submolt a) title content))])%list)
    by reflexivity.
  assert (Hkb : keyboard w1 = keyboard w /\ reads w1 = reads w) by (split; reflexivity).
  destruct Hkb as [Hkb Hreads].
  clearbody w1.
  unfold Scheduler.submit_verification_if_needed.
  rewrite (bind_ok _ _ _ _ _ (get_field d "verification_required" w1)).
  rewrite Hrequired. cbn [negb].
  assert (Hget : get (JObj d) "verification" (JObj []) w1 = (Ok (JObj verify), w1)).
  { unfold get, ret. destruct Hverify as [-> | [-> ->]]; reflexivity. }
  rewrite (bind_ok _ _ _ _ _ Hget).
  rewrite (bind_ok _ _ _ _ _ (get_field verify "code" w1)).
  rewrite (bind_ok _ _ _ _ _ (get_field verify "challenge" w1)).
  fold code. destruct (truthy code); cbn [negb andb].
  2: { cbn [snd]. rewrite <- Hlog1. reflexivity. }
  rewrite (bind_ok _ _ _ _ _ (print_run _ w1)).
  set (w2 := after_print _ w1).
  assert (Hw3 : exists w3,
             (if truthy (field verify "challenge")
              then print [Lit "Challenge: "; Shown (field verify "challenge")]
              else ret tt) w2 = (Ok tt, w3)
             /\ requests w3 = requests w1
             /\ keyboard w3 = keyboard w /\ reads w3 = reads w).
  { destruct (truthy (field verify "challenge")); eexists;
      (split; [reflexivity |]); repeat split; cbn; assumption. }
  destruct Hw3 as (w3 & Hchallenge & Hlog3 & Hkb3 & Hreads3).
  rewrite (bind_ok _ _ _ _ _ Hchallenge).
  rewrite (bind_ok _ _ _ _ _ (input_run _ w3)).
  rewrite Hkb3, Hreads3. fold answer.
  destruct (String.eqb answer EmptyString); cbn [negb].
  { cbn [snd]. unfold bind, print, ret. cbn [snd requests after_input input].
    rewrite Hlog3, Hlog1. reflexivity. }
  destruct (Scheduler.api_request "POST" "/verify" api_key
              (Some (JObj [("verification_code", code); ("answer", JStr answer)]))
              (after_input "Enter verification answer (example 525.00): " w3))
    as [r4 w4] eqn:Hcall.
  rewrite (fun Hk => bind_requests _ _ _ _ _ Hk Hcall).
  - rewrite (api_request_logs _ _ _ _ _ _ _ Hcall).
    cbn [requests after_input input snd]. rewrite Hlog3, Hlog1, <- app_assoc.
    reflexivity.
  - intros [st result]. footprint; exact I.
Qed.

End AcceptedPosts.

Lemma X9_rate_limit_then_interval_witness :
  let w := Scenarios.initial Scenarios.no_files
             [Scenarios.rate_limited [("retry_after_seconds", JInt 45)]] []
             Scenarios.new_year_1am in
  let a := Scenarios.claw_args 30 0 in
  0 < 45
  /\ exists w2,
       Scheduler.scheduler_loop Scenarios.strftime 1 a "moltbook_sk_1" "mint $CLAW"
         30 0 [] w
       = Scheduler.scheduler_loop Scenarios.strftime 0 a "moltbook_sk_1" "mint $CLAW"
           30 0 [false] w2
       /\ sleeps w2 = [45; 1800]
       /\ clock w2 = clock w + 1845 * 1000000.
Proof.
  intros w a.
  assert (Hseconds : numeric_field [("retry_after_seconds", JInt 45)]
                       "retry_after_seconds" 45) by (right; right; reflexivity).
  assert (Hminutes : numeric_field [("retry_after_seconds", JInt 45)]
                       "retry_after_minutes" 0) by (left; split; reflexivity).
  assert (Hcount : Scheduler.count a <= 0 \/ 0 < Scheduler.count a)
    by (left; cbn; lia).
  exact (X9_rate_limit_then_interval Scenarios.strftime a "moltbook_sk_1"
           "mint $CLAW" w [("retry_after_seconds", JInt 45)] 45 0 0%nat 30 0 []
           eq_refl Hseconds Hminutes ltac:(lia) Hcount).
Defined.

Lemma X10_accepted_post_counts_witness :
  let w := Scenarios.initial Scenarios.no_files [Scenarios.posted 1] []
             Scenarios.new_year_1am in
  let a := Scenarios.claw_args 30 1 in
  exists w1,
    Scheduler.post_once Scenarios.strftime "moltbook_sk_1" "general" "mint $CLAW"
      "CLAW" "100" true w = (Ok true, w1)
    /\ reads w1 = 0%nat /\ sleeps w1 = [] /\ List.length (requests w1) = 1%nat
    /\ fst (Scheduler.scheduler_loop Scenarios.strftime 1 a "moltbook_sk_1"
              "mint $CLAW" 30 0 [] w)
       = Ok {| Scheduler.exit_code := Some 0; Scheduler.sent := 1;
               Scheduler.attempts := [true] |}.
Proof.
  intros w a.
  destruct (X10_accepted_post_counts Scenarios.strftime a "moltbook_sk_1"
              "mint $CLAW" w 201
              [("success", JBool true);
               ("post", JObj [("id", JInt 1); ("url", JStr "/post/1")])]
              eq_refl eq_refl eq_refl eq_refl
              (or_intror (ex_intro _ [("id", JInt 1); ("url", JStr "/post/1")] eq_refl)))
    as (content & Hattempt & Hloop).
  eexists. split; [exact Hattempt |].
  do 3 (split; [reflexivity |]).
  rewrite (Hloop 0%nat 30 0 [] ltac:(lia)). reflexivity.
Defined.

Lemma X11_verification_request_witness :
  let w := Scenarios.initial Scenarios.no_files
             [Scenarios.needs_verification; Scenarios.verify_ok] [" 525.00 "]
             Scenarios.new_year_1am in
  exists content,
    requests (snd (Scheduler.post_once Scenarios.strftime "moltbook_sk_1" "general"
                     "mint $CLAW" "CLAW" "100" true w))
    = [request_of "POST" "/posts" "moltbook_sk_1"
         (Some (post_payload "general" "mint $CLAW" content));
       request_of "POST" "/verify" "moltbook_sk_1"
         (Some (JObj [("verification_code", JStr "vc_1");
                      ("answer", JStr "525.00")]))].
Proof.
  intros w.
  exact (X11_verification_request Scenarios.strftime (Scenarios.claw_args 30 0)
           "moltbook_sk_1" "mint $CLAW" w 201
           [("success", JBool true);
            ("post", JObj [("id", JInt 7); ("url", JStr "/post/7")]);
            ("verification_required", JBool true);
            ("verification", JObj [("code", JStr "vc_1");
                                   ("challenge", JStr "21 * 25")])]
           [("code", JStr "vc_1"); ("challenge", JStr "21 * 25")]
           eq_refl eq_refl eq_refl eq_refl
           (or_intror (ex_intro _ [("id", JInt 7); ("url", JStr "/post/7")] eq_refl))
           (or_introl eq_refl)).
Defined.

(** ** The start of a session *)

(** [get_me] returns the agent entry of an accepted answer and raises on
    every other outcome, one request made either way. *)
Lemma get_me_outcome (api_key : string) (w : world) :
  match agent_of (network w (List.length (requests w))) with
  | Some me =>
      Scheduler.get_me api_key w = (Ok me, after_request (account_query api_key) w)
  | None =>
      exists e, Scheduler.get_me api_key w
                = (Raise e, after_request (account_query api_key) w)
                /\ forall reason,
                     network w (List.length (requests w)) = FailsURL reason ->
                     e = URLError reason
  end.
Proof.
  unfold agent_of, account_query.
  set (w1 := after_request (request_of "GET" "/agents/me" api_key None) w).
  destruct (decoded (network w (List.length (requests w)))) as [[code data] |] eqn:Hreply.
  - assert (Hnot_url : forall (e : exn) (reason : string),
               network w (List.length (requests w)) = FailsURL reason ->
               e = URLError reason).
    { intros e reason Hnet. rewrite Hnet in Hreply. discriminate Hreply. }
    assert (Hcall : Scheduler.get_me api_key w
                    = (failed <- (if negb (code =? 200) then ret true
                                  else s <- get data "success" JNull ;;
                                       ret (negb (truthy s))) ;;
                       if failed
                       then raise (RuntimeError
                                     [Lit ("/agents/me failed (" ++ str_of_int code
                                           ++ "): ");
                                      Shown data])
                       else getitem data "agent") w1).
    { unfold Scheduler.get_me. unfold bind at 1.
      rewrite (api_request_decoded _ _ _ _ _ _ Hreply). reflexivity. }
    rewrite Hcall. clear Hcall.
    destruct (code =? 200); cbn [negb andb].
    + destruct data as [| b | n | s | l | d];
        try (eexists; split; [reflexivity | apply Hnot_url]).
      unfold bind, get, ret, field.
      destruct (truthy match lookup "success" d with Some v => v | None => JNull end);
        cbn [negb getitem].
      * unfold raise, ret.
        destruct (lookup "agent" d) as [me |]; [reflexivity |].
        eexists; split; [reflexivity | apply Hnot_url].
      * eexists; split; [reflexivity | apply Hnot_url].
    + rewrite bind_ret.
      destruct data; (eexists; split; [reflexivity | apply Hnot_url]).
  - unfold Scheduler.get_me. unfold bind at 1. rewrite api_request_answer. cbv zeta.
    fold w1.
    destruct (network w (List.length (requests w))) as [st [| j1 | g1] | c [| j2 | g2] | reason];
      try discriminate Hreply.
    + eexists; split; [reflexivity | intros reason Hnet; discriminate Hnet].
    + eexists; split; [reflexivity |]. intros reason' Hnet. injection Hnet as <-.
      reflexivity.
Qed.

Section Startup.

Variable fromisoformat : string -> option Z.
Variable strftime : Z -> string.

(** X12.  The scheduler posts only for a claimed agent: a run of
    [run_scheduler] that sends anything after its account query has read a
    key from the credentials file and got, as the answer to [/agents/me], a
    200 whose body has a true [success] and an [agent] mapping with a true
    [is_claimed] and a [created_at]. *)
Theorem X12_posts_only_for_a_claimed_agent (fuel : nat) (a : Scheduler.args)
    (w w' : world) (r : result Scheduler.run) :
  Scheduler.run_scheduler fromisoformat strftime fuel a w = (r, w') ->
  (List.length (requests w) + 1 < List.length (requests w'))%nat ->
  exists k agent,
    loaded_key a w k
    /\ agent_of (network w (List.length (requests w))) = Some (JObj agent)
    /\ truthy (field agent "is_claimed") = true
    /\ lookup "created_at" agent <> None.
Proof.
  intros Hrun Hmore. unfold Scheduler.run_scheduler in Hrun.
  unfold bind at 1, try_except in Hrun. unfold bind at 1 in Hrun.
  destruct (Scheduler.load_api_key (Scheduler.credentials a) w) as [[k | e] w0] eqn:Hload;
    assert (w0 = w) by (eapply load_api_key_pure; exact Hload); subst w0.
  2: { cbn in Hrun. injection Hrun as _ <-. cbn in Hmore. lia. }
  unfold bind at 1 in Hrun.
  pose proof (get_me_outcome k w) as Hme.
  assert (Hlog : List.length (requests (after_request (account_query k) w))
                 = (List.length (requests w) + 1)%nat).
  { cbn. rewrite length_app. reflexivity. }
  destruct (agent_of (network w (List.length (requests w)))) as [me |] eqn:Hagent.
  2: { destruct Hme as (e & Hme & _). rewrite Hme in Hrun. cbn in Hrun.
       injection Hrun as _ <-. cbn in Hmore. rewrite length_app in Hmore.
       cbn in Hmore. lia. }
  rewrite Hme in Hrun. unfold ret at 1 in Hrun. cbv beta iota in Hrun.
  set (w1 := after_request (account_query k) w) in *. clearbody w1.
  destruct me as [| b | n | s | l | agent];
    try (cbn in Hrun; injection Hrun as _ <-; lia).
  unfold bind at 1 in Hrun. cbn [get] in Hrun. unfold ret at 1 in Hrun.
  fold (field agent "is_claimed") in Hrun.
  destruct (truthy (field agent "is_claimed")) eqn:Hclaimed; cbn [negb] in Hrun.
  2: { cbn in Hrun. injection Hrun as _ <-. cbn in Hmore. lia. }
  exists k, agent. split; [exact Hload |]. split; [reflexivity |].
  split; [exact Hclaimed |].
  intros Hcreated. unfold bind at 1 in Hrun. cbn [getitem] in Hrun.
  rewrite Hcreated in Hrun. cbn in Hrun. injection Hrun as _ <-. lia.
Qed.

(** X13.  Every refused start is caught: with a key read from the
    credentials file, any outcome of the account query other than an accepted
    answer (a network failure included) makes [run_scheduler] print one line
    and return 1, after that one request and with no attempt made. *)
Theorem X13_refused_start_returns_1 (fuel : nat) (a : Scheduler.args) (w : world)
    (k : string) :
  loaded_key a w k ->
  agent_of (network w (List.length (requests w))) = None ->
  exists line,
    Scheduler.run_scheduler fromisoformat strftime fuel a w
    = (Ok {| Scheduler.exit_code := Some 1; Scheduler.sent := 0;
             Scheduler.attempts := [] |},
       after_print line (after_request (account_query k) w))
    /\ forall reason,
         network w (List.length (requests w)) = FailsURL reason ->
         line = [Lit ("<urlopen error " ++ reason ++ ">")].
Proof.
  intros Hload Hrefused.
  pose proof (get_me_outcome k w) as Hme. rewrite Hrefused in Hme.
  destruct Hme as (e & Hme & Hurl).
  exists (str_exn e). split.
  - unfold Scheduler.run_scheduler. unfold bind at 1, try_except. unfold bind at 1.
    rewrite Hload. unfold bind at 1. rewrite Hme. reflexivity.
  - intros reason Hnet. rewrite (Hurl reason Hnet). reflexivity.
Qed.

End Startup.

Lemma X12_posts_only_for_a_claimed_agent_witness :
  let w := Scenarios.initial Scenarios.good_creds
             [Scenarios.me_reply; Scenarios.posted 1] [] Scenarios.new_year_1am in
  exists k agent,
    loaded_key (Scenarios.claw_args 30 1) w k
    /\ agent_of Scenarios.me_reply = Some (JObj agent)
    /\ truthy (field agent "is_claimed") = true
    /\ lookup "created_at" agent <> None.
Proof.
  intros w.
  refine (X12_posts_only_for_a_claimed_agent Scenarios.fromisoformat
            Scenarios.strftime 1 (Scenarios.claw_args 30 1) w _ _ _ _).
  - apply surjective_pairing.
  - vm_compute. lia.
Defined.

Lemma X13_refused_start_returns_1_witness :
  let w := Scenarios.initial Scenarios.good_creds [] [] Scenarios.new_year_1am in
  exists line,
    Scheduler.run_scheduler Scenarios.fromisoformat Scenarios.strftime 5
      (Scenarios.claw_args 30 1) w
    = (Ok {| Scheduler.exit_code := Some 1; Scheduler.sent := 0;
             Scheduler.attempts := [] |},
       after_print line (after_request (account_query "moltbook_sk_1") w))
    /\ forall reason,
         network w (List.length (requests w)) = FailsURL reason ->
         line = [Lit ("<urlopen error " ++ reason ++ ">")].
Proof.
  intros w.
  exact (X13_refused_start_returns_1 Scenarios.fromisoformat Scenarios.strftime 5
           (Scenarios.claw_args 30 1) w "moltbook_sk_1" eq_refl eq_refl).
Defined.

(** ** The credentials *)

Lemma rstrip_by_idempotent (drop : ascii -> bool) (s : string) :
  rstrip_by drop (rstrip_by drop s) = rstrip_by drop s.
Proof.
  induction s as [| c rest IH]; [reflexivity |]. cbn [rstrip_by].
  destruct (rstrip_by drop rest) as [| k kept] eqn:Hrest.
  - destruct (drop c) eqn:Hc; [reflexivity |]. cbn. rewrite Hc. reflexivity.
  - cbn [rstrip_by]. cbn [rstrip_by] in IH. rewrite IH. reflexivity.
Qed.

Lemma rstrip_by_head (drop : ascii -> bool) (s : string) (c : ascii) (rest : string) :
  rstrip_by drop s = String c rest -> exists rest', s = String c rest'.
Proof.
  destruct s as [| a s']; cbn; [discriminate |].
  destruct (rstrip_by drop s'); [destruct (drop a) |]; intros H;
    try discriminate H; injection H as -> _; eexists; reflexivity.
Qed.

(** [strip] is idempotent. *)
Lemma strip_idempotent (s : string) : strip (strip s) = strip s.
Proof.
  unfold strip.
  destruct (rstrip_by is_space (lstrip_by is_space s)) as [| c rest] eqn:Hs;
    [reflexivity |].
  destruct (rstrip_by_head _ _ _ _ Hs) as [rest' Hhead].
  pose proof (lstrip_by_first _ _ _ _ Hhead) as Hc.
  cbn [lstrip_by]. rewrite Hc. rewrite <- Hs. apply rstrip_by_idempotent.
Qed.

(** X14.  [load_api_key] returns a key exactly when the credentials file
    holds a JSON mapping whose [api_key] is a string that is not blank; the
    key is that string trimmed, so it is never empty and has no white space
    around it, and reading it changes nothing. *)
Theorem X14_loaded_key_is_trimmed (path : string) (w : world) (k : string) :
  ((exists w', Scheduler.load_api_key path w = (Ok k, w'))
   <-> (exists d s, files w path = Holds (Encodes (JObj d))
                    /\ lookup "api_key" d = Some (JStr s)
                    /\ k = strip s /\ k <> EmptyString))
  /\ (forall w', Scheduler.load_api_key path w = (Ok k, w') ->
                 w' = w /\ strip k = k).
Proof.
  assert (Hread : forall w',
             Scheduler.load_api_key path w = (Ok k, w') ->
             w' = w
             /\ exists d s, files w path = Holds (Encodes (JObj d))
                            /\ lookup "api_key" d = Some (JStr s)
                            /\ k = strip s /\ k <> EmptyString).
  { unfold Scheduler.load_api_key, bind, path_exists, read_text. intros w' H.
    destruct (files w path) as [| | [| j | g] |] eqn:Hfile; cbn in H;
      rewrite ?Hfile in H; cbn in H; try discriminate H.
    destruct j as [| b | n | s0 | l | d]; cbn in H; try discriminate H.
    unfold ret in H.
    destruct (lookup "api_key" d) as [[| b | n | s | l | d'] |] eqn:Hkey; cbn in H;
      try discriminate H.
    destruct (String.eqb_spec (strip s) EmptyString) as [Hblank | Hkept];
      [discriminate H |].
    injection H as <- <-. split; [reflexivity |]. exists d, s.
    split; [reflexivity |]. split; [exact Hkey |]. split; [reflexivity | exact Hkept]. }
  split; [split |].
  - intros [w' H]. exact (proj2 (Hread w' H)).
  - intros (d & s & Hfile & Hkey & -> & Hkept).
    exists w. unfold Scheduler.load_api_key, bind, path_exists, read_text.
    unfold json_loads, get, as_str, ret.
    do 3 (rewrite ?Hfile, ?Hkey; cbv beta iota; cbn [negb]).
    destruct (String.eqb_spec (strip s) EmptyString) as [Hblank | _];
      [destruct (Hkept Hblank) | reflexivity].
  - intros w' H. destruct (Hread w' H) as (-> & d & s & _ & _ & -> & _).
    split; [reflexivity | apply strip_idempotent].
Qed.

(** ** The mint command *)

(** Letters and digits are written as they are by [json.dumps]. *)
Lemma escape_char_plain (c : ascii) :
  Agent.is_upper_or_digit c = true -> escape_char c = String c EmptyString.
Proof.
  unfold Agent.is_upper_or_digit, escape_char. cbv zeta.
  generalize (nat_of_ascii c). intros n H.
  assert (Hrange : (48 <= n <= 90)%nat).
  { apply orb_true_iff in H. destruct H as [H | H]; apply andb_true_iff in H;
      destruct H as [Hlow Hhigh]; apply Nat.leb_le in Hlow, Hhigh; lia. }
  repeat match goal with
         | |- context [(n =? ?k)%nat] =>
             destruct (Nat.eqb_spec n k) as [Heq | _]; [exfalso; lia |]
         end.
  assert (Hprintable : ((32 <=? n) && (n <=? 126))%nat = true).
  { apply andb_true_iff. split; apply Nat.leb_le; lia. }
  rewrite Hprintable. reflexivity.
Qed.

Lemma escape_plain (s : string) :
  forall_chars Agent.is_upper_or_digit s = true -> escape s = s.
Proof.
  induction s as [| c rest IH]; cbn [escape forall_chars]; [reflexivity |].
  intros H. apply andb_prop in H. destruct H as [Hc Hrest].
  rewrite (escape_char_plain c Hc), (IH Hrest). reflexivity.
Qed.

Lemma digit_is_upper_or_digit (c : ascii) :
  is_digit c = true -> Agent.is_upper_or_digit c = true.
Proof.
  unfold is_digit, Agent.is_upper_or_digit. cbv zeta. intros ->. apply orb_true_r.
Qed.

(** X15.  The mint command never raises and has one effect only, a single
    printed line, whatever its arguments.  It returns 0 exactly when the
    ticker and the amount are both accepted, and the line is then the JSON
    object with the normalised ticker and the canonical amount written as
    they are (no character of them is escaped), two line feeds and the link;
    otherwise it returns 1 and the line is the ticker's error if the ticker
    is refused, the amount's error if only the amount is.  (Amounts are
    taken short enough for [int] to convert them: [int] is total on digits
    here.) *)
Theorem X15_mint_prints_one_line (args : Agent.mint_args) (w : world) :
  let tick := upper (strip (Agent.mint_tick args)) in
  let raw := strip (Agent.mint_amt args) in
  let amt := str_of_int (int_of_digits 0 raw) in
  Agent.cmd_mint args w
  = if Agent.tick_fullmatch tick
    then if isdigit raw && (0 <? int_of_digits 0 raw)
         then (Ok 0,
               after_print
                 [Lit ("{" ++ quoted "p" ++ ":" ++ quoted "mbc-20" ++ ","
                           ++ quoted "op" ++ ":" ++ quoted "mint" ++ ","
                           ++ quoted "tick" ++ ":" ++ quoted tick ++ ","
                           ++ quoted "amt" ++ ":" ++ quoted amt ++ "}"
                           ++ Agent.nl ++ Agent.nl ++ "mbc20.xyz")] w)
         else (Ok 1, after_print [Lit "amt must be a positive integer"] w)
    else (Ok 1, after_print [Lit "tick must be 1-10 uppercase letters or digits"] w).
Proof.
  intros tick raw amt.
  unfold Agent.cmd_mint, Agent.checked, try_except. unfold bind at 1 2 3.
  unfold Agent.validate_tick. fold tick.
  destruct (Agent.tick_fullmatch tick) eqn:Htick; cbn [negb]; [| reflexivity].
  unfold ret at 1. cbv beta iota. unfold bind at 1.
  unfold Agent.validate_amt. fold raw.
  destruct (isdigit raw) eqn:Hdigits; cbn [negb orb andb]; [| reflexivity].
  destruct (Z.leb_spec (int_of_digits 0 raw) 0) as [Hle | Hpos].
  - assert (Hnot : (0 <? int_of_digits 0 raw) = false) by (apply Z.ltb_ge; lia).
    rewrite Hnot. reflexivity.
  - assert (Hyes : (0 <? int_of_digits 0 raw) = true) by (apply Z.ltb_lt; lia).
    rewrite Hyes. unfold ret. cbv beta iota. unfold bind. cbv beta iota.
    assert (Hplain_tick : escape tick = tick).
    { apply escape_plain. unfold Agent.tick_fullmatch in Htick.
      apply andb_prop in Htick. exact (proj2 Htick). }
    assert (Hplain_amt : escape amt = amt).
    { apply escape_plain. unfold amt.
      destruct (int_of_digits 0 raw) as [| p | p]; try lia.
      rewrite str_of_int_pos.
      apply (forall_chars_impl is_digit); [exact digit_is_upper_or_digit |].
      apply digits_of_uint. }
    fold amt. unfold Agent.build_mint_post.
    rewrite dumps_mint_payload. unfold mint_json.
    rewrite Hplain_tick, Hplain_amt.
    repeat rewrite append_assoc. reflexivity.
Qed.

(** ** The two identity commands *)







(** ** What the identity commands do to the world *)

Lemma emits_load_config (P : event -> Prop) : emits P Agent.load_config.
Proof.
  unfold Agent.load_config. footprint.
Qed.

Lemma emits_on_value_error (P : event -> Prop) (e : exn) :
  (forall line, P (Printed line)) -> emits P (Agent.on_value_error e).
Proof. intros HP. destruct e; cbn [Agent.on_value_error]; footprint; apply HP. Qed.

Lemma emits_checked {A} (P : event -> Prop) (c : M A) :
  (forall line, P (Printed line)) -> emits P c -> emits P (Agent.checked c).
Proof.
  intros HP Hc. unfold Agent.checked.
  apply emits_try_except; [apply emits_bind; [exact Hc | intros x; apply emits_ret] |].
  intros e. apply emits_bind; [apply emits_on_value_error, HP | intros x; apply emits_ret].
Qed.

Lemma emits_normalize_api_base (P : event -> Prop) (api_base : string) :
  emits P (Agent.normalize_api_base api_base).
Proof. unfold Agent.normalize_api_base. cbv zeta. footprint. Qed.

Lemma emits_validate_app_key (P : event -> Prop) (app_key : string) :
  emits P (Agent.validate_app_key app_key).
Proof. unfold Agent.validate_app_key. cbv zeta. footprint. Qed.

Lemma emits_post_json (P : event -> Prop) (url : string)
    (headers : list (string * text)) (payload : json) :
  P (Sent (json_post url headers payload)) ->
  emits P (Agent.post_json url headers payload).
Proof.
  intros HP. unfold Agent.post_json.
  apply emits_bind; [apply emits_urlopen; exact HP |].
  intros out. destruct out; apply emits_ret.
Qed.

(** A base that [normalize_api_base] returns has a scheme. *)
Lemma normalized_has_scheme (api_base value : string) (w w' : world) :
  Agent.normalize_api_base api_base w = (Ok value, w') -> has_scheme value = true.
Proof.
  unfold Agent.normalize_api_base, has_scheme. cbv zeta.
  destruct (startswith "http://" _ || startswith "https://" _) eqn:Hscheme;
    cbn [negb]; intros H; [| discriminate H].
  injection H as <- _. exact Hscheme.
Qed.

Lemma checked_inl {A} (c : M A) (w w' : world) (x : A) :
  Agent.checked c w = (Ok (inl x), w') -> c w = (Ok x, w').
Proof.
  unfold Agent.checked, try_except, bind.
  destruct (c w) as [[y | e] w1]; cbn.
  - intros H. injection H as <- <-. reflexivity.
  - destruct (Agent.on_value_error e w1) as [[code | e'] w2]; cbn; discriminate.
Qed.

Lemma identity_endpoint (base : string) (headers : list (string * text))
    (payload : json) :
  has_scheme base = true ->
  agent_request (json_post (base ++ "/api/v1/agents/me/identity-token") headers payload).
Proof.
  intros H. repeat split; [discriminate |]. exists base. split; [exact H | left; reflexivity].
Qed.

Lemma verify_endpoint (base : string) (headers : list (string * text))
    (payload : json) :
  has_scheme base = true ->
  agent_request (json_post (base ++ "/api/v1/agents/verify-identity") headers payload).
Proof.
  intros H. repeat split; [discriminate |]. exists base. split; [exact H | right; reflexivity].
Qed.

Lemma emits_cmd_identity_token (arg : option string) :
  emits agent_event (Agent.cmd_identity_token arg).
Proof.
  unfold Agent.cmd_identity_token.
  apply emits_bind; [apply emits_load_config | intros config].
  apply emits_bind; [apply emits_get | intros api_base].
  intros w. apply emits_bind_from.
  - apply emits_checked; [intros line; exact I |].
    apply emits_bind; [apply emits_as_str | intros s; apply emits_normalize_api_base].
  - intros [base | code] w1 Hchecked; [| apply emits_ret].
    apply checked_inl in Hchecked. unfold bind in Hchecked.
    destruct (as_str api_base w) as [[s | e] w0]; [| discriminate Hchecked].
    apply normalized_has_scheme in Hchecked.
    from_any_world.
    apply emits_bind; [apply emits_get | intros bound].
    apply emits_bind; [apply emits_getenv | intros env]. cbv zeta.
    apply emits_if; [footprint; exact I |].
    apply emits_bind;
      [apply emits_post_json, identity_endpoint; exact Hchecked |].
    intros [status body]. footprint; exact I.
Qed.

Lemma emits_cmd_verify_identity (args : Agent.verify_args) :
  emits agent_event (Agent.cmd_verify_identity args).
Proof.
  unfold Agent.cmd_verify_identity.
  apply emits_bind; [apply emits_load_config | intros config].
  apply emits_bind; [apply emits_if; [apply emits_ret | apply emits_get] | intros bound].
  apply emits_bind; [apply emits_getenv | intros env]. cbv zeta.
  apply emits_bind; [apply emits_get | intros api_base].
  apply emits_if; [footprint; exact I |].
  intros w. apply emits_bind_from.
  - apply emits_checked; [intros line; exact I |].
    apply emits_bind; [apply emits_as_str | intros k].
    apply emits_bind; [apply emits_validate_app_key | intros app_key].
    apply emits_bind; [apply emits_as_str | intros b].
    apply emits_bind; [apply emits_normalize_api_base | intros base; apply emits_ret].
  - intros [[app_key base] | code] w1 Hchecked; [| apply emits_ret].
    apply checked_inl in Hchecked. unfold bind in Hchecked.
    destruct (as_str _ w) as [[k | e] w2]; [| discriminate Hchecked].
    destruct (Agent.validate_app_key k w2) as [[k' | e] w3]; [| discriminate Hchecked].
    destruct (as_str api_base w3) as [[b | e] w4]; [| discriminate Hchecked].
    destruct (Agent.normalize_api_base b w4) as [[base' | e] w5] eqn:Hbase;
      [| discriminate Hchecked].
    unfold ret in Hchecked. injection Hchecked as _ <- _.
    apply normalized_has_scheme in Hbase.
    from_any_world.
    apply emits_bind; [apply emits_post_json, verify_endpoint; exact Hbase |].
    intros [status body]. footprint; exact I.
Qed.

Lemma happen_quiet (e : event) (w : world) :
  agent_event e ->
  sleeps (happen e w) = sleeps w /\ reads (happen e w) = reads w
  /\ clock (happen e w) = clock w /\ files (happen e w) = files w.
Proof. destruct e; cbn; intros H; try destruct H; repeat split. Qed.

Lemma after_events_quiet (evs : list event) :
  Forall agent_event evs ->
  forall w, sleeps (after_events evs w) = sleeps w
            /\ reads (after_events evs w) = reads w
            /\ clock (after_events evs w) = clock w
            /\ files (after_events evs w) = files w.
Proof.
  intros Hall. induction Hall as [| e evs He _ IH]; intros w; [repeat split |].
  cbn. fold (after_events evs (happen e w)).
  destruct (IH (happen e w)) as (-> & -> & -> & ->). apply happen_quiet, He.
Qed.

Lemma footprint_of_events {A} (c : M A) (w : world) :
  emits agent_event c -> identity_footprint w (snd (c w)).
Proof.
  intros Hc. destruct (c w) as [r w'] eqn:Hrun. cbn [snd].
  destruct (Hc w r w' Hrun) as (evs & -> & Hall).
  destruct (after_events_quiet evs Hall w) as (Hsleeps & Hreads & Hclock & Hfiles).
  unfold identity_footprint. repeat (split; [assumption |]).
  exists (sent_in evs). split; [apply after_events_requests |].
  eapply sent_in_forall; [| exact Hall]. intros req H. exact H.
Qed.

(** X18.  Whatever the configuration, the environment and the arguments,
    and whether they return or raise, [identity-token] and [verify-identity]
    write no file, never sleep or prompt, and send nothing but POSTs with a
    20 second timeout to their own endpoint under a base that starts with
    [http://] or [https://]. *)
Theorem X18_identity_commands_footprint :
  (forall (arg : option string) (w : world),
     identity_footprint w (snd (Agent.cmd_identity_token arg w)))
  /\ (forall (args : Agent.verify_args) (w : world),
        identity_footprint w (snd (Agent.cmd_verify_identity args w))).
Proof.
  split; intros x w; apply footprint_of_events;
    [apply emits_cmd_identity_token | apply emits_cmd_verify_identity].
Qed.

(** X19.  The tolerance of [load_config] ends at JSON that is not a mapping:
    with such a configuration file, a bind whose arguments are accepted
    raises [TypeError], and [identity-token] and [verify-identity] raise
    [AttributeError]; nothing is printed, written or sent. *)
Theorem X19_non_mapping_config_crashes (j : json) (w : world) :
  files w Agent.CONFIG_PATH = Holds (Encodes j) ->
  (forall d, j <> JObj d) ->
  (forall args,
     startswith "moltdev_" (strip (Agent.bind_app_key args)) = true ->
     has_scheme (rstrip_slash (strip (Agent.bind_api_base args))) = true ->
     Agent.cmd_bind args w = (Raise TypeError, w))
  /\ (forall arg, Agent.cmd_identity_token arg w = (Raise AttributeError, w))
  /\ (forall args, Agent.cmd_verify_identity args w = (Raise AttributeError, w)).
Proof.
  intros Hfile Hshape.
  assert (Hload : Agent.load_config w = (Ok j, w)).
  { rewrite load_config_total, Hfile. reflexivity. }
  split; [| split].
  - intros args Hkey Hbase. unfold has_scheme in Hbase.
    unfold Agent.cmd_bind. unfold bind at 1. rewrite bind_validation. cbv zeta.
    rewrite Hkey, Hbase. rewrite (bind_ok _ _ _ _ _ Hload).
    destruct j as [| b | n | s | l | d]; try reflexivity.
    destruct (Hshape d eq_refl).
  - intros arg. unfold Agent.cmd_identity_token.
    rewrite (bind_ok _ _ _ _ _ Hload).
    destruct j as [| b | n | s | l | d]; try reflexivity.
    destruct (Hshape d eq_refl).
  - intros args. unfold Agent.cmd_verify_identity.
    rewrite (bind_ok _ _ _ _ _ Hload).
    destruct j as [| b | n | s | l | d]; try (destruct (Hshape d eq_refl));
      destruct (truthy (Agent.of_option (Agent.verify_app_key args))); reflexivity.
Qed.

Lemma X19_non_mapping_config_crashes_witness :
  let w := Scenarios.initial
             (Scenarios.with_file Agent.CONFIG_PATH (JArr []) Scenarios.no_files)
             [] [] Scenarios.new_year_1am in
  Agent.cmd_bind {| Agent.bind_app_key := "moltdev_abc";
                    Agent.bind_api_base := "https://www.moltbook.com";
                    Agent.bind_bot_api_key := None |} w
  = (Raise TypeError, w)
  /\ Agent.cmd_identity_token (Some "moltbook_sk_1") w = (Raise AttributeError, w).
Proof.
  intros w.
  assert (Hshape : forall d, JArr [] <> JObj d) by (intros d; discriminate).
  destruct (X19_non_mapping_config_crashes (JArr []) w eq_refl Hshape)
    as (Hbind & Htoken & _).
  split; [apply Hbind; reflexivity | apply Htoken].
Defined.

(** ** Exit codes *)

Section ExitCodes.

Variable fromisoformat : string -> option Z.
Variable strftime : Z -> string.

(** X20.  A run of [main] that returns does so with 1 or 0.  With 1 no
    attempt has been made: the arguments were refused or the session did not
    start.  With 0 the arguments were accepted, a positive count was asked
    for, and exactly that many attempts succeeded, the last one among them. *)
Theorem X20_exit_codes (fuel : nat) (a : Scheduler.args) (w w' : world)
    (r : Scheduler.run) (code : Z) :
  Scheduler.main fromisoformat strftime fuel a w = (Ok r, w') ->
  Scheduler.exit_code r = Some code ->
  (code = 1 /\ Scheduler.attempts r = [] /\ Scheduler.sent r = 0)
  \/ (code = 0
      /\ 0 < Scheduler.amt a /\ 0 < Scheduler.interval_minutes a
      /\ 0 < Scheduler.count a
      /\ successes (Scheduler.attempts r) = Scheduler.count a
      /\ exists earlier, Scheduler.attempts r = (earlier ++ [true])%list).
Proof.
  intros Hrun Hcode. unfold Scheduler.main in Hrun.
  destruct (Z.leb_spec (Scheduler.amt a) 0) as [Hamt | Hamt].
  { left. cbn in Hrun. injection Hrun as <- _. cbn in Hcode. injection Hcode as <-.
    repeat split. }
  destruct (Z.leb_spec (Scheduler.interval_minutes a) 0) as [Hinterval | Hinterval].
  { left. cbn in Hrun. injection Hrun as <- _. cbn in Hcode. injection Hcode as <-.
    repeat split. }
  destruct (Z.ltb_spec (Scheduler.count a) 0) as [Hcount | Hcount].
  { left. cbn in Hrun. injection Hrun as <- _. cbn in Hcode. injection Hcode as <-.
    repeat split. }
  destruct (run_scheduler_session fromisoformat strftime fuel a w w' r Hrun)
    as [(Hone & Hnone & Hsent) | (k & title & floor & w1 & _ & _ & Hloop)].
  - left. rewrite Hone in Hcode. injection Hcode as <-.
    split; [reflexivity |]. split; [exact Hnone | exact Hsent].
  - right.
    destruct (loop_accounting strftime a k title _ fuel 0 [] w1 w' r eq_refl
                ltac:(lia) Hloop) as [Hsent Hexit].
    rewrite Hcode in Hexit. destruct Hexit as (-> & Hpositive & Hreached & Hlast).
    split; [reflexivity |]. do 3 (split; [lia |]).
    split; [rewrite <- Hsent; exact Hreached | exact Hlast].
Qed.

End ExitCodes.

(** X20 on a session asked for one post. *)
Lemma X20_exit_codes_witness :
  let w := Scenarios.initial Scenarios.good_creds
             [Scenarios.me_reply; Scenarios.posted 1] [] Scenarios.new_year_1am in
  let a := Scenarios.claw_args 30 1 in
  fst (Scheduler.main Scenarios.fromisoformat Scenarios.strftime 3 a w)
  = Ok {| Scheduler.exit_code := Some 0; Scheduler.sent := 1;
          Scheduler.attempts := [true] |}
  /\ successes [true] = Scheduler.count a.
Proof.
  intros w a. split; [reflexivity |].
  destruct (X20_exit_codes Scenarios.fromisoformat Scenarios.strftime 3 a w
              (snd (Scheduler.main Scenarios.fromisoformat Scenarios.strftime 3 a w))
              {| Scheduler.exit_code := Some 0; Scheduler.sent := 1;
                 Scheduler.attempts := [true] |} 0 eq_refl eq_refl)
    as [(Hone & _) | (_ & _ & _ & _ & Hsuccesses & _)].
  - discriminate Hone.
  - exact Hsuccesses.
Defined.

(** ** Timestamps *)

Lemma prefix_z (c : ascii) (rest : string) :
  String.prefix "Z" (String c rest) = Ascii.eqb c "Z"%char.
Proof.
  change (String.prefix "Z" (String c rest))
    with (if ascii_dec "Z"%char c then String.prefix EmptyString rest else false).
  destruct (ascii_dec "Z"%char c) as [<- | Hne]; [destruct rest; reflexivity |].
  symmetry. apply Ascii.eqb_neq. intros ->. apply Hne. reflexivity.
Qed.

Lemma endswith_z_app (body : string) : endswith "Z" (body ++ "Z") = true.
Proof.
  induction body as [| c rest IH]; [reflexivity |].
  cbn [append endswith]. rewrite IH. apply orb_true_r.
Qed.

Lemma replace_trailing_z (body : string) :
  forall_chars not_z body = true ->
  replace "Z" "+00:00" (body ++ "Z") = body ++ "+00:00".
Proof.
  unfold replace. induction body as [| c rest IH]; [reflexivity |].
  cbn [forall_chars]. intros H. apply andb_prop in H. destruct H as [Hc Hrest].
  cbn [append replace_from]. rewrite prefix_z.
  unfold not_z in Hc. apply negb_true_iff in Hc. rewrite Hc, (IH Hrest). reflexivity.
Qed.

Lemma endswith_z_offset (body : string) :
  forall_chars not_z body = true -> endswith "Z" (body ++ "+00:00") = false.
Proof.
  induction body as [| c rest IH]; [reflexivity |].
  cbn [forall_chars]. intros H. apply andb_prop in H. destruct H as [Hc Hrest].
  cbn [append endswith]. rewrite (IH Hrest), orb_false_r.
  unfold not_z in Hc. apply negb_true_iff in Hc.
  cbn [String.eqb]. rewrite Ascii.eqb_sym, Hc. reflexivity.
Qed.

(** X21.  A trailing [Z] is read as UTC: when no other [Z] occurs in it, a
    timestamp that ends with [Z] is parsed exactly as the same timestamp with
    [+00:00] in its place, which [fromisoformat] gets as it is. *)
Theorem X21_trailing_z_is_utc (fromisoformat : string -> option Z) (body : string)
    (w : world) :
  forall_chars not_z body = true ->
  Scheduler.parse_iso8601 fromisoformat (JStr (body ++ "Z")) w
  = Scheduler.parse_iso8601 fromisoformat (JStr (body ++ "+00:00")) w
  /\ Scheduler.parse_iso8601 fromisoformat (JStr (body ++ "Z")) w
     = match fromisoformat (body ++ "+00:00") with
       | Some t => (Ok t, w)
       | None => (Raise (ValueError "Invalid isoformat string"), w)
       end.
Proof.
  intros Hbody.
  unfold Scheduler.parse_iso8601, bind, as_str, ret. cbv zeta.
  rewrite endswith_z_app, (replace_trailing_z body Hbody),
    (endswith_z_offset body Hbody).
  split; [reflexivity |].
  destruct (fromisoformat (body ++ "+00:00")); reflexivity.
Qed.

Lemma X21_trailing_z_is_utc_witness :
  let w := Scenarios.initial Scenarios.no_files [] [] Scenarios.new_year_1am in
  Scheduler.parse_iso8601 Scenarios.fromisoformat (JStr "2026-01-01T00:00:00Z") w
  = (Ok 1767225600000000, w).
Proof.
  intros w.
  exact (proj2 (X21_trailing_z_is_utc Scenarios.fromisoformat "2026-01-01T00:00:00"
                  w eq_refl)).
Defined.

(** ** The auth-url command *)

Lemma forall_chars_app (p : ascii -> bool) (s t : string) :
  forall_chars p (s ++ t) = forall_chars p s && forall_chars p t.
Proof.
  induction s as [| c rest IH]; cbn [append forall_chars]; [reflexivity |].
  rewrite IH. apply andb_assoc.
Qed.

Lemma append_empty_r (s : string) : s ++ EmptyString = s.
Proof. induction s as [| c rest IH]; cbn; [| rewrite IH]; reflexivity. Qed.

Lemma quote_plus_char_safe (c : ascii) :
  forall_chars query_safe (Parse.quote_plus_char c) = true.
Proof. destruct c as [[] [] [] [] [] [] [] []]; reflexivity. Qed.

Lemma quote_plus_safe (s : string) : forall_chars query_safe (Parse.quote_plus s) = true.
Proof.
  induction s as [| c rest IH]; [reflexivity |].
  cbn [Parse.quote_plus]. rewrite forall_chars_app, quote_plus_char_safe, IH. reflexivity.
Qed.

(** X22.  The auth-url command never raises and only prints one line, the
    address of the instructions page with the trimmed application name and
    endpoint as its [app] and [endpoint] parameters, and the trimmed header
    as a third one exactly when a header that is not empty was given (one of
    blanks only gives an empty [header=]).  Each value is quoted into
    always-safe characters, [+] and [%], so no argument can add a parameter
    or end the query. *)
Theorem X22_auth_url_is_well_formed (args : AuthUrl.auth_url_args) (w : world) :
  let name := Parse.quote_plus (strip (AuthUrl.app_name args)) in
  let endpoint := Parse.quote_plus (strip (AuthUrl.endpoint args)) in
  let third :=
    match AuthUrl.header args with
    | Some h => if String.eqb h EmptyString then EmptyString
                else "&header=" ++ Parse.quote_plus (strip h)
    | None => EmptyString
    end in
  AuthUrl.cmd_auth_url args w
  = (Ok 0,
     after_print [Lit ("https://moltbook.com/auth.md?app=" ++ name
                       ++ "&endpoint=" ++ endpoint ++ third)] w)
  /\ forall_chars query_safe name = true
  /\ forall_chars query_safe endpoint = true
  /\ (forall h, AuthUrl.header args = Some h ->
                forall_chars query_safe (Parse.quote_plus (strip h)) = true).
Proof.
  intros name endpoint third.
  split; [| split; [apply quote_plus_safe | split; [apply quote_plus_safe |]]].
  - unfold AuthUrl.cmd_auth_url, bind, print, ret, after_print. cbn [snd].
    do 4 f_equal.
    assert (Hquery : forall query : list (string * string),
               Parse.urlencode (("app", strip (AuthUrl.app_name args))
                                :: ("endpoint", strip (AuthUrl.endpoint args))
                                :: query)
               = "app=" ++ name ++ "&endpoint=" ++ endpoint
                 ++ match query with
                    | [] => EmptyString
                    | _ => "&" ++ Parse.urlencode query
                    end).
    { intros query. unfold Parse.urlencode. cbn [List.map String.concat fst snd].
      fold name endpoint.
      change (Parse.quote_plus "app") with "app".
      change (Parse.quote_plus "endpoint") with "endpoint".
      destruct query as [| kv query]; cbn [List.map String.concat];
        repeat rewrite append_assoc; cbn [append]; rewrite ?append_empty_r;
        reflexivity. }
    cbv zeta. unfold third.
    destruct (AuthUrl.header args) as [h |].
    + destruct (String.eqb h EmptyString); cbn [negb List.app].
      * rewrite Hquery. reflexivity.
      * rewrite Hquery. unfold Parse.urlencode. cbn [List.map String.concat fst snd].
        change (Parse.quote_plus "header") with "header".
        repeat rewrite append_assoc. reflexivity.
    + rewrite Hquery. reflexivity.
  - intros h _. apply quote_plus_safe.
Qed.
